(** * fierce: a DNS reconnaissance pipeline

    A shallow embedding of [fierce.py] and the properties of its address
    arithmetic, its reverse-lookup filter, its visited set and its
    discovery pipeline.

    Conventions of the embedding.
    - An [ipaddress.IPv4Address] is the integer it wraps, a [Z] in
      [0, 2^32); the constructor's range check is [IPv4Address].
    - A raised Python exception is [Raise e]; pure code lives in [result],
      code that talks to the resolver, the network, the file system or the
      terminal lives in the monad [M], which threads the state of the
      outside world and collects the calls made, with their answers.
    - A [dict] is a [gmap], a [set] is a [gset]; the order in which Python
      walks a set is a parameter of the development. *)

From Stdlib Require Import ZArith Lia Ascii String PrimFloat.
From stdpp Require Import base numbers list strings pretty gmap sets fin_maps.

Open Scope Z_scope.
Set Warnings "-clear-no-such-hyp".

(** ** Exceptions *)

(** The exception classes the program can meet.  A constructor stands for
    the class and its subclasses, which is what an [except] clause
    matches. *)
Inductive exn : Type :=
| NXDOMAIN               (* dns.resolver.NXDOMAIN *)
| ConnectionResetError   (* builtin *)
| FormError              (* dns.exception.FormError *)
| TypeError              (* builtin *)
| AttributeError         (* builtin *)
| AddressValueError      (* ipaddress.AddressValueError *)
| ValueError             (* builtin, other than AddressValueError *)
| OtherError (name : string). (* any class unrelated to the above *)

Inductive result (A : Type) : Type :=
| Ok (a : A)
| Raise (e : exn).
Arguments Ok {A} a.
Arguments Raise {A} e.

Module Res.
Definition bind {A B} (r : result A) (f : A -> result B) : result B :=
  match r with
  | Ok a => f a
  | Raise e => Raise e
  end.

(** A list comprehension whose element expression can raise: elements
    are evaluated left to right, the first exception ends it. *)
Fixpoint mapM {A B} (f : A -> result B) (l : list A) : result (list B) :=
  match l with
  | [] => Ok []
  | x :: l' =>
      bind (f x) (fun y => bind (mapM f l') (fun ys => Ok (y :: ys)))
  end.
End Res.

Declare Scope res_scope.
Delimit Scope res_scope with res.
Notation "'let?' x := c1 'in' c2" := (Res.bind c1 (fun x => c2))
  (at level 10, x name, c1 at level 100, c2 at level 200) : res_scope.

(** ** AddressSpace *)

Definition ALL_ONES : Z := 2 ^ 32 - 1.

(** [ipaddress.IPv4Address(n)] for an integer [n]. *)
Definition IPv4Address (n : Z) : result Z :=
  if bool_decide (0 <= n <= ALL_ONES) then Ok n else Raise AddressValueError.

Definition valid_ip (a : Z) : Prop := 0 <= a <= ALL_ONES.

(** [ipaddress.ip_address(n)] for an integer [n]: an IPv4 address when it
    fits, else an IPv6 address when it fits, else [ValueError]. *)
Inductive ipaddr : Type :=
| IPv4 (n : Z)
| IPv6 (n : Z).

Definition ip_address (n : Z) : result ipaddr :=
  if bool_decide (0 <= n <= ALL_ONES) then Ok (IPv4 n)
  else if bool_decide (0 <= n <= 2 ^ 128 - 1) then Ok (IPv6 n)
  else Raise ValueError.

(** An [ipaddress.IPv4Network]. *)
Record IPv4Network : Type := mkNet {
  network_address : Z;
  prefixlen : Z
}.

Definition hostmask (net : IPv4Network) : Z := 2 ^ (32 - prefixlen net) - 1.
Definition netmask (net : IPv4Network) : Z := Z.lxor (hostmask net) ALL_ONES.
Definition broadcast_address (net : IPv4Network) : Z :=
  Z.lor (network_address net) (hostmask net).
Definition num_addresses (net : IPv4Network) : Z :=
  broadcast_address net - network_address net + 1.

(** [IPv4Network('{}/{}'.format(a, plen))], strict: the text of [a] must be
    that of an IPv4 address and no host bit may be set. *)
Definition IPv4Network_of (a : ipaddr) (plen : Z) : result IPv4Network :=
  match a with
  | IPv6 _ => Raise AddressValueError
  | IPv4 n =>
      let net := mkNet n plen in
      if bool_decide (Z.land n (netmask net) = n) then Ok net
      else Raise ValueError
  end.

(** [ip in net]. *)
Definition net_contains (net : IPv4Network) (ip : Z) : bool :=
  bool_decide (Z.land ip (netmask net) = network_address net).

(** [list(net)]: [range(network, broadcast + 1)]. *)
Definition net_list (net : IPv4Network) : list Z :=
  seqZ (network_address net) (num_addresses net).

(** [range(a, b)]. *)
Definition py_range (a b : Z) : list Z := seqZ a (b - a).

Definition get_class_c_network (ip : Z) : result IPv4Network :=
  (let? floored := ip_address (ip - ip `mod` 2 ^ 8) in
   IPv4Network_of floored 24)%res.

Definition traverse_expander (ip : Z) (n : Z) : result (list Z) :=
  (let? class_c := get_class_c_network ip in
   let? result := Res.mapM (fun i => IPv4Address (ip + i)) (py_range (- n) (n + 1)) in
   Ok (filter (fun i => net_contains class_c i = true) result))%res.

Definition wide_expander (ip : Z) : result (list Z) :=
  (let? class_c := get_class_c_network ip in
   Ok (net_list class_c))%res.


(** *** Text of an address *)

(** [ip_int.to_bytes(4, 'big')]. *)
Definition octets (a : Z) : list Z :=
  [Z.land (Z.shiftr a 24) 255; Z.land (Z.shiftr a 16) 255;
   Z.land (Z.shiftr a 8) 255; Z.land a 255].

(** [str(ip)]: ['.'.join(map(str, octets))]. *)
Definition str_ip (a : Z) : string :=
  String.concat "." (map (pretty : Z -> string) (octets a)).

(** [text.split('.')]. *)
Fixpoint split_dot_go (cur : string) (s : string) : list string :=
  match s with
  | EmptyString => [String.rev cur]
  | String c s' =>
      if Ascii.eqb c "."%char then String.rev cur :: split_dot_go EmptyString s'
      else split_dot_go (String c cur) s'
  end.
Definition split_dot : string -> list string := split_dot_go EmptyString.

Definition digit_val (c : ascii) : option Z :=
  let n := Z.of_N (N_of_ascii c) in
  if bool_decide (48 <= n <= 57) then Some (n - 48) else None.

Fixpoint digits_val (acc : Z) (s : string) : option Z :=
  match s with
  | EmptyString => Some acc
  | String c s' =>
      match digit_val c with
      | Some d => digits_val (10 * acc + d) s'
      | None => None
      end
  end.

(** [IPv4Address._parse_octet]: one to three decimal digits, no leading
    zero on a longer text, value at most 255. *)
Definition parse_octet (s : string) : option Z :=
  match s with
  | EmptyString => None
  | String c s' =>
      if bool_decide (3 < String.length s)%nat then None
      else if Ascii.eqb c "0"%char && negb (String.eqb s' EmptyString) then None
      else match digits_val 0 s with
           | Some v => if bool_decide (v <= 255) then Some v else None
           | None => None
           end
  end.

(** [int.from_bytes(octets, 'big')]. *)
Definition from_octets (os : list Z) : Z :=
  fold_left (fun acc o => Z.lor (Z.shiftl acc 8) o) os 0.

(** [ipaddress.IPv4Address(text)] for a text. *)
Definition IPv4Address_of_text (s : string) : result Z :=
  let parts := split_dot s in
  if bool_decide (length parts = 4%nat) then
    match mapM parse_octet parts with
    | Some os => Ok (from_octets os)
    | None => Raise AddressValueError
    end
  else Raise AddressValueError.

(** ** Python values the pipeline handles *)

(** [needle in hay] on texts: case-sensitive substring containment. *)
Fixpoint str_contains (needle hay : string) : bool :=
  String.prefix needle hay
  || match hay with
     | EmptyString => false
     | String _ hay' => str_contains needle hay'
     end.

(** Truthiness of the values tested by [if]. *)
Definition truthy_str (s : string) : bool := negb (String.eqb s EmptyString).
Definition truthy_list {A} (l : list A) : bool :=
  match l with [] => false | _ => true end.
Definition truthy_opt {A} (t : A -> bool) (o : option A) : bool :=
  match o with Some a => t a | None => false end.
Definition truthy_int (n : Z) : bool := negb (n =? 0).
Definition truthy_float (x : float) : bool := negb (PrimFloat.eqb x 0%float).

(** ** The DNS collaborator's data *)

(** The record types queried: ['A'], ['NS'], ['SOA'], ['PTR']. *)
Inductive rtype : Type := RT_A | RT_NS | RT_SOA | RT_PTR.

(** One record of an answer, with the attributes the pipeline reads. *)
Inductive rdata : Type :=
| RdA (address : string)
| RdNS (target : string)
| RdSOA (mname : string) (others : string)
| RdPTR (target : string).

Definition to_text (rd : rdata) : string :=
  match rd with
  | RdA a => a
  | RdNS t => t
  | RdSOA m o => m +:+ " " +:+ o
  | RdPTR t => t
  end.

(** [rd.mname] and [rd.address]. *)
Definition get_mname (rd : rdata) : result string :=
  match rd with RdSOA m _ => Ok m | _ => Raise AttributeError end.
Definition get_address (rd : rdata) : result string :=
  match rd with RdA a => Ok a | _ => Raise AttributeError end.

(** A [dns.resolver.Answer]: the resolver raises [NoAnswer] rather than
    return an empty one, so there is a first record. *)
Record Answer : Type := mkAnswer {
  ans_first : rdata;   (* answer[0] *)
  ans_rest : list rdata
}.
Definition ans_list (a : Answer) : list rdata := ans_first a :: ans_rest a.
(** [len(answer) > 0] decides its truth value. *)
Definition truthy_answer (a : Answer) : bool := truthy_list (ans_list a).

(** A [dns.zone.Zone]: nodes by name, a node being its record lines. *)
Record Zone : Type := mkZone { zone_nodes : gmap string (list string) }.
(** [node.to_text(name)]. *)
Definition node_to_text (name : string) (node : list string) : string :=
  String.concat (String "010"%char EmptyString)
    (map (fun line => name +:+ " " +:+ line) node).
(** [dns.zone.Zone] defines neither [__bool__] nor [__len__]: every zone
    object is true. *)
Definition truthy_zone (z : Zone) : bool := true.

(** ** Calls to the outside world *)

(** What a run does that can be seen from outside, each call with what it
    returned or raised. *)
Inductive event : Type :=
| EvNameservers (servers : list string) (r : result unit)
                                              (* resolver.nameservers = .. *)
| EvReadlines (path : string) (r : result (list string))
| EvQuery (qname : string) (rt : rtype) (r : result Answer)
| EvXfr (address domain : string) (r : result Zone)
| EvRandint (v : Z)
| EvPrint (line : string)
| EvPPrint (d : gmap string string)
| EvSleep (secs : float) (r : result unit).

(** The collaborators: the resolver and the network behind it, the file
    system, the random source and the clock, over a state [W] of the
    outside world; and the pure library functions the pipeline calls
    but whose text handling is not its concern.  Assigning the name
    servers of the resolver goes through a property setter, which checks
    the entries in recent versions of the library and can raise. *)
Record Collab (W : Type) : Type := mkCollab {
  resolver_query : string -> rtype -> W -> result Answer * W;
  set_nameservers : list string -> W -> result unit * W;
  from_xfr : string -> string -> W -> result Zone * W;
  readlines : string -> W -> result (list string) * W;
  randint : W -> Z * W;
  sleep : float -> W -> result unit * W;
  (* dns.reversename.from_address *)
  from_address : string -> string;
  (* str.strip(), with the white space of Unicode *)
  str_strip : string -> string;
  (* ipaddress.IPv4Network(text) *)
  IPv4Network_of_text : string -> result IPv4Network;
  (* the order in which a set is walked *)
  set_order : gset Z -> list Z;
  set_order_perm : forall s, set_order s ≡ₚ elements s
}.
Arguments resolver_query {W} _ _ _ _.
Arguments set_nameservers {W} _ _ _.
Arguments from_xfr {W} _ _ _ _.
Arguments readlines {W} _ _ _.
Arguments randint {W} _ _.
Arguments sleep {W} _ _ _.
Arguments from_address {W} _ _.
Arguments str_strip {W} _ _.
Arguments IPv4Network_of_text {W} _ _.
Arguments set_order {W} _ _.
Arguments set_order_perm {W} _ _.

(** The keyword arguments of [fierce], as [parse_args] provides them. *)
Record config : Type := mkConfig {
  kw_domain : option string;
  kw_dns_servers : option (list string);
  kw_dns_file : option string;
  kw_range : option string;
  kw_wide : bool;
  kw_traverse : option Z;
  kw_search : option (list string);
  kw_delay : option float;
  kw_subdomains : option (list string);
  kw_subdomain_file : string
}.

(** ** The monad of the pipeline *)

(** A computation takes the state of the world and gives a value or an
    exception, the new state, and the calls it made, oldest first. *)
Definition M (W A : Type) : Type := W -> result A * W * list event.

Module Mon.
Section Ops.
Context {W : Type}.

Definition ret {A} (a : A) : M W A := fun w => (Ok a, w, []).
Definition raise {A} (e : exn) : M W A := fun w => (Raise e, w, []).
Definition lift {A} (r : result A) : M W A := fun w => (r, w, []).

Definition bind {A B} (m : M W A) (f : A -> M W B) : M W B :=
  fun w =>
    match m w with
    | (Ok a, w1, t1) =>
        match f a w1 with
        | (r, w2, t2) => (r, w2, t1 ++ t2)
        end
    | (Raise e, w1, t1) => (Raise e, w1, t1)
    end.

(** [try: m  except <classes>: h], where [handles e] tells whether the
    clause matches [e]. *)
Definition try_except {A} (m : M W A) (handles : exn -> bool) (h : M W A)
  : M W A :=
  fun w =>
    match m w with
    | (Ok a, w1, t1) => (Ok a, w1, t1)
    | (Raise e, w1, t1) =>
        if handles e then
          match h w1 with
          | (r, w2, t2) => (r, w2, t1 ++ t2)
          end
        else (Raise e, w1, t1)
    end.

Definition emit (ev : event) : M W unit := fun w => (Ok tt, w, [ev]).
End Ops.
End Mon.

Declare Scope mon_scope.
Delimit Scope mon_scope with mon.
Notation "'let*' x := c1 'in' c2" := (Mon.bind c1 (fun x => c2))
  (at level 10, x name, c1 at level 100, c2 at level 200) : mon_scope.
Notation "c1 ;; c2" := (Mon.bind c1 (fun _ => c2))
  (at level 100, c2 at level 200, right associativity) : mon_scope.

Definition outcome {W A} (x : result A * W * list event) : result A := x.1.1.
Definition trace {W A} (x : result A * W * list event) : list event := x.2.
Definition final {W A} (x : result A * W * list event) : W := x.1.2.

Section Fierce.
Context {W : Type} (C : Collab W).
Local Open Scope mon_scope.

(** *** The calls, as computations *)

Definition call_query (name : string) (rt : rtype) : M W Answer :=
  fun w => let '(r, w') := resolver_query C name rt w in
           (r, w', [EvQuery name rt r]).

Definition call_xfr (address domain : string) : M W Zone :=
  fun w => let '(r, w') := from_xfr C address domain w in
           (r, w', [EvXfr address domain r]).

Definition call_readlines (path : string) : M W (list string) :=
  fun w => let '(r, w') := readlines C path w in
           (r, w', [EvReadlines path r]).

Definition call_randint : M W Z :=
  fun w => let '(v, w') := randint C w in (Ok v, w', [EvRandint v]).

Definition call_sleep (secs : float) : M W unit :=
  fun w => let '(r, w') := sleep C secs w in (r, w', [EvSleep secs r]).

Definition assign_nameservers (servers : list string) : M W unit :=
  fun w => let '(r, w') := set_nameservers C servers w in
           (r, w', [EvNameservers servers r]).

Definition print (line : string) : M W unit := Mon.emit (EvPrint line).
Definition pprint (d : gmap string string) : M W unit :=
  Mon.emit (EvPPrint d).

(** *** fierce.py *)

Definition is_NXDOMAIN (e : exn) : bool :=
  match e with NXDOMAIN => true | _ => false end.

Definition query (domain : string) (record_type : rtype)
  : M W (option Answer) :=
  Mon.try_except
    (let* a := call_query domain record_type in Mon.ret (Some a))
    is_NXDOMAIN
    (Mon.ret None).

Definition reverse_query (ip : string) : M W (option Answer) :=
  query (from_address C ip) RT_PTR.

Definition is_reset_or_form (e : exn) : bool :=
  match e with ConnectionResetError | FormError => true | _ => false end.

Definition zone_transfer (address domain : string) : M W (option Zone) :=
  Mon.try_except
    (let* z := call_xfr address domain in Mon.ret (Some z))
    is_reset_or_form
    (Mon.ret None).

Definition search_filter (domains : list string) (address : string) : bool :=
  existsb (fun domain => str_contains domain address) domains.

(** [{str(i): reverse_query(resolver, str(i)) for i in ips}], the dict
    being filled as the comprehension walks [ips]. *)
Fixpoint reverse_all (ips : list Z) (d : gmap string (option Answer))
  : M W (gmap string (option Answer)) :=
  match ips with
  | [] => Mon.ret d
  | i :: ips' =>
      let* v := reverse_query (str_ip i) in
      reverse_all ips' (<[str_ip i := v]> d)
  end.

Definition find_nearby (ips : list Z) (filter_func : option (string -> bool))
  : M W unit :=
  let* reversed_ips := reverse_all ips ∅ in
  let reversed_ips : gmap string Answer := omap id reversed_ips in
  let reversed_ips :=
    match filter_func with
    | Some f =>
        filter (fun kv => f (to_text (ans_first kv.2)) = true) reversed_ips
    | None => reversed_ips
    end in
  if decide (reversed_ips = ∅) then Mon.ret tt
  else
    print "Nearby:" ;;
    pprint ((fun v => to_text (ans_first v)) <$> reversed_ips).

(** [x[0]] and iteration on the value of a query, which is [None] when
    the name does not exist. *)
Definition subscript0 (x : option Answer) : M W rdata :=
  match x with
  | None => Mon.raise TypeError   (* 'NoneType' object is not subscriptable *)
  | Some a => Mon.ret (ans_first a)
  end.
Definition iterate (x : option Answer) : M W (list rdata) :=
  match x with
  | None => Mon.raise TypeError   (* 'NoneType' object is not iterable *)
  | Some a => Mon.ret (ans_list a)
  end.

(** Lines 134 to 136: [filter_func] for the value of [kwargs.get("search")]. *)
Definition filter_of_search (search : option (list string))
  : option (string -> bool) :=
  match search with
  | Some search =>
      if truthy_list search then Some (search_filter search) else None
  | None => None
  end.

(** Lines 138 and 139: [ips = set(ips) - set(visited); visited |= ips].
    Gives the new [ips] and the new [visited]. *)
Definition filter_new (ips : list Z) (visited : gset Z) : gset Z * gset Z :=
  let ips : gset Z := list_to_set ips ∖ visited in
  (ips, visited ∪ ips).

(** The candidates of a hit: [None] stands for the [continue] of the
    last branch. *)
Definition expand (kw : config) (ip : Z) : option (result (list Z)) :=
  if kw_wide kw then Some (wide_expander ip)
  else match kw_traverse kw with
       | Some n => if truthy_int n then Some (traverse_expander ip n)
                   else None
       | None => None
       end.

(** The [for subdomain in subdomains] loop, lines 117 to 144, from the
    value [visited] has when a round starts; it gives the value
    [visited] has when the loop ends. *)
Fixpoint brute_force (kw : config) (domain : string)
    (subdomains : list string) (visited : gset Z) : M W (gset Z) :=
  match subdomains with
  | [] => Mon.ret visited
  | subdomain :: subdomains' =>
      let url := subdomain +:+ "." +:+ domain in
      let* record := query url RT_A in
      match record with
      | None => brute_force kw domain subdomains' visited
      | Some record =>
          let* address := Mon.lift (get_address (ans_first record)) in
          let* ip := Mon.lift (IPv4Address_of_text address) in
          print ("Found: " +:+ url +:+ " (" +:+ str_ip ip +:+ ")") ;;
          match expand kw ip with
          | None => brute_force kw domain subdomains' visited
          | Some ips =>
              let* ips := Mon.lift ips in
              let filter_func := filter_of_search (kw_search kw) in
              let '(ips, visited) := filter_new ips visited in
              find_nearby (set_order C ips) filter_func ;;
              match kw_delay kw with
              | Some delay =>
                  if truthy_float delay then call_sleep delay
                  else Mon.ret tt
              | None => Mon.ret tt
              end ;;
              brute_force kw domain subdomains' visited
          end
      end
  end.

(** Lines 74 to 81. *)
Definition configure_nameservers (kw : config) : M W unit :=
  let* nameservers :=
    if truthy_opt truthy_list (kw_dns_servers kw) then
      Mon.ret (kw_dns_servers kw)
    else
      match kw_dns_file kw with
      | Some path =>
          if truthy_str path then
            let* lines := call_readlines path in
            Mon.ret (Some (map (str_strip C) lines))
          else Mon.ret None
      | None => Mon.ret None
      end in
  match nameservers with
  | Some servers =>
      if truthy_list servers then assign_nameservers servers
      else Mon.ret tt
  | None => Mon.ret tt
  end.

(** Lines 83 to 85. *)
Definition internal_range_scan (kw : config) : M W unit :=
  match kw_range kw with
  | Some text =>
      if truthy_str text then
        let* internal_range := Mon.lift (IPv4Network_of_text C text) in
        find_nearby (net_list internal_range) None
      else Mon.ret tt
  | None => Mon.ret tt
  end.

(** Lines 106 to 144: what follows a zone transfer that gave nothing. *)
Definition wildcard_and_brute_force (kw : config) (domain : string)
  : M W unit :=
  let* r := call_randint in
  let random_domain := pretty r +:+ "." +:+ domain in
  let* wildcard := query random_domain RT_A in
  print ("Wildcard: " +:+
         (if truthy_opt truthy_answer wildcard then "success"
          else "failure")) ;;
  let* subdomains :=
    if truthy_opt truthy_list (kw_subdomains kw) then
      Mon.ret (default [] (kw_subdomains kw))
    else
      let* lines := call_readlines (kw_subdomain_file kw) in
      Mon.ret (map (str_strip C) lines) in
  brute_force kw domain subdomains ∅ ;;
  Mon.ret tt.

(** Lines 90 to 144. *)
Definition domain_scan (kw : config) (domain : string) : M W unit :=
  let* ns := query domain RT_NS in
  let* ns := iterate ns in
  let domain_name_servers := map to_text ns in
  print ("NS: " +:+ String.concat " " domain_name_servers) ;;
  let* soa := query domain RT_SOA in
  let* soa0 := subscript0 soa in
  let* soa_mname := Mon.lift (get_mname soa0) in
  let* master := query soa_mname RT_A in
  let* master0 := subscript0 master in
  let* master_address := Mon.lift (get_address master0) in
  print ("SOA: " +:+ soa_mname +:+ " (" +:+ master_address +:+ ")") ;;
  let* zone := zone_transfer master_address domain in
  print ("Zone: " +:+
         (if truthy_opt truthy_zone zone then "success" else "failure")) ;;
  match zone with
  | Some z =>
      if truthy_zone z then
        pprint (map_imap (fun k v => Some (node_to_text k v)) (zone_nodes z))
      else wildcard_and_brute_force kw domain
  | None => wildcard_and_brute_force kw domain
  end.

Definition fierce (kw : config) : M W unit :=
  configure_nameservers kw ;;
  internal_range_scan kw ;;
  match kw_domain kw with
  | Some domain =>
      if negb (truthy_str domain) then Mon.ret tt
      else domain_scan kw domain
  | None => Mon.ret tt
  end.
End Fierce.

(** ** Reading a trace *)

(** The names of the PTR queries of a trace, in order. *)
Definition ptr_names (t : list event) : list string :=
  omap (fun ev => match ev with
                  | EvQuery name RT_PTR _ => Some name
                  | _ => None
                  end) t.

(** The queries of a trace with their answers, and its reports. *)
Definition queries (t : list event) : list (string * rtype * result Answer) :=
  omap (fun ev => match ev with
                  | EvQuery name rt r => Some (name, rt, r)
                  | _ => None
                  end) t.

Definition is_report (ev : event) : bool :=
  match ev with EvPrint _ | EvPPrint _ => true | _ => false end.
Definition reports (t : list event) : list event :=
  filter (fun ev => is_report ev = true) t.

Definition is_xfr (ev : event) : bool :=
  match ev with EvXfr _ _ _ => true | _ => false end.
Definition is_soa_query (ev : event) : bool :=
  match ev with EvQuery _ RT_SOA _ => true | _ => false end.
Definition is_ns_query (ev : event) : bool :=
  match ev with EvQuery _ RT_NS _ => true | _ => false end.
Definition is_randint (ev : event) : bool :=
  match ev with EvRandint _ => true | _ => false end.

(** An answer of the resolver that [query] lets through: records, or the
    name does not exist. *)
Definition soft {X} (r : result X) : bool :=
  match r with
  | Ok _ => true
  | Raise e => match e with NXDOMAIN => true | _ => false end
  end.

(** What [query] makes of an answer of the resolver. *)
Definition as_option {X} (r : result X) : option X :=
  match r with Ok a => Some a | Raise _ => None end.

(** ** A scripted world

    Collaborators that answer from a table, for running the pipeline on
    concrete cases. *)
Module Script.
Global Instance rtype_eq_dec : EqDecision rtype.
Proof. solve_decision. Defined.

Record script : Type := mkScript {
  records : list (string * rtype * result Answer);
  xfr : result Zone;
  files : list (string * list string);
  random : Z
}.

Fixpoint lookup_record (tbl : list (string * rtype * result Answer))
    (name : string) (rt : rtype) : result Answer :=
  match tbl with
  | [] => Raise NXDOMAIN
  | (n, t, r) :: tbl' =>
      if bool_decide (n = name) && bool_decide (t = rt) then r
      else lookup_record tbl' name rt
  end.

Fixpoint lookup_file (tbl : list (string * list string)) (path : string)
  : result (list string) :=
  match tbl with
  | [] => Raise (OtherError "FileNotFoundError")
  | (p, ls) :: tbl' =>
      if bool_decide (p = path) then Ok ls else lookup_file tbl' path
  end.

(** [dns.reversename.from_address] on the text of an IPv4 address. *)
Definition reverse_name (ip : string) : string :=
  String.concat "." (reverse (split_dot ip)) +:+ ".in-addr.arpa.".

(** [str.strip()] on ASCII text, which is what the files of a scripted
    world hold: the white space of ASCII is removed at both ends. *)
Definition is_whitespace (c : ascii) : bool :=
  let n := Z.of_N (N_of_ascii c) in
  bool_decide (9 <= n <= 13) || bool_decide (28 <= n <= 32).

Fixpoint lstrip (s : string) : string :=
  match s with
  | EmptyString => EmptyString
  | String c s' => if is_whitespace c then lstrip s' else s
  end.

Definition ascii_strip (s : string) : string :=
  String.rev (lstrip (String.rev (lstrip s))).

(** ["a.b.c.d/n"], for the networks of the examples. *)
Definition network_of_text (text : string) : result IPv4Network :=
  if String.eqb text "10.0.0.0/30" then Ok (mkNet 167772160 30)
  else if String.eqb text "10.0.0.0/24" then Ok (mkNet 167772160 24)
  else Raise ValueError.

Definition collab (s : script) : Collab unit := {|
  resolver_query name rt w := (lookup_record (records s) name rt, w);
  set_nameservers servers w := (Ok tt, w);
  from_xfr address domain w := (xfr s, w);
  readlines path w := (lookup_file (files s) path, w);
  randint w := (random s, w);
  sleep secs w := (Ok tt, w);
  from_address := reverse_name;
  str_strip := ascii_strip;
  IPv4Network_of_text := network_of_text;
  set_order := elements;
  set_order_perm := fun s => reflexivity (elements s)
|}.

Definition ptr (name : string) : result Answer :=
  Ok (mkAnswer (RdPTR name) []).
Definition a (address : string) : result Answer :=
  Ok (mkAnswer (RdA address) []).

Definition no_options : config := {|
  kw_domain := None; kw_dns_servers := None; kw_dns_file := None;
  kw_range := None; kw_wide := false; kw_traverse := Some 5;
  kw_search := None; kw_delay := None; kw_subdomains := None;
  kw_subdomain_file := "lists/default.txt"
|}.
End Script.
(** ** Notions used to state the properties *)

Definition no_dot (s : string) : bool :=
  forallb (fun c => negb (Ascii.eqb c "."%char)) (list_ascii_of_string s).

Definition octet_ok (o : Z) : bool :=
  bool_decide (parse_octet (pretty o) = Some o) && no_dot (pretty o).

(** The event of the reverse lookup of [i] answered by [r]. *)
Definition ptr_event {W} (C : Collab W) (i : Z) (r : result Answer) : event :=
  EvQuery (from_address C (str_ip i)) RT_PTR r.

(** The dict of [find_nearby] once the lookups of [ips] were answered by
    [rs], starting from [d]. *)
Definition filled (ips : list Z) (rs : list (result Answer))
    (d : gmap string (option Answer)) : gmap string (option Answer) :=
  fold_left (fun d ir => <[str_ip ir.1 := as_option ir.2]> d) (zip ips rs) d.

(** A hostname text passes the search option: no substring is configured,
    or the text contains one of them. *)
Definition kept (search : option (list string)) (text : string) : Prop :=
  match search with
  | None | Some [] => True
  | Some domains =>
      exists domain pre post,
        domain ∈ domains /\ text = pre +:+ domain +:+ post
  end.

(** The records [find_nearby] keeps after the lookups of [ips] were
    answered by [rs], and the mapping it reports. *)
Definition nearby_kept (ips : list Z) (rs : list (result Answer))
    (filter_func : option (string -> bool)) : gmap string Answer :=
  let reversed_ips : gmap string Answer := omap id (filled ips rs ∅) in
  match filter_func with
  | Some f => filter (fun kv => f (to_text (ans_first kv.2)) = true) reversed_ips
  | None => reversed_ips
  end.

Definition nearby_mapping (ips : list Z) (rs : list (result Answer))
    (filter_func : option (string -> bool)) : gmap string string :=
  (fun v => to_text (ans_first v)) <$> nearby_kept ips rs filter_func.

(** What [find_nearby] prints for a mapping. *)
Definition nearby_report (m : gmap string string) : list event :=
  if decide (m = ∅) then [] else [EvPrint "Nearby:"; EvPPrint m].

(** The name [reverse_query] asks for an address. *)
Definition ptr_name {W} (C : Collab W) (i : Z) : string :=
  from_address C (str_ip i).

(** A world where 10.0.0.0 has no PTR record, the lookup of 10.0.0.1
    times out and 10.0.0.2 and 10.0.0.3 have a PTR record. *)
Definition timeout_world : Script.script := {|
  Script.records :=
    [("1.0.0.10.in-addr.arpa.", RT_PTR, Raise (OtherError "Timeout"));
     ("2.0.0.10.in-addr.arpa.", RT_PTR, Script.ptr "db.example.test.");
     ("3.0.0.10.in-addr.arpa.", RT_PTR, Script.ptr "www.corp.test.")];
  Script.xfr := Raise ConnectionResetError;
  Script.files := [];
  Script.random := 12345678901
|}.

(** The same world without the timeout. *)
Definition quiet_world : Script.script := {|
  Script.records :=
    [("2.0.0.10.in-addr.arpa.", RT_PTR, Script.ptr "db.example.test.");
     ("3.0.0.10.in-addr.arpa.", RT_PTR, Script.ptr "www.corp.test.")];
  Script.xfr := Raise ConnectionResetError;
  Script.files := [];
  Script.random := 12345678901
|}.

(** 10.0.0.0, 10.0.0.2 and 10.0.0.3. *)
Definition three_addresses : list Z := [167772160; 167772162; 167772163].

(** Every call a computation makes, from any state of the world,
    satisfies [P]. *)
Definition emits {W X} (P : event -> Prop) (m : M W X) : Prop :=
  forall w, Forall P (trace (m w)).

(** The calls [find_nearby] can make: reverse lookups and prints. *)
Definition is_lookup_event (ev : event) : bool :=
  match ev with
  | EvQuery _ RT_PTR _ | EvPrint _ | EvPPrint _ => true
  | _ => false
  end.

(** The calls the subdomain loop can make. *)
Definition is_loop_event (ev : event) : bool :=
  match ev with
  | EvQuery _ RT_A _ | EvQuery _ RT_PTR _
  | EvPrint _ | EvPPrint _ | EvSleep _ _ => true
  | _ => false
  end.

(** The calls of the wildcard probe and of all that follows it. *)
Definition is_late_event (ev : event) : bool :=
  match ev with
  | EvRandint _ | EvReadlines _ _ => true
  | _ => is_loop_event ev
  end.

(** The calls made while the name servers are configured. *)
Definition is_setup_event (ev : event) : bool :=
  match ev with
  | EvReadlines _ _ | EvNameservers _ _ => true
  | _ => false
  end.

(** The lines the pipeline prints, and the dict it prints for a zone. *)
Definition ns_line (ns : Answer) : string :=
  "NS: " +:+ String.concat " " (map to_text (ans_list ns)).
Definition soa_line (mname address : string) : string :=
  "SOA: " +:+ mname +:+ " (" +:+ address +:+ ")".
Definition zone_dict (z : Zone) : gmap string string :=
  map_imap (fun k v => Some (node_to_text k v)) (zone_nodes z).

(** The calls of a domain scan up to the zone transfer, when the three
    queries were answered. *)
Definition scan_head (domain : string) (ns soa master : Answer)
    (mname address : string) : list event :=
  [EvQuery domain RT_NS (Ok ns); EvPrint (ns_line ns);
   EvQuery domain RT_SOA (Ok soa); EvQuery mname RT_A (Ok master);
   EvPrint (soa_line mname address)].

(** What a failed query makes the caller raise when it uses the value
    without a test: NXDOMAIN became [None], and [None] gives a
    [TypeError]. *)
Definition unchecked (e : exn) : exn :=
  if is_NXDOMAIN e then TypeError else e.

(** A run that follows the calls [t]. *)
Definition after {W X} (t : list event) (x : result X * W * list event)
    : result X * W * list event :=
  (outcome x, final x, t ++ trace x).

(** The mapping of every address of [ips] answered with records, when
    the lookups were answered by [rs]: what [find_nearby] reports when it
    has no filter. *)
Definition answered (ips : list Z) (rs : list (result Answer))
    : gmap string string :=
  (fun v => to_text (ans_first v)) <$> omap id (filled ips rs ∅).

(** The same options with another value of [search]. *)
Definition set_search (search : option (list string)) (kw : config) : config :=
  {| kw_domain := kw_domain kw; kw_dns_servers := kw_dns_servers kw;
     kw_dns_file := kw_dns_file kw; kw_range := kw_range kw;
     kw_wide := kw_wide kw; kw_traverse := kw_traverse kw;
     kw_search := search; kw_delay := kw_delay kw;
     kw_subdomains := kw_subdomains kw;
     kw_subdomain_file := kw_subdomain_file kw |}.

(** The options of the examples: a scan of example.test after a scan of
    10.0.0.0/30, with a search for "corp" and two subdomains. *)
Definition example_options : config := {|
  kw_domain := Some "example.test"; kw_dns_servers := None;
  kw_dns_file := None; kw_range := Some "10.0.0.0/30"; kw_wide := false;
  kw_traverse := Some 1; kw_search := Some ["corp"]; kw_delay := None;
  kw_subdomains := Some ["www"; "mail"];
  kw_subdomain_file := "lists/default.txt"
|}.

Definition example_ns : Answer :=
  mkAnswer (RdNS "ns1.example.test.") [RdNS "ns2.example.test."].
Definition example_soa : Answer :=
  mkAnswer (RdSOA "ns1.example.test." "admin.example.test. 1 2 3 4 5") [].
Definition example_master : Answer := mkAnswer (RdA "10.0.0.2") [].
Definition example_zone : Zone :=
  mkZone {[ "www" := ["300 IN A 10.0.0.2"]; "mail" := ["300 IN A 10.0.0.3"] ]}.

(** A world where the master of example.test gives its zone. *)
Definition transfer_world : Script.script := {|
  Script.records :=
    [("example.test", RT_NS, Ok example_ns);
     ("example.test", RT_SOA, Ok example_soa);
     ("ns1.example.test.", RT_A, Ok example_master);
     ("2.0.0.10.in-addr.arpa.", RT_PTR, Script.ptr "db.example.test.")];
  Script.xfr := Ok example_zone;
  Script.files := [];
  Script.random := 12345678901
|}.

(** A world where example.test has name servers and no SOA record. *)
Definition no_soa_world : Script.script := {|
  Script.records :=
    [("example.test", RT_NS, Ok example_ns);
     ("2.0.0.10.in-addr.arpa.", RT_PTR, Script.ptr "db.example.test.")];
  Script.xfr := Raise ConnectionResetError;
  Script.files := [];
  Script.random := 12345678901
|}.

(** A world where the master refuses the transfer, www.example.test is
    10.0.0.2 and mail.example.test is 10.0.0.3. *)
Definition refused_world : Script.script := {|
  Script.records :=
    [("example.test", RT_NS, Ok example_ns);
     ("example.test", RT_SOA, Ok example_soa);
     ("ns1.example.test.", RT_A, Ok example_master);
     ("www.example.test", RT_A, Script.a "10.0.0.2");
     ("mail.example.test", RT_A, Script.a "10.0.0.3");
     ("2.0.0.10.in-addr.arpa.", RT_PTR, Script.ptr "db.example.test.");
     ("3.0.0.10.in-addr.arpa.", RT_PTR, Script.ptr "www.corp.test.")];
  Script.xfr := Raise ConnectionResetError;
  Script.files := [];
  Script.random := 12345678901
|}.

(** The calls made before the domain scan. *)
Definition is_early_event (ev : event) : bool :=
  is_setup_event ev || is_lookup_event ev.

(** A scan of example.test alone. *)
Definition domain_only : config := {|
  kw_domain := Some "example.test"; kw_dns_servers := None;
  kw_dns_file := None; kw_range := None; kw_wide := false;
  kw_traverse := Some 5; kw_search := None; kw_delay := None;
  kw_subdomains := Some ["www"; "mail"];
  kw_subdomain_file := "lists/default.txt"
|}.

(** Every text of a printed mapping passes the search option. *)
Definition prints_kept (search : option (list string)) (ev : event) : Prop :=
  forall m key text,
    ev = EvPPrint m -> m !! key = Some text -> kept search text.

(** The runs of the examples. *)
Definition transfer_run : result unit * unit * list event :=
  fierce (Script.collab transfer_world) example_options tt.
Definition no_soa_run : result unit * unit * list event :=
  fierce (Script.collab no_soa_world) example_options tt.
Definition refused_run : result unit * unit * list event :=
  fierce (Script.collab refused_world) example_options tt.

(** Lines 138 and 139 applied to the candidate batches of successive
    hits: the batches that go to [find_nearby], and [visited] at the end. *)
Fixpoint survivors (batches : list (list Z)) (visited : gset Z)
    : list (gset Z) * gset Z :=
  match batches with
  | [] => ([], visited)
  | ips :: batches' =>
      let '(ips, visited) := filter_new ips visited in
      let '(rest, final_visited) := survivors batches' visited in
      (ips :: rest, final_visited)
  end.

(** The addresses of a sequence of sets, each set in the order in which
    it is walked. *)
Definition walk {W} (C : Collab W) (sets : list (gset Z)) : list Z :=
  concat (set_order C <$> sets).

(** A run of the subdomain loop started with [visited] looked up the
    addresses [L], one after the other: [L] is the walk of the surviving
    batches of some candidate batches, cut where the run was interrupted,
    and whole when the loop returned, its value then being [visited]
    after these batches. *)
Definition loop_lookups {W} (C : Collab W) (visited : gset Z)
    (r : result (gset Z) * W * list event)
    (batches : list (list Z)) (L : list Z) : Prop :=
  ptr_names (trace r) = ptr_name C <$> L
  /\ L `prefix_of` walk C (survivors batches visited).1
  /\ forall v, outcome r = Ok v ->
       v = (survivors batches visited).2
       /\ L = walk C (survivors batches visited).1.

(** The calls of a round of the subdomain loop that does not expand its
    hit: the forward query and the "Found" line. *)
Definition is_hit_event (ev : event) : bool :=
  match ev with
  | EvQuery _ RT_A _ | EvPrint _ => true
  | _ => false
  end.

(** The options of example.test with a window of size 0. *)
Definition no_window : config := {|
  kw_domain := Some "example.test"; kw_dns_servers := None;
  kw_dns_file := None; kw_range := None; kw_wide := false;
  kw_traverse := Some 0; kw_search := None; kw_delay := None;
  kw_subdomains := Some ["www"; "mail"];
  kw_subdomain_file := "lists/default.txt"
|}.

(** A scan of 10.0.0.0/30 alone. *)
Definition range_only : config := {|
  kw_domain := None; kw_dns_servers := None;
  kw_dns_file := None; kw_range := Some "10.0.0.0/30"; kw_wide := false;
  kw_traverse := Some 5; kw_search := None; kw_delay := None;
  kw_subdomains := None;
  kw_subdomain_file := "lists/default.txt"
|}.

(** The options of the examples with a pause of a second and a half. *)
Definition delayed_options : config := {|
  kw_domain := Some "example.test"; kw_dns_servers := None;
  kw_dns_file := Some "servers.txt"; kw_range := None; kw_wide := false;
  kw_traverse := Some 1; kw_search := None; kw_delay := Some 1.5%float;
  kw_subdomains := Some ["www"; "mail"];
  kw_subdomain_file := "lists/default.txt"
|}.

(** A world with a file of name servers. *)
Definition file_world : Script.script := {|
  Script.records :=
    [("www.example.test", RT_A, Script.a "10.0.0.2");
     ("2.0.0.10.in-addr.arpa.", RT_PTR, Script.ptr "db.example.test.")];
  Script.xfr := Raise ConnectionResetError;
  Script.files := [("servers.txt", [" 10.0.0.53 "; "10.0.0.54"])];
  Script.random := 12345678901
|}.

(** The names of the A queries of a trace, in order. *)
Definition a_names (t : list event) : list string :=
  omap (fun ev => match ev with
                  | EvQuery name RT_A _ => Some name
                  | _ => None
                  end) t.

(** * Properties *)


Lemma land_netmask24 x :
  0 <= x <= ALL_ONES -> Z.land x 4294967040 = x - x `mod` 2 ^ 8.
Proof.
  intros Hx. unfold ALL_ONES in Hx.
  change 4294967040 with (Z.ldiff (Z.ones 32) (Z.ones 8)).
  rewrite Z.ldiff_land, Z.land_assoc, Z.land_ones by lia.
  rewrite (Z.mod_small x) by lia.
  rewrite <- Z.ldiff_land, Z.ldiff_ones_r by lia.
  rewrite Z.shiftr_div_pow2, Z.shiftl_mul_pow2 by lia.
  pose proof (Z.div_mod x (2 ^ 8)). lia.
Qed.

Lemma lor_hostmask24 n : 0 <= n -> n `mod` 2 ^ 8 = 0 -> Z.lor n 255 = n + 255.
Proof.
  intros Hn Hm.
  assert (Z.land n 255 = 0) as Hl.
  { change 255 with (Z.ones 8). rewrite Z.land_ones by lia. done. }
  pose proof (Z.add_lor_land n 255). lia.
Qed.

Lemma netmask24 n : netmask (mkNet n 24) = 4294967040.
Proof. reflexivity. Qed.

Lemma get_class_c_network_ok ip :
  valid_ip ip -> get_class_c_network ip = Ok (mkNet (ip - ip `mod` 2 ^ 8) 24).
Proof.
  intros Hv. unfold valid_ip, ALL_ONES in Hv.
  assert (0 <= ip `mod` 2 ^ 8 < 2 ^ 8) as Hm by (apply Z.mod_pos_bound; lia).
  unfold get_class_c_network, ip_address.
  assert (ip `mod` 2 ^ 8 <= ip) by (apply Z.mod_le; lia).
  rewrite bool_decide_eq_true_2 by (unfold ALL_ONES; lia).
  unfold Res.bind, IPv4Network_of. rewrite netmask24.
  rewrite land_netmask24 by (unfold ALL_ONES; lia).
  rewrite bool_decide_eq_true_2; [done|].
  rewrite Zminus_mod_idemp_r, Z.sub_diag, Z.mod_0_l by lia. lia.
Qed.

Lemma net_contains_24 n x :
  0 <= n -> n `mod` 2 ^ 8 = 0 -> valid_ip x ->
  net_contains (mkNet n 24) x = true <-> n <= x < n + 256.
Proof.
  intros Hn Hm Hx. unfold net_contains. rewrite bool_decide_eq_true, netmask24.
  rewrite land_netmask24 by done. simpl.
  assert (0 <= x `mod` 2 ^ 8 < 2 ^ 8) by (apply Z.mod_pos_bound; lia).
  pose proof (Z.div_mod x (2 ^ 8)). pose proof (Z.div_mod n (2 ^ 8)).
  split; [lia|]. intros Hr.
  assert (x `div` 2 ^ 8 = n `div` 2 ^ 8) by nia. nia.
Qed.

Lemma num_addresses_24 n :
  0 <= n -> n `mod` 2 ^ 8 = 0 -> num_addresses (mkNet n 24) = 256.
Proof.
  intros Hn Hm. unfold num_addresses, broadcast_address. simpl.
  change (hostmask _) with 255. rewrite lor_hostmask24 by done. lia.
Qed.


Lemma mapM_IPv4Address_ok ip l :
  Forall (fun i => valid_ip (ip + i)) l ->
  Res.mapM (fun i => IPv4Address (ip + i)) l = Ok (map (fun i => ip + i) l).
Proof.
  induction 1 as [|i l Hi _ IH]; [done|].
  simpl. unfold IPv4Address at 1.
  rewrite bool_decide_eq_true_2 by done. simpl. by rewrite IH.
Qed.

Lemma mapM_IPv4Address_raise ip l :
  Exists (fun i => ~ valid_ip (ip + i)) l ->
  Res.mapM (fun i => IPv4Address (ip + i)) l = Raise AddressValueError.
Proof.
  induction l as [|i l IH]; intros Hex; [by apply Exists_nil in Hex|].
  simpl. unfold IPv4Address at 1. case_bool_decide as Hv; [|done].
  simpl. apply Exists_cons in Hex as [?|Hex]; [done|].
  by rewrite IH.
Qed.

(** Away from the two ends of the address space the window is clipped to
    the /24 of [ip]. *)
Lemma traverse_expander_inside ip n :
  valid_ip ip -> 0 <= n -> n <= ip -> ip + n <= ALL_ONES ->
  exists l, traverse_expander ip n = Ok l
    /\ NoDup l
    /\ forall x, x ∈ l <->
         ip - n <= x <= ip + n
         /\ ip - ip `mod` 256 <= x < ip - ip `mod` 256 + 256.
Proof.
  intros Hv Hn Hlo Hhi.
  assert (0 <= ip `mod` 2 ^ 8 < 2 ^ 8) as Hb by (apply Z.mod_pos_bound; lia).
  assert (0 <= ip - ip `mod` 2 ^ 8) as Hn0.
  { unfold valid_ip in Hv. pose proof (Z.mod_le ip (2 ^ 8)). lia. }
  assert ((ip - ip `mod` 2 ^ 8) `mod` 2 ^ 8 = 0) as Hm.
  { rewrite Zminus_mod_idemp_r, Z.sub_diag, Z.mod_0_l; lia. }
  unfold traverse_expander. rewrite get_class_c_network_ok by done. simpl.
  rewrite mapM_IPv4Address_ok.
  2:{ apply Forall_forall. intros i Hi. unfold py_range in Hi.
      apply elem_of_seqZ in Hi. unfold valid_ip in *. lia. }
  simpl. eexists. split; [done|]. split.
  - apply NoDup_filter, NoDup_fmap_2, NoDup_seqZ. intros ???; lia.
  - intros x. rewrite list_elem_of_filter, list_elem_of_fmap. split.
    + intros [Hc (i & -> & Hi)]. unfold py_range in Hi.
      apply elem_of_seqZ in Hi.
      apply net_contains_24 in Hc; [|done..|unfold valid_ip in *; lia].
      change (2 ^ 8) with 256 in *. lia.
    + intros [Hr Hc]. split.
      * apply net_contains_24; [done..|unfold valid_ip in *; lia|].
        change (2 ^ 8) with 256 in *. lia.
      * exists (x - ip). split; [lia|]. unfold py_range.
        apply elem_of_seqZ. lia.
Qed.

(** A window that reaches below 0.0.0.0 or above 255.255.255.255 is not
    clipped: building the out-of-range address raises. *)
Lemma traverse_expander_outside ip n :
  valid_ip ip -> 0 <= n -> ip < n \/ ALL_ONES < ip + n ->
  traverse_expander ip n = Raise AddressValueError.
Proof.
  intros Hv Hn Hout.
  unfold traverse_expander. rewrite get_class_c_network_ok by done. simpl.
  rewrite mapM_IPv4Address_raise; [done|].
  apply Exists_exists. unfold py_range. unfold valid_ip in *.
  destruct Hout.
  - exists (- n). split; [apply elem_of_seqZ; lia|lia].
  - exists n. split; [apply elem_of_seqZ; lia|lia].
Qed.



Lemma octet_ok_all : forallb octet_ok (seqZ 0 256) = true.
Proof. vm_compute. reflexivity. Qed.

Lemma octet_ok_range o : 0 <= o < 256 -> octet_ok o = true.
Proof.
  intros Ho. pose proof octet_ok_all as Hall.
  rewrite forallb_forall in Hall. apply Hall.
  apply list_elem_of_In, elem_of_seqZ. lia.
Qed.

Lemma split_dot_go_app cur s rest :
  no_dot s = true ->
  split_dot_go cur (s +:+ String "."%char rest)
  = String.rev_app cur s :: split_dot_go EmptyString rest.
Proof.
  revert cur. induction s as [|c s IH]; intros cur Hs; simpl.
  - done.
  - unfold no_dot in Hs. simpl in Hs. apply andb_prop in Hs as [Hc Hs].
    destruct (Ascii.eqb c "."%char); [done|]. by rewrite IH.
Qed.

Lemma split_dot_go_last cur s :
  no_dot s = true -> split_dot_go cur s = [String.rev_app cur s].
Proof.
  revert cur. induction s as [|c s IH]; intros cur Hs; simpl.
  - done.
  - unfold no_dot in Hs. simpl in Hs. apply andb_prop in Hs as [Hc Hs].
    destruct (Ascii.eqb c "."%char); [done|]. by rewrite IH.
Qed.

Lemma split_dot_join4 s3 s2 s1 s0 :
  no_dot s3 = true -> no_dot s2 = true -> no_dot s1 = true -> no_dot s0 = true ->
  split_dot (String.concat "." [s3; s2; s1; s0]) = [s3; s2; s1; s0].
Proof.
  intros H3 H2 H1 H0. unfold split_dot. simpl.
  change ("." +:+ s2 +:+ "." +:+ s1 +:+ "." +:+ s0)
    with (String "."%char (s2 +:+ String "."%char (s1 +:+ String "."%char s0))).
  rewrite !split_dot_go_app by done. rewrite split_dot_go_last by done. done.
Qed.

Lemma land_255 x : Z.land x 255 = x `mod` 256.
Proof. change 255 with (Z.ones 8). by rewrite Z.land_ones. Qed.

Lemma lor_shiftl_8 acc o :
  0 <= o < 256 -> Z.lor (Z.shiftl acc 8) o = acc * 256 + o.
Proof.
  intros Ho.
  assert (Z.land (Z.shiftl acc 8) o = 0) as Hl.
  { rewrite <- (Z.mod_small o 256) by lia. rewrite <- land_255.
    rewrite (Z.land_comm o), Z.land_assoc, land_255, Z.shiftl_mul_pow2 by lia.
    change (2 ^ 8) with 256. by rewrite Z.mod_mul. }
  pose proof (Z.add_lor_land (Z.shiftl acc 8) o) as Hadd.
  rewrite Z.shiftl_mul_pow2 in * by lia. change (2 ^ 8) with 256 in *. lia.
Qed.

Lemma octets_range a : Forall (fun o => 0 <= o < 256) (octets a).
Proof.
  unfold octets. repeat constructor; rewrite land_255;
    apply Z.mod_pos_bound; lia.
Qed.

Lemma from_octets_octets a : valid_ip a -> from_octets (octets a) = a.
Proof.
  intros Ha. unfold valid_ip, ALL_ONES in Ha.
  unfold from_octets, octets. simpl.
  rewrite !land_255, !Z.shiftr_div_pow2 by lia.
  rewrite !lor_shiftl_8 by (apply Z.mod_pos_bound; lia).
  change (2 ^ 24) with (256 * 256 * 256). change (2 ^ 16) with (256 * 256).
  change (2 ^ 8) with 256.
  rewrite <- !Z.div_div by lia.
  set (q1 := a `div` 256). set (q2 := q1 `div` 256). set (q3 := q2 `div` 256).
  pose proof (Z.div_mod a 256). pose proof (Z.div_mod q1 256).
  pose proof (Z.div_mod q2 256).
  assert (0 <= a `mod` 256 < 256) by (apply Z.mod_pos_bound; lia).
  assert (0 <= q1 `mod` 256 < 256) by (apply Z.mod_pos_bound; lia).
  assert (0 <= q2 `mod` 256 < 256) by (apply Z.mod_pos_bound; lia).
  assert (0 <= q3 < 256).
  { assert (q3 = a `div` (256 * 256 * 256)) as ->.
    { subst q3 q2 q1. by rewrite !Z.div_div by lia. }
    split; [apply Z.div_pos; lia|apply Z.div_lt_upper_bound; lia]. }
  rewrite (Z.mod_small q3) by lia. lia.
Qed.

Lemma IPv4Address_of_text_str_ip a :
  valid_ip a -> IPv4Address_of_text (str_ip a) = Ok a.
Proof.
  intros Ha. pose proof (octets_range a) as Hr.
  pose proof (from_octets_octets a Ha) as Hfrom.
  unfold IPv4Address_of_text, str_ip.
  destruct (octets a) as [|o3 [|o2 [|o1 [|o0 [|]]]]] eqn:Ho; try done.
  apply Forall_cons in Hr as [H3 Hr]. apply Forall_cons in Hr as [H2 Hr].
  apply Forall_cons in Hr as [H1 Hr]. apply Forall_cons in Hr as [H0 _].
  apply octet_ok_range, andb_prop in H3 as [P3 D3].
  apply octet_ok_range, andb_prop in H2 as [P2 D2].
  apply octet_ok_range, andb_prop in H1 as [P1 D1].
  apply octet_ok_range, andb_prop in H0 as [P0 D0].
  apply bool_decide_eq_true in P3, P2, P1, P0.
  cbn [map]. rewrite split_dot_join4 by done.
  rewrite bool_decide_eq_true_2 by done.
  cbn [mapM]. rewrite P3, P2, P1, P0. simpl. by rewrite Hfrom.
Qed.

Lemma str_ip_inj a b : valid_ip a -> valid_ip b -> str_ip a = str_ip b -> a = b.
Proof.
  intros Ha Hb Heq.
  pose proof (IPv4Address_of_text_str_ip a Ha) as Ea.
  pose proof (IPv4Address_of_text_str_ip b Hb) as Eb.
  rewrite Heq in Ea. congruence.
Qed.

(** ** Running the monad *)

Section MonadFacts.
Context {W : Type}.

Lemma bind_run {X Y} (m : M W X) (f : X -> M W Y) w :
  Mon.bind m f w =
  match m w with
  | (Ok a, w1, t1) => (outcome (f a w1), final (f a w1), t1 ++ trace (f a w1))
  | (Raise e, w1, t1) => (Raise e, w1, t1)
  end.
Proof.
  unfold Mon.bind. destruct (m w) as [[[a|e] w1] t1]; [|done].
  by destruct (f a w1) as [[r w2] t2].
Qed.

Lemma bind_ret_run {X Y} (a : X) (f : X -> M W Y) w :
  Mon.bind (Mon.ret a) f w = f a w.
Proof. unfold Mon.bind, Mon.ret. by destruct (f a w) as [[r w2] t2]. Qed.

Lemma bind_emit_run {Y} ev (f : unit -> M W Y) w :
  Mon.bind (Mon.emit ev) f w
  = (outcome (f tt w), final (f tt w), ev :: trace (f tt w)).
Proof. unfold Mon.bind, Mon.emit. by destruct (f tt w) as [[r w2] t2]. Qed.

Lemma bind_lift_run {X Y} (r : result X) (f : X -> M W Y) w :
  Mon.bind (Mon.lift r) f w =
  match r with Ok a => f a w | Raise e => (Raise e, w, []) end.
Proof.
  unfold Mon.bind, Mon.lift. destruct r as [a|e]; [|done].
  by destruct (f a w) as [[r w2] t2].
Qed.

Lemma bind_raise_run {X Y} e (f : X -> M W Y) w :
  Mon.bind (Mon.raise e) f w = (Raise e, w, []).
Proof. done. Qed.

Lemma run_eta {X} (x : result X * W * list event) :
  x = (outcome x, final x, trace x).
Proof. by destruct x as [[??]?]. Qed.
End MonadFacts.

(** ** The calls of [query] and of [find_nearby] *)

Section Lookup.
Context {W : Type} (C : Collab W).

(** What [query] makes of the resolver's answer. *)
Lemma query_run name rt w :
  query C name rt w =
  (match (resolver_query C name rt w).1 with
   | Ok a => Ok (Some a)
   | Raise e => if is_NXDOMAIN e then Ok None else Raise e
   end,
   (resolver_query C name rt w).2,
   [EvQuery name rt (resolver_query C name rt w).1]).
Proof.
  unfold query, Mon.try_except, Mon.bind, call_query, Mon.ret.
  destruct (resolver_query C name rt w) as [[a|e] w']; simpl; [done|].
  destruct (is_NXDOMAIN e); by rewrite ?app_nil_r.
Qed.

Lemma query_outcome_some name rt w a :
  outcome (query C name rt w) = Ok (Some a) <->
  (resolver_query C name rt w).1 = Ok a.
Proof.
  rewrite query_run. unfold outcome. simpl.
  destruct (resolver_query C name rt w).1 as [a'|e]; [naive_solver|].
  destruct e; naive_solver.
Qed.

Lemma reverse_all_run ips d w :
  exists rs : list (result Answer),
    trace (reverse_all C ips d w) = zip_with (ptr_event C) ips rs
    /\ (length rs <= length ips)%nat
    /\ match outcome (reverse_all C ips d w) with
       | Ok d' =>
           length rs = length ips
           /\ Forall (fun r => soft r = true) rs
           /\ d' = filled ips rs d
       | Raise e =>
           exists rs', rs = rs' ++ [Raise e]
             /\ Forall (fun r => soft r = true) rs'
             /\ soft (@Raise Answer e) = false
       end.
Proof.
  revert d w. induction ips as [|i ips IH]; intros d w.
  - exists []. simpl. by repeat split.
  - cbn [reverse_all]. rewrite bind_run. unfold reverse_query.
    rewrite query_run.
    destruct (resolver_query C (from_address C (str_ip i)) RT_PTR w)
      as [r w1] eqn:Hq. cbn [fst snd].
    assert (forall v,
      (match r with
       | Ok a => Ok (Some a)
       | Raise e => if is_NXDOMAIN e then Ok None else Raise e
       end) = Ok v -> soft r = true /\ v = as_option r) as Hsoft.
    { intros v. destruct r as [a|e]; [naive_solver|].
      destruct e; naive_solver. }
    destruct (match r with
              | Ok a => Ok (Some a)
              | Raise e => if is_NXDOMAIN e then Ok None else Raise e
              end) as [v|e] eqn:Hv.
    + destruct (Hsoft v eq_refl) as [Hs ->].
      destruct (IH (<[str_ip i := as_option r]> d) w1)
        as (rs & Ht & Hlen & Hout).
      exists (r :: rs). unfold trace, outcome in *. cbn [fst snd].
      split; [by rewrite Ht|]. split; [cbn [length]; lia|].
      destruct (reverse_all C ips _ w1).1.1 as [d'|e'].
      * destruct Hout as (Hl & Hf & ->).
        split; [cbn [length]; congruence|]. split; [by constructor|].
        reflexivity.
      * destruct Hout as (rs' & -> & Hf & Hn).
        exists (r :: rs'). split; [reflexivity|]. split; [by constructor|].
        exact Hn.
    + exists [r]. unfold trace, outcome. cbn [fst snd].
      split; [by destruct ips|]. split; [cbn [length]; lia|].
      exists []. split; [|split; [constructor|]].
      * destruct r as [a|e0]; [discriminate|].
        destruct e0; cbn in Hv |- *; congruence.
      * destruct r as [a|e0]; [discriminate|].
        destruct e0; cbn in Hv; first [discriminate | by simplify_eq].
Qed.
End Lookup.

(** ** Substring search *)

Lemma append_cons c s t : String c s +:+ t = String c (s +:+ t).
Proof. reflexivity. Qed.

Lemma append_nil t : EmptyString +:+ t = t.
Proof. reflexivity. Qed.

Lemma prefix_spec s t :
  String.prefix s t = true <-> exists post, t = s +:+ post.
Proof.
  revert t. induction s as [|c s IH]; intros t.
  - destruct t; (split; [intros _; by eexists|reflexivity]).
  - destruct t as [|c' t]; cbn [String.prefix].
    + split; [discriminate|]. intros [post Hp]. discriminate.
    + destruct (Ascii.ascii_dec c c') as [Heq|Hne].
      * rewrite IH. split; intros [post Hp]; exists post.
        -- rewrite append_cons. congruence.
        -- rewrite append_cons in Hp. congruence.
      * split; [discriminate|]. intros [post Hp].
        rewrite append_cons in Hp. congruence.
Qed.

Lemma str_contains_spec needle hay :
  str_contains needle hay = true <->
  exists pre post, hay = pre +:+ needle +:+ post.
Proof.
  induction hay as [|c hay IH]; cbn [str_contains].
  - rewrite orb_false_r, prefix_spec. split.
    + intros [post Hp]. by exists EmptyString, post.
    + intros ([|c pre] & post & Hp); [by exists post|discriminate].
  - rewrite orb_true_iff, prefix_spec, IH. split.
    + intros [[post Hp]|(pre & post & Hp)].
      * by exists EmptyString, post.
      * exists (String c pre), post. rewrite append_cons. by rewrite Hp.
    + intros ([|c' pre] & post & Hp); [left; by exists post|].
      right. exists pre, post. rewrite append_cons in Hp. congruence.
Qed.

Lemma search_filter_spec domains text :
  search_filter domains text = true <->
  exists domain pre post, domain ∈ domains /\ text = pre +:+ domain +:+ post.
Proof.
  unfold search_filter. rewrite existsb_exists. split.
  - intros (domain & Hin & Hc). apply str_contains_spec in Hc as (pre & post & ->).
    exists domain, pre, post. by rewrite list_elem_of_In.
  - intros (domain & pre & post & Hin & ->). exists domain.
    rewrite <- list_elem_of_In. split; [done|].
    apply str_contains_spec. by exists pre, post.
Qed.

Lemma kept_filter_of_search search text :
  kept search text <->
  match filter_of_search search with
  | Some f => f text = true
  | None => True
  end.
Proof.
  destruct search as [[|d ds]|]; cbn [kept filter_of_search truthy_list];
    [done| |done].
  by rewrite search_filter_spec.
Qed.

(** ** The dict of [find_nearby] *)

Lemma filled_cons i ips r rs d :
  filled (i :: ips) (r :: rs) d = filled ips rs (<[str_ip i := as_option r]> d).
Proof. reflexivity. Qed.

Lemma filled_nil_r ips d : filled ips [] d = d.
Proof. by destruct ips. Qed.

Lemma filled_other ips rs d key :
  (forall i, i ∈ ips -> key <> str_ip i) ->
  filled ips rs d !! key = d !! key.
Proof.
  revert rs d. induction ips as [|i ips IH]; intros rs d Hkey; [done|].
  destruct rs as [|r rs]; [by rewrite filled_nil_r|]. rewrite filled_cons.
  rewrite IH by (intros j Hj; apply Hkey; by apply list_elem_of_further).
  rewrite lookup_insert_ne; [done|]. intros Heq. eapply Hkey; [|done].
  apply list_elem_of_here.
Qed.

Lemma filled_at ips rs d k i r :
  NoDup (str_ip <$> ips) ->
  ips !! k = Some i -> rs !! k = Some r ->
  filled ips rs d !! str_ip i = Some (as_option r).
Proof.
  revert rs d k. induction ips as [|j ips IH]; intros rs d k Hnd Hi Hr;
    [by rewrite lookup_nil in Hi|].
  destruct rs as [|r' rs]; [by rewrite lookup_nil in Hr|].
  rewrite fmap_cons in Hnd. apply NoDup_cons in Hnd as [Hj Hnd].
  rewrite filled_cons. destruct k as [|k].
  - simpl in Hi, Hr. injection Hi as ->. injection Hr as ->.
    rewrite filled_other; [by rewrite lookup_insert_eq|].
    intros i' Hi' Heq. apply Hj. rewrite Heq. by apply list_elem_of_fmap_2.
  - simpl in Hi, Hr. by eapply IH.
Qed.

Lemma filled_empty_inv ips rs key v :
  length rs = length ips ->
  filled ips rs ∅ !! key = Some v ->
  exists k i r, ips !! k = Some i /\ rs !! k = Some r /\ key = str_ip i.
Proof.
  intros Hlen Hl.
  destruct (decide (key ∈ str_ip <$> ips)) as [Hin|Hnin].
  - apply list_elem_of_fmap in Hin as (i & -> & Hi).
    apply list_elem_of_lookup in Hi as [k Hk].
    destruct (lookup_lt_is_Some_2 rs k) as [r Hr].
    { rewrite Hlen. by eapply lookup_lt_Some. }
    by exists k, i, r.
  - rewrite filled_other in Hl; [done|].
    intros i Hi ->. apply Hnin. by apply list_elem_of_fmap_2.
Qed.

Lemma NoDup_str_ip ips :
  NoDup ips -> Forall valid_ip ips -> NoDup (str_ip <$> ips).
Proof.
  intros Hnd Hv. induction Hnd as [|i ips Hi Hnd IH]; [constructor|].
  apply Forall_cons in Hv as [Hvi Hv]. rewrite fmap_cons. constructor; [|auto].
  intros Hin. apply list_elem_of_fmap in Hin as (j & Heq & Hj).
  rewrite Forall_forall in Hv.
  apply str_ip_inj in Heq; [by subst|done|by apply Hv].
Qed.

(** The reported mapping holds exactly the addresses that resolved and
    whose first record passes the filter. *)
Lemma nearby_mapping_lookup ips rs ff key text :
  NoDup ips -> Forall valid_ip ips -> length rs = length ips ->
  nearby_mapping ips rs ff !! key = Some text <->
  exists k i a,
    ips !! k = Some i /\ rs !! k = Some (Ok a)
    /\ key = str_ip i /\ text = to_text (ans_first a)
    /\ match ff with Some f => f text = true | None => True end.
Proof.
  intros Hnd Hv Hlen. pose proof (NoDup_str_ip ips Hnd Hv) as Hnds.
  unfold nearby_mapping, nearby_kept. rewrite lookup_fmap_Some.
  assert (forall a, omap id (filled ips rs ∅) !! key = Some a <->
    exists k i, ips !! k = Some i /\ rs !! k = Some (Ok a) /\ key = str_ip i)
    as Hom.
  { intros a. rewrite lookup_omap_Some. split.
    - intros (v & Hva & Hl). simpl in Hva. subst v.
      destruct (filled_empty_inv _ _ _ _ Hlen Hl) as (k & i & r & Hi & Hr & ->).
      rewrite (filled_at _ _ _ _ _ _ Hnds Hi Hr) in Hl.
      exists k, i. destruct r; naive_solver.
    - intros (k & i & Hi & Hr & ->). exists (Some a). split; [done|].
      by rewrite (filled_at _ _ _ _ _ _ Hnds Hi Hr). }
  split.
  - intros (a & <- & Hl). destruct ff as [f|].
    + apply map_lookup_filter_Some in Hl as [Hl Hf]. simpl in Hf.
      apply Hom in Hl as (k & i & ? & ? & ?). by exists k, i, a.
    + apply Hom in Hl as (k & i & ? & ? & ?). by exists k, i, a.
  - intros (k & i & a & Hi & Hr & -> & -> & Hf). exists a. split; [done|].
    destruct ff as [f|].
    + apply map_lookup_filter_Some. split; [|done]. apply Hom. by exists k, i.
    + apply Hom. by exists k, i.
Qed.

(** ** Runs of [find_nearby] *)

Section FindNearby.
Context {W : Type} (C : Collab W).

(** A run of [find_nearby] makes the reverse lookups in the order of
    [ips].  Either every lookup was answered with records or with
    NXDOMAIN, and the run returns after reporting the mapping; or one
    lookup raised something else, that lookup is the last call and the
    exception leaves [find_nearby]. *)
Lemma find_nearby_run ips ff w :
  exists rs : list (result Answer),
    (length rs = length ips
     /\ Forall (fun r => soft r = true) rs
     /\ outcome (find_nearby C ips ff w) = Ok tt
     /\ trace (find_nearby C ips ff w)
        = zip_with (ptr_event C) ips rs
          ++ nearby_report (nearby_mapping ips rs ff))
    \/ (exists rs' e,
          rs = rs' ++ [Raise e]
          /\ (length rs <= length ips)%nat
          /\ Forall (fun r => soft r = true) rs'
          /\ soft (@Raise Answer e) = false
          /\ outcome (find_nearby C ips ff w) = Raise e
          /\ trace (find_nearby C ips ff w) = zip_with (ptr_event C) ips rs).
Proof.
  destruct (reverse_all_run C ips ∅ w) as (rs & Ht & Hlen & Hout).
  exists rs. unfold find_nearby. rewrite bind_run.
  rewrite (run_eta (reverse_all C ips ∅ w)), Ht.
  destruct (outcome (reverse_all C ips ∅ w)) as [d|e].
  - destruct Hout as (Hl & Hs & ->). left.
    split; [done|]. split; [done|].
    fold (nearby_kept ips rs ff).
    unfold nearby_report, nearby_mapping.
    destruct (decide (nearby_kept ips rs ff = ∅)) as [He|Hne].
    + rewrite decide_True by (by rewrite He, fmap_empty). done.
    + rewrite decide_False by (by rewrite fmap_empty_iff).
      unfold print, pprint. rewrite bind_emit_run. done.
  - destruct Hout as (rs' & -> & Hs & Hn). right.
    exists rs', e. by repeat split.
Qed.

Lemma ptr_names_zip ips rs :
  ptr_names (zip_with (ptr_event C) ips rs)
  = (fun i => from_address C (str_ip i)) <$> take (length rs) ips.
Proof.
  revert rs. induction ips as [|i ips IH]; intros [|r rs]; simpl; try done.
  by rewrite IH.
Qed.

Lemma queries_zip ips rs :
  queries (zip_with (ptr_event C) ips rs)
  = zip_with (fun i r => (from_address C (str_ip i), RT_PTR, r)) ips rs.
Proof.
  revert rs. induction ips as [|i ips IH]; intros [|r rs]; simpl; try done.
  by rewrite IH.
Qed.

Lemma reports_zip ips rs : reports (zip_with (ptr_event C) ips rs) = [].
Proof.
  revert rs. induction ips as [|i ips IH]; intros [|r rs]; simpl; try done.
  unfold reports in *. rewrite filter_cons_False by done. apply IH.
Qed.

Lemma queries_app t1 t2 : queries (t1 ++ t2) = queries t1 ++ queries t2.
Proof. unfold queries. by rewrite omap_app. Qed.
Lemma ptr_names_app t1 t2 : ptr_names (t1 ++ t2) = ptr_names t1 ++ ptr_names t2.
Proof. unfold ptr_names. by rewrite omap_app. Qed.
Lemma reports_app t1 t2 : reports (t1 ++ t2) = reports t1 ++ reports t2.
Proof. unfold reports. by rewrite filter_app. Qed.

Lemma queries_nearby_report m : queries (nearby_report m) = [].
Proof. unfold nearby_report. by case_decide. Qed.
Lemma ptr_names_nearby_report m : ptr_names (nearby_report m) = [].
Proof. unfold nearby_report. by case_decide. Qed.
Lemma reports_nearby_report m : reports (nearby_report m) = nearby_report m.
Proof. unfold nearby_report. by case_decide. Qed.
End FindNearby.

(** ** The calls of each stage *)

Section Emits.
Context {W : Type} (C : Collab W).
Implicit Types P : event -> Prop.

Lemma emits_ret {X} P (a : X) : emits (W:=W) P (Mon.ret a).
Proof. intros w. constructor. Qed.

Lemma emits_raise {X} P e : emits (W:=W) (X:=X) P (Mon.raise e).
Proof. intros w. constructor. Qed.

Lemma emits_lift {X} P (r : result X) : emits (W:=W) P (Mon.lift r).
Proof. intros w. constructor. Qed.

Lemma emits_emit P ev : P ev -> emits (W:=W) P (Mon.emit ev).
Proof. intros Hev w. by repeat constructor. Qed.

Lemma emits_bind {X Y} P (m : M W X) (f : X -> M W Y) :
  emits P m -> (forall a, emits P (f a)) -> emits P (Mon.bind m f).
Proof.
  intros Hm Hf w. rewrite bind_run. specialize (Hm w).
  destruct (m w) as [[[a|e] w1] t1]; unfold trace in *; cbn [snd] in *.
  - apply Forall_app. split; [done|]. apply Hf.
  - done.
Qed.

Lemma emits_impl {X} P Q (m : M W X) :
  (forall ev, P ev -> Q ev) -> emits P m -> emits Q m.
Proof. intros HPQ Hm w. eapply Forall_impl; [apply Hm|done]. Qed.

Lemma emits_query P name rt :
  (forall r, P (EvQuery name rt r)) -> emits P (query C name rt).
Proof. intros HP w. rewrite query_run. by repeat constructor. Qed.

Lemma emits_readlines P path :
  (forall r, P (EvReadlines path r)) -> emits P (call_readlines C path).
Proof.
  intros HP w. unfold call_readlines.
  destruct (readlines C path w) as [r w']. by repeat constructor.
Qed.

Lemma emits_sleep P secs :
  (forall r, P (EvSleep secs r)) -> emits P (call_sleep C secs).
Proof.
  intros HP w. unfold call_sleep.
  destruct (sleep C secs w) as [r w']. by repeat constructor.
Qed.

Lemma emits_randint P :
  (forall v, P (EvRandint v)) -> emits P (call_randint C).
Proof.
  intros HP w. unfold call_randint.
  destruct (randint C w) as [v w']. by repeat constructor.
Qed.

Lemma emits_reverse_all ips d :
  emits (fun ev => is_lookup_event ev = true) (reverse_all C ips d).
Proof.
  revert d. induction ips as [|i ips IH]; intros d; cbn [reverse_all].
  - apply emits_ret.
  - apply emits_bind; [by apply emits_query|]. intros v. apply IH.
Qed.

Lemma emits_find_nearby ips ff :
  emits (fun ev => is_lookup_event ev = true) (find_nearby C ips ff).
Proof.
  unfold find_nearby. apply emits_bind; [apply emits_reverse_all|].
  intros d. case_decide; [apply emits_ret|].
  apply emits_bind; [by apply emits_emit|]. intros _. by apply emits_emit.
Qed.

Lemma lookup_is_loop ev : is_lookup_event ev = true -> is_loop_event ev = true.
Proof. by destruct ev as [| |? [] ?| | | | |]. Qed.

Lemma loop_is_late ev : is_loop_event ev = true -> is_late_event ev = true.
Proof. by destruct ev as [| |? [] ?| | | | |]. Qed.

Lemma emits_brute_force kw domain subdomains visited :
  emits (fun ev => is_loop_event ev = true)
    (brute_force C kw domain subdomains visited).
Proof.
  revert visited.
  induction subdomains as [|sd subdomains IH]; intros visited;
    cbn [brute_force]; [apply emits_ret|].
  apply emits_bind; [by apply emits_query|]. intros [record|]; [|apply IH].
  apply emits_bind; [apply emits_lift|]. intros address.
  apply emits_bind; [apply emits_lift|]. intros ip.
  apply emits_bind; [by apply emits_emit|]. intros _.
  destruct (expand kw ip) as [ips|]; [|apply IH].
  apply emits_bind; [apply emits_lift|]. intros ips'.
  destruct (filter_new ips' visited) as [new visited'].
  apply emits_bind.
  { eapply emits_impl; [apply lookup_is_loop|apply emits_find_nearby]. }
  intros _. apply emits_bind; [|intros _; apply IH].
  destruct (kw_delay kw) as [delay|]; [|apply emits_ret].
  destruct (truthy_float delay); [by apply emits_sleep|apply emits_ret].
Qed.

Lemma emits_wildcard_and_brute_force kw domain :
  emits (fun ev => is_late_event ev = true)
    (wildcard_and_brute_force C kw domain).
Proof.
  unfold wildcard_and_brute_force.
  apply emits_bind; [by apply emits_randint|]. intros r.
  apply emits_bind; [by apply emits_query|]. intros wildcard.
  apply emits_bind; [by apply emits_emit|]. intros _.
  apply emits_bind.
  { destruct (truthy_opt truthy_list (kw_subdomains kw)); [apply emits_ret|].
    apply emits_bind; [by apply emits_readlines|]. intros. apply emits_ret. }
  intros subdomains. apply emits_bind; [|intros; apply emits_ret].
  eapply emits_impl; [apply loop_is_late|apply emits_brute_force].
Qed.

Lemma emits_configure_nameservers kw :
  emits (fun ev => is_setup_event ev = true) (configure_nameservers C kw).
Proof.
  unfold configure_nameservers. apply emits_bind.
  - destruct (truthy_opt truthy_list (kw_dns_servers kw)); [apply emits_ret|].
    destruct (kw_dns_file kw) as [path|]; [|apply emits_ret].
    destruct (truthy_str path); [|apply emits_ret].
    apply emits_bind; [by apply emits_readlines|]. intros. apply emits_ret.
  - intros [servers|]; [|apply emits_ret].
    destruct (truthy_list servers); [|apply emits_ret].
    intros w. unfold assign_nameservers.
    destruct (set_nameservers C servers w) as [r w']. by repeat constructor.
Qed.

Lemma emits_internal_range_scan kw :
  emits (fun ev => is_lookup_event ev = true) (internal_range_scan C kw).
Proof.
  unfold internal_range_scan.
  destruct (kw_range kw) as [text|]; [|apply emits_ret].
  destruct (truthy_str text); [|apply emits_ret].
  apply emits_bind; [apply emits_lift|]. intros net. apply emits_find_nearby.
Qed.
End Emits.

(** ** The shape of a run *)

Ltac close_run :=
  repeat match goal with |- _ /\ _ => split end;
  first [assumption | reflexivity].

Section Shapes.
Context {W : Type} (C : Collab W).

(** A query whose value is used without a test for [None]. *)
Lemma query_then_use {X} name rt (f : option Answer -> M W X) w :
  (forall w', f None w' = (Raise TypeError, w', [])) ->
  Mon.bind (query C name rt) f w =
  match (resolver_query C name rt w).1 with
  | Ok a =>
      after [EvQuery name rt (Ok a)]
        (f (Some a) (resolver_query C name rt w).2)
  | Raise e =>
      (Raise (unchecked e), (resolver_query C name rt w).2,
       [EvQuery name rt (Raise e)])
  end.
Proof.
  intros Hnone. rewrite bind_run, query_run.
  destruct (resolver_query C name rt w) as [[a|e] w1]; cbn [fst snd]; [done|].
  unfold unchecked. destruct (is_NXDOMAIN e); [|done].
  by rewrite Hnone.
Qed.

Lemma bind_emit_after {Y} ev (f : unit -> M W Y) w :
  Mon.bind (Mon.emit ev) f w = after [ev] (f tt w).
Proof. apply bind_emit_run. Qed.

Lemma zone_transfer_run address domain w :
  zone_transfer C address domain w =
  (match (from_xfr C address domain w).1 with
   | Ok z => Ok (Some z)
   | Raise e => if is_reset_or_form e then Ok None else Raise e
   end,
   (from_xfr C address domain w).2,
   [EvXfr address domain (from_xfr C address domain w).1]).
Proof.
  unfold zone_transfer, Mon.try_except, Mon.bind, call_xfr, Mon.ret.
  destruct (from_xfr C address domain w) as [[z|e] w']; simpl; [done|].
  destruct (is_reset_or_form e); by rewrite ?app_nil_r.
Qed.

(** The eight ways a domain scan can go. *)
Lemma domain_scan_shape kw domain w :
  let r := domain_scan C kw domain w in
  (exists e,
      trace r = [EvQuery domain RT_NS (Raise e)]
      /\ outcome r = Raise (unchecked e))
  \/ (exists ns e,
      trace r = [EvQuery domain RT_NS (Ok ns); EvPrint (ns_line ns);
                 EvQuery domain RT_SOA (Raise e)]
      /\ outcome r = Raise (unchecked e))
  \/ (exists ns soa e,
      get_mname (ans_first soa) = Raise e
      /\ trace r = [EvQuery domain RT_NS (Ok ns); EvPrint (ns_line ns);
                    EvQuery domain RT_SOA (Ok soa)]
      /\ outcome r = Raise e)
  \/ (exists ns soa mname e,
      get_mname (ans_first soa) = Ok mname
      /\ trace r = [EvQuery domain RT_NS (Ok ns); EvPrint (ns_line ns);
                    EvQuery domain RT_SOA (Ok soa);
                    EvQuery mname RT_A (Raise e)]
      /\ outcome r = Raise (unchecked e))
  \/ (exists ns soa mname master e,
      get_mname (ans_first soa) = Ok mname
      /\ get_address (ans_first master) = Raise e
      /\ trace r = [EvQuery domain RT_NS (Ok ns); EvPrint (ns_line ns);
                    EvQuery domain RT_SOA (Ok soa);
                    EvQuery mname RT_A (Ok master)]
      /\ outcome r = Raise e)
  \/ (exists ns soa mname master address,
      get_mname (ans_first soa) = Ok mname
      /\ get_address (ans_first master) = Ok address
      /\ ((exists z,
            trace r = scan_head domain ns soa master mname address
                      ++ [EvXfr address domain (Ok z);
                          EvPrint "Zone: success"; EvPPrint (zone_dict z)]
            /\ outcome r = Ok tt)
          \/ (exists e,
            is_reset_or_form e = false
            /\ trace r = scan_head domain ns soa master mname address
                         ++ [EvXfr address domain (Raise e)]
            /\ outcome r = Raise e)
          \/ (exists e w',
            is_reset_or_form e = true
            /\ trace r = scan_head domain ns soa master mname address
                         ++ [EvXfr address domain (Raise e);
                             EvPrint "Zone: failure"]
                         ++ trace (wildcard_and_brute_force C kw domain w')
            /\ outcome r
               = outcome (wildcard_and_brute_force C kw domain w')))).
Proof.
  intros r. assert (r = domain_scan C kw domain w) as Hr by done.
  clearbody r. unfold domain_scan in Hr.
  rewrite query_then_use in Hr by done.
  destruct (resolver_query C domain RT_NS w) as [[ns|e] w1];
    cbn [fst snd] in Hr; [|left; exists e; subst r; close_run].
  right. unfold iterate in Hr. rewrite bind_ret_run in Hr.
  unfold print at 1 in Hr. rewrite bind_emit_after in Hr.
  rewrite query_then_use in Hr by done.
  destruct (resolver_query C domain RT_SOA w1) as [[soa|e] w2];
    cbn [fst snd] in Hr; [|left; exists ns, e; subst r; close_run].
  right. unfold subscript0 at 1 in Hr. rewrite bind_ret_run in Hr.
  rewrite bind_lift_run in Hr.
  destruct (get_mname (ans_first soa)) as [mname|e] eqn:Hmname;
    [|left; exists ns, soa, e; subst r; close_run].
  right. rewrite query_then_use in Hr by done.
  destruct (resolver_query C mname RT_A w2) as [[master|e] w3];
    cbn [fst snd] in Hr; [|left; exists ns, soa, mname, e; subst r; close_run].
  right. unfold subscript0 at 1 in Hr. rewrite bind_ret_run in Hr.
  rewrite bind_lift_run in Hr.
  destruct (get_address (ans_first master)) as [address|e] eqn:Haddress;
    [|left; exists ns, soa, mname, master, e; subst r; close_run].
  right. exists ns, soa, mname, master, address.
  split; [done|]. split; [done|].
  unfold print at 1 in Hr. rewrite bind_emit_after in Hr.
  rewrite bind_run, zone_transfer_run in Hr.
  destruct (from_xfr C address domain w3) as [[z|e] w4]; cbn [fst snd] in Hr.
  - left. exists z. unfold print, pprint in Hr.
    rewrite bind_emit_after in Hr. subst r. close_run.
  - right. destruct (is_reset_or_form e) eqn:He.
    + right. exists e, w4. split; [done|].
      unfold print in Hr. rewrite bind_emit_after in Hr. subst r. close_run.
    + left. exists e. subst r. close_run.
Qed.

(** The three stages of [fierce], one after the other. *)
Lemma fierce_shape kw w :
  let r := fierce C kw w in
  let c := configure_nameservers C kw w in
  (exists e, outcome c = Raise e /\ r = c)
  \/ (outcome c = Ok tt
      /\ let s := internal_range_scan C kw (final c) in
         (exists e, outcome s = Raise e
                    /\ outcome r = Raise e
                    /\ trace r = trace c ++ trace s)
         \/ (outcome s = Ok tt
             /\ match kw_domain kw with
                | Some domain =>
                    if truthy_str domain then
                      let d := domain_scan C kw domain (final s) in
                      outcome r = outcome d
                      /\ trace r = trace c ++ trace s ++ trace d
                    else outcome r = Ok tt /\ trace r = trace c ++ trace s
                | None => outcome r = Ok tt /\ trace r = trace c ++ trace s
                end)).
Proof.
  cbv zeta. unfold fierce. rewrite bind_run.
  destruct (configure_nameservers C kw w) as [[[[]|e] w1] t1];
    [|left; exists e; close_run].
  right. split; [reflexivity|]. unfold final. cbn [fst snd].
  rewrite bind_run.
  destruct (internal_range_scan C kw w1) as [[[[]|e] w2] t2].
  - right. split; [reflexivity|]. unfold outcome, trace, final. cbn [fst snd].
    destruct (kw_domain kw) as [domain|];
      [|rewrite !app_nil_r; close_run].
    destruct (truthy_str domain); cbn [negb];
      [close_run|rewrite !app_nil_r; close_run].
  - left. exists e. close_run.
Qed.
End Shapes.

(** ** Finding one call in a trace *)

Section OneEvent.
Context (P : event -> bool).

(** A trace with no call of a kind cannot be split at one. *)
Lemma no_event (t pre post : list event) y :
  Forall (fun ev => P ev = false) t ->
  t = pre ++ y :: post -> P y = true -> False.
Proof.
  intros Hall -> Hy. apply Forall_app in Hall as [_ Hall].
  apply Forall_cons in Hall as [Hy' _]. congruence.
Qed.

(** A trace with at most one call of a kind splits at it in one way. *)
Lemma unique_event (t1 t2 pre post : list event) x y :
  t1 ++ x :: t2 = pre ++ y :: post ->
  Forall (fun ev => P ev = false) t1 ->
  Forall (fun ev => P ev = false) t2 ->
  P y = true ->
  pre = t1 /\ y = x /\ post = t2.
Proof.
  revert pre. induction t1 as [|a t1 IH]; intros [|p pre] Heq H1 H2 Hy;
    simplify_eq/=.
  - done.
  - exfalso. by eapply (no_event (pre ++ y :: post) pre post y).
  - exfalso. apply Forall_cons in H1 as [Ha _]. congruence.
  - apply Forall_cons in H1 as [_ H1].
    destruct (IH pre) as (-> & -> & ->); done.
Qed.
End OneEvent.

Lemma setup_not_xfr ev : is_setup_event ev = true -> is_xfr ev = false.
Proof. by destruct ev. Qed.
Lemma setup_not_randint ev : is_setup_event ev = true -> is_randint ev = false.
Proof. by destruct ev. Qed.
Lemma setup_not_soa ev : is_setup_event ev = true -> is_soa_query ev = false.
Proof. by destruct ev. Qed.
Lemma setup_not_ns ev : is_setup_event ev = true -> is_ns_query ev = false.
Proof. by destruct ev. Qed.
Lemma lookup_not_xfr ev : is_lookup_event ev = true -> is_xfr ev = false.
Proof. by destruct ev. Qed.
Lemma lookup_not_randint ev :
  is_lookup_event ev = true -> is_randint ev = false.
Proof. by destruct ev. Qed.
Lemma lookup_not_soa ev : is_lookup_event ev = true -> is_soa_query ev = false.
Proof. by destruct ev as [| |? [] ?| | | | |]. Qed.
Lemma lookup_not_ns ev : is_lookup_event ev = true -> is_ns_query ev = false.
Proof. by destruct ev as [| |? [] ?| | | | |]. Qed.
Lemma late_not_xfr ev : is_late_event ev = true -> is_xfr ev = false.
Proof. by destruct ev. Qed.
Lemma late_not_soa ev : is_late_event ev = true -> is_soa_query ev = false.
Proof. by destruct ev as [| |? [] ?| | | | |]. Qed.
Lemma late_not_ns ev : is_late_event ev = true -> is_ns_query ev = false.
Proof. by destruct ev as [| |? [] ?| | | | |]. Qed.

Section Stages.
Context {W : Type} (C : Collab W).

(** The calls before the domain scan are of none of these kinds. *)
Lemma before_scan kw w w' (P : event -> bool) :
  (forall ev, is_setup_event ev = true -> P ev = false) ->
  (forall ev, is_lookup_event ev = true -> P ev = false) ->
  Forall (fun ev => P ev = false)
    (trace (configure_nameservers C kw w)
     ++ trace (internal_range_scan C kw w')).
Proof.
  intros Hs Hl. apply Forall_app. split.
  - eapply Forall_impl; [apply emits_configure_nameservers|]. apply Hs.
  - eapply Forall_impl; [apply emits_internal_range_scan|]. apply Hl.
Qed.

Lemma after_transfer kw domain w (P : event -> bool) :
  (forall ev, is_late_event ev = true -> P ev = false) ->
  Forall (fun ev => P ev = false)
    (trace (wildcard_and_brute_force C kw domain w)).
Proof.
  intros Hl. eapply Forall_impl; [apply emits_wildcard_and_brute_force|].
  apply Hl.
Qed.
End Stages.

(** ** The stages of [fierce] *)

Section FierceCases.
Context {W : Type} (C : Collab W).

Lemma early_events kw w w' :
  Forall (fun ev => is_early_event ev = true)
    (trace (configure_nameservers C kw w)
     ++ trace (internal_range_scan C kw w')).
Proof.
  apply Forall_app. split.
  - eapply Forall_impl; [apply emits_configure_nameservers|].
    intros ev Hev. unfold is_early_event. by rewrite Hev.
  - eapply Forall_impl; [apply emits_internal_range_scan|].
    intros ev Hev. unfold is_early_event. rewrite Hev. apply orb_true_r.
Qed.

(** A run of [fierce] stops before the domain scan, or is the two first
    stages followed by the domain scan. *)
Lemma fierce_cases kw w :
  let c := configure_nameservers C kw w in
  let s := internal_range_scan C kw (final c) in
  Forall (fun ev => is_early_event ev = true) (trace (fierce C kw w))
  \/ (exists domain,
        kw_domain kw = Some domain
        /\ truthy_str domain = true
        /\ outcome c = Ok tt /\ outcome s = Ok tt
        /\ outcome (fierce C kw w)
           = outcome (domain_scan C kw domain (final s))
        /\ trace (fierce C kw w)
           = (trace c ++ trace s)
             ++ trace (domain_scan C kw domain (final s))).
Proof.
  intros c s. subst c s.
  pose proof (early_events kw w
                (final (configure_nameservers C kw w))) as Hearly.
  destruct (fierce_shape C kw w)
    as [(e & Hc & Hr)|(Hc & [(e & Hs & Ho & Ht)|(Hs & Hd)])].
  - left. rewrite Hr. by apply Forall_app in Hearly as [? _].
  - left. by rewrite Ht.
  - destruct (kw_domain kw) as [domain|]; [|left; by rewrite (proj2 Hd)].
    destruct (truthy_str domain) eqn:Htr; [|left; by rewrite (proj2 Hd)].
    right. exists domain. destruct Hd as [Ho Ht].
    rewrite Ht, app_assoc. done.
Qed.

(** The range scan is [find_nearby] on the whole network, without a
    filter. *)
Lemma internal_range_scan_run kw text w :
  kw_range kw = Some text -> truthy_str text = true ->
  internal_range_scan C kw w =
  match IPv4Network_of_text C text with
  | Ok net => find_nearby C (net_list net) None w
  | Raise e => (Raise e, w, [])
  end.
Proof.
  intros Hk Ht. unfold internal_range_scan. rewrite Hk, Ht.
  apply bind_lift_run.
Qed.

Lemma emits_reverse_all_quiet ips d :
  emits (fun ev => is_report ev = false) (reverse_all C ips d).
Proof.
  revert d. induction ips as [|i ips IH]; intros d; cbn [reverse_all].
  - apply emits_ret.
  - apply emits_bind; [by apply emits_query|]. intros v. apply IH.
Qed.

Lemma emits_find_nearby_kept search ips :
  emits (prints_kept search)
    (find_nearby C ips (filter_of_search search)).
Proof.
  unfold find_nearby. apply emits_bind.
  { eapply emits_impl; [|apply emits_reverse_all_quiet].
    by intros ev Hev m key text ->. }
  intros d. case_decide as Hne; [apply emits_ret|].
  apply emits_bind; [apply emits_emit; by intros m key text ?|].
  intros _. apply emits_emit. intros m key text [= <-] Hl.
  apply lookup_fmap_Some in Hl as (v & <- & Hv).
  apply kept_filter_of_search.
  destruct (filter_of_search search) as [f|]; [|done].
  by apply map_lookup_filter_Some in Hv as [_ Hf].
Qed.

Lemma emits_brute_force_kept kw domain subdomains visited :
  emits (prints_kept (kw_search kw))
    (brute_force C kw domain subdomains visited).
Proof.
  assert (forall ev, is_report ev = false -> prints_kept (kw_search kw) ev)
    as Hother by (by intros ev Hev m key text ->).
  revert visited.
  induction subdomains as [|sd subdomains IH]; intros visited;
    cbn [brute_force]; [apply emits_ret|].
  apply emits_bind; [apply emits_query; intros; by apply Hother|].
  intros [record|]; [|apply IH].
  apply emits_bind; [apply emits_lift|]. intros address.
  apply emits_bind; [apply emits_lift|]. intros ip.
  apply emits_bind; [apply emits_emit; by intros m key text ?|]. intros _.
  destruct (expand kw ip) as [ips|]; [|apply IH].
  apply emits_bind; [apply emits_lift|]. intros ips'.
  destruct (filter_new ips' visited) as [new visited'].
  apply emits_bind; [apply emits_find_nearby_kept|].
  intros _. apply emits_bind; [|intros _; apply IH].
  destruct (kw_delay kw) as [delay|]; [|apply emits_ret].
  destruct (truthy_float delay); [|apply emits_ret].
  apply emits_sleep. intros; by apply Hother.
Qed.
End FierceCases.

(** ** The addresses of a hit are addresses *)

Lemma digit_val_nonneg c d : digit_val c = Some d -> 0 <= d.
Proof.
  unfold digit_val. case_bool_decide as Hc; [|done]. intros [= <-]. lia.
Qed.

Lemma digits_val_nonneg s acc v :
  0 <= acc -> digits_val acc s = Some v -> 0 <= v.
Proof.
  revert acc. induction s as [|c s IH]; intros acc Hacc; cbn [digits_val].
  - by intros [= <-].
  - destruct (digit_val c) as [d|] eqn:Hd; [|done].
    apply digit_val_nonneg in Hd. apply IH. lia.
Qed.

Lemma parse_octet_range s v : parse_octet s = Some v -> 0 <= v < 256.
Proof.
  unfold parse_octet. destruct s as [|c s']; [done|].
  case_bool_decide; [done|].
  destruct (_ && _); [done|].
  destruct (digits_val 0 (String c s')) as [v'|] eqn:Hv; [|done].
  case_bool_decide as Hle; [|done]. intros [= <-].
  apply digits_val_nonneg in Hv; lia.
Qed.

Lemma IPv4Address_of_text_valid s ip :
  IPv4Address_of_text s = Ok ip -> valid_ip ip.
Proof.
  unfold IPv4Address_of_text. case_bool_decide as Hlen; [|done].
  destruct (mapM parse_octet (split_dot s)) as [os|] eqn:Hos; [|done].
  intros [= <-]. apply mapM_Some_1 in Hos.
  destruct (split_dot s) as [|p3 [|p2 [|p1 [|p0 [|]]]]]; try done.
  apply Forall2_cons_inv_l in Hos as (o3 & os3 & H3 & Hos & ->).
  apply Forall2_cons_inv_l in Hos as (o2 & os2 & H2 & Hos & ->).
  apply Forall2_cons_inv_l in Hos as (o1 & os1 & H1 & Hos & ->).
  apply Forall2_cons_inv_l in Hos as (o0 & os0 & H0 & Hos & ->).
  apply Forall2_nil_inv_l in Hos as ->.
  apply parse_octet_range in H3, H2, H1, H0.
  unfold from_octets. cbn [fold_left].
  rewrite !lor_shiftl_8 by done. unfold valid_ip, ALL_ONES. lia.
Qed.

Lemma mapM_IPv4Address_valid ip l result :
  Res.mapM (fun i => IPv4Address (ip + i)) l = Ok result ->
  Forall valid_ip result.
Proof.
  revert result. induction l as [|i l IH]; intros result.
  - intros [= <-]. constructor.
  - cbn [Res.mapM]. unfold IPv4Address at 1. case_bool_decide as Hi; [|done].
    cbn [Res.bind].
    destruct (Res.mapM _ l) as [rest|e]; [|done].
    cbn [Res.bind]. intros [= <-]. constructor; [exact Hi|by apply IH].
Qed.

Lemma traverse_expander_valid ip n l :
  traverse_expander ip n = Ok l -> Forall valid_ip l.
Proof.
  unfold traverse_expander.
  destruct (get_class_c_network ip) as [class_c|e]; [|done].
  cbn [Res.bind].
  destruct (Res.mapM _ _) as [result|e] eqn:Hres; [|done].
  cbn [Res.bind]. intros [= <-].
  apply mapM_IPv4Address_valid in Hres.
  apply Forall_forall. intros x [_ Hx]%list_elem_of_filter.
  rewrite Forall_forall in Hres. by apply Hres.
Qed.

Lemma wide_expander_valid ip l :
  valid_ip ip -> wide_expander ip = Ok l -> Forall valid_ip l.
Proof.
  intros Hv.
  assert (0 <= ip `mod` 2 ^ 8 < 2 ^ 8) as Hb by (apply Z.mod_pos_bound; lia).
  assert (0 <= ip - ip `mod` 2 ^ 8) as Hn0.
  { unfold valid_ip in Hv. pose proof (Z.mod_le ip (2 ^ 8)). lia. }
  assert ((ip - ip `mod` 2 ^ 8) `mod` 2 ^ 8 = 0) as Hm.
  { rewrite Zminus_mod_idemp_r, Z.sub_diag, Z.mod_0_l; lia. }
  assert (ip - ip `mod` 2 ^ 8 + 256 <= ALL_ONES + 1) as Htop.
  { unfold valid_ip, ALL_ONES in *.
    pose proof (Z.div_mod ip (2 ^ 8) ltac:(lia)) as Hdm.
    assert (ip `div` 2 ^ 8 < 2 ^ 24) by (apply Z.div_lt_upper_bound; lia).
    lia. }
  unfold wide_expander. rewrite get_class_c_network_ok by done.
  cbn [Res.bind]. unfold net_list. rewrite num_addresses_24 by done.
  cbn [network_address]. intros [= <-].
  apply Forall_forall. intros x Hx%elem_of_seqZ. unfold valid_ip. lia.
Qed.

Lemma expand_valid kw ip ips :
  valid_ip ip -> expand kw ip = Some (Ok ips) -> Forall valid_ip ips.
Proof.
  intros Hv. unfold expand. destruct (kw_wide kw).
  - intros [= Hw]. by eapply wide_expander_valid.
  - destruct (kw_traverse kw) as [n|]; [|done].
    destruct (truthy_int n); [|done].
    intros [= Ht]. by eapply traverse_expander_valid.
Qed.

(** ** The reverse name of an address *)

Lemma append_assoc (s t u : string) : (s +:+ t) +:+ u = s +:+ (t +:+ u).
Proof. induction s as [|c s IH]; [done|]. by rewrite !append_cons, IH. Qed.

Lemma split_dot_go_app_dot cur s rest :
  no_dot s = true ->
  split_dot_go cur (s +:+ "." +:+ rest)
  = String.rev_app cur s :: split_dot_go EmptyString rest.
Proof. apply split_dot_go_app. Qed.

(** [dns.reversename.from_address], as the scripted worlds have it, gives
    different names to different addresses. *)
Lemma reverse_name_inj i j :
  valid_ip i -> valid_ip j ->
  Script.reverse_name (str_ip i) = Script.reverse_name (str_ip j) -> i = j.
Proof.
  assert (forall a, valid_ip a ->
    exists o3 o2 o1 o0,
      octets a = [o3; o2; o1; o0]
      /\ Forall (fun o => octet_ok o = true) [o3; o2; o1; o0]
      /\ split_dot (Script.reverse_name (str_ip a))
         = [pretty o0; pretty o1; pretty o2; pretty o3;
            "in-addr"; "arpa"; EmptyString]) as Hname.
  { intros a Ha. pose proof (octets_range a) as Hr.
    destruct (octets a) as [|o3 [|o2 [|o1 [|o0 [|]]]]] eqn:Ho; try done.
    exists o3, o2, o1, o0. split; [done|].
    assert (Forall (fun o => octet_ok o = true) [o3; o2; o1; o0]) as Hok.
    { eapply Forall_impl; [exact Hr|]. intros o. apply octet_ok_range. }
    split; [done|].
    apply Forall_cons in Hok as [[_ D3]%andb_prop Hok].
    apply Forall_cons in Hok as [[_ D2]%andb_prop Hok].
    apply Forall_cons in Hok as [[_ D1]%andb_prop Hok].
    apply Forall_cons in Hok as [[_ D0]%andb_prop _].
    unfold Script.reverse_name, str_ip. rewrite Ho. cbn [map].
    rewrite split_dot_join4 by done. cbn [reverse rev_append String.concat].
    change (reverse [pretty o3; pretty o2; pretty o1; pretty o0])
      with [pretty o0; pretty o1; pretty o2; pretty o3].
    cbn [String.concat].
    rewrite !append_assoc.
    unfold split_dot. rewrite !split_dot_go_app_dot by done.
    change (pretty o3 +:+ ".in-addr.arpa.")
      with (pretty o3 +:+ String "."%char "in-addr.arpa.").
    rewrite split_dot_go_app by done. reflexivity. }
  intros Hi Hj Heq.
  destruct (Hname i Hi) as (a3 & a2 & a1 & a0 & Ha & Hoka & Hsa).
  destruct (Hname j Hj) as (b3 & b2 & b1 & b0 & Hb & Hokb & Hsb).
  rewrite Heq, Hsb in Hsa. injection Hsa as E0 E1 E2 E3.
  assert (forall a b, octet_ok a = true -> octet_ok b = true ->
            pretty b = pretty a -> b = a) as Hinj.
  { intros a b [Pa _]%andb_prop [Pb _]%andb_prop Hp.
    apply bool_decide_eq_true in Pa, Pb. rewrite Hp in Pb. congruence. }
  apply Forall_cons in Hoka as [A3 Hoka]. apply Forall_cons in Hoka as [A2 Hoka].
  apply Forall_cons in Hoka as [A1 Hoka]. apply Forall_cons in Hoka as [A0 _].
  apply Forall_cons in Hokb as [B3 Hokb]. apply Forall_cons in Hokb as [B2 Hokb].
  apply Forall_cons in Hokb as [B1 Hokb]. apply Forall_cons in Hokb as [B0 _].
  apply Hinj in E0, E1, E2, E3; try done. subst.
  rewrite <- (from_octets_octets i Hi), <- (from_octets_octets j Hj).
  by rewrite Ha, Hb.
Qed.

(** ** The visited set *)

Section Survivors.
Implicit Types (batches : list (list Z)) (visited : gset Z).

Lemma survivors_cons ips batches visited :
  survivors (ips :: batches) visited
  = ((list_to_set ips ∖ visited)
       :: (survivors batches (visited ∪ (list_to_set ips ∖ visited))).1,
     (survivors batches (visited ∪ (list_to_set ips ∖ visited))).2).
Proof.
  cbn [survivors]. unfold filter_new.
  by destruct (survivors batches _) as [rest fin].
Qed.

Lemma survivors_visited batches visited :
  (survivors batches visited).2
  = visited ∪ ⋃ (list_to_set <$> batches).
Proof.
  revert visited. induction batches as [|ips batches IH]; intros visited.
  - cbn. set_solver.
  - rewrite survivors_cons. cbn [snd]. rewrite IH.
    rewrite fmap_cons, union_list_cons. apply set_eq. intros x.
    rewrite !elem_of_union, elem_of_difference.
    destruct (decide (x ∈ visited)); naive_solver.
Qed.

Lemma survivors_new batches visited s x :
  s ∈ (survivors batches visited).1 -> x ∈ s ->
  (x ∉ visited) /\ x ∈ ⋃ (list_to_set (C:=gset Z) <$> batches).
Proof.
  revert visited. induction batches as [|ips batches IH]; intros visited.
  - cbn. by intros ?%elem_of_nil.
  - rewrite survivors_cons. cbn [fst].
    rewrite fmap_cons, union_list_cons.
    intros [->|Hs]%elem_of_cons Hx.
    + set_solver.
    + destruct (IH _ Hs Hx) as [Hn Hu]. set_solver.
Qed.

Lemma survivors_union batches visited x :
  x ∈ ⋃ (list_to_set (C:=gset Z) <$> batches) -> x ∉ visited ->
  exists s, s ∈ (survivors batches visited).1 /\ x ∈ s.
Proof.
  revert visited. induction batches as [|ips batches IH]; intros visited.
  - cbn. set_solver.
  - rewrite survivors_cons. cbn [fst]. rewrite fmap_cons, union_list_cons.
    intros Hx Hv. destruct (decide (x ∈ ips)) as [Hin|Hout].
    + exists (list_to_set ips ∖ visited). split; [by left|set_solver].
    + destruct (IH (visited ∪ list_to_set ips ∖ visited) ltac:(set_solver)
                  ltac:(set_solver)) as (s & Hs & Hxs).
      exists s. split; [by right|done].
Qed.

Lemma survivors_pairwise batches visited j k s t :
  j <> k ->
  (survivors batches visited).1 !! j = Some s ->
  (survivors batches visited).1 !! k = Some t ->
  s ## t.
Proof.
  revert visited j k.
  induction batches as [|ips batches IH]; intros visited j k Hjk.
  - by cbn.
  - rewrite survivors_cons. cbn [fst].
    destruct j as [|j], k as [|k]; cbn [lookup list_lookup]; try done.
    + intros [= <-] Ht. apply list_elem_of_lookup_2 in Ht.
      intros x Hx Hxt. destruct (survivors_new _ _ _ x Ht Hxt). set_solver.
    + intros Hs [= <-]. apply list_elem_of_lookup_2 in Hs.
      intros x Hxs Hx. destruct (survivors_new _ _ _ x Hs Hxs). set_solver.
    + apply IH. congruence.
Qed.

Lemma survivors_size batches visited :
  sum_list (size <$> (survivors batches visited).1)
  = size (⋃ (list_to_set (C:=gset Z) <$> batches) ∖ visited).
Proof.
  revert visited. induction batches as [|ips batches IH]; intros visited.
  - cbn. by rewrite difference_disjoint_L, size_empty by set_solver.
  - rewrite survivors_cons. cbn [fst]. rewrite fmap_cons. cbn [sum_list_with id].
    rewrite IH, fmap_cons, union_list_cons.
    generalize (⋃ (list_to_set (C:=gset Z) <$> batches)). intros U.
    rewrite <- size_union by set_solver. f_equal.
    apply set_eq. intros x. set_unfold.
    destruct (decide (x ∈ visited)), (decide (x ∈ ips)); tauto.
Qed.
End Survivors.

Section Loop.
Context {W : Type} (C : Collab W).
Implicit Types (visited : gset Z).

Lemma NoDup_set_order (s : gset Z) : NoDup (set_order C s).
Proof. rewrite (set_order_perm C s). apply NoDup_elements. Qed.

Lemma elem_of_set_order (s : gset Z) x : x ∈ set_order C s <-> x ∈ s.
Proof. by rewrite (set_order_perm C s), elem_of_elements. Qed.

Lemma elem_of_walk sets x :
  x ∈ walk C sets <-> exists s, s ∈ sets /\ x ∈ s.
Proof.
  unfold walk. rewrite list_elem_of_In, in_concat.
  setoid_rewrite <- list_elem_of_In. split.
  - intros (l & (s & -> & Hs)%list_elem_of_fmap & Hx).
    exists s. by rewrite <- elem_of_set_order.
  - intros (s & Hs & Hx). exists (set_order C s).
    split; [|by apply elem_of_set_order].
    apply list_elem_of_fmap. by exists s.
Qed.

(** The surviving batches, walked one after the other, hold no address
    twice. *)
Lemma NoDup_walk_survivors batches visited :
  NoDup (walk C (survivors batches visited).1).
Proof.
  revert visited. induction batches as [|ips batches IH]; intros visited.
  - constructor.
  - rewrite survivors_cons. cbn [fst]. unfold walk.
    rewrite fmap_cons. cbn [concat]. apply NoDup_app.
    split; [apply NoDup_set_order|]. split; [|apply IH].
    intros x Hx%elem_of_set_order (s & Hs & Hxs)%elem_of_walk.
    destruct (survivors_new _ _ _ x Hs Hxs). set_solver.
Qed.

Lemma ptr_names_quiet t :
  Forall (fun ev => ptr_names [ev] = []) t -> ptr_names t = [].
Proof.
  induction 1 as [|ev t Hev _ IH]; [done|].
  change (ev :: t) with ([ev] ++ t). by rewrite ptr_names_app, Hev, IH.
Qed.

Lemma loop_lookups_stop visited (r : result (gset Z) * W * list event) e :
  ptr_names (trace r) = [] -> outcome r = Raise e ->
  loop_lookups C visited r [] [].
Proof.
  intros Ht Ho. split; [done|]. split; [apply prefix_nil|].
  intros v. by rewrite Ho.
Qed.

Lemma loop_lookups_after visited t
    (r : result (gset Z) * W * list event) batches L :
  ptr_names t = [] ->
  loop_lookups C visited r batches L ->
  loop_lookups C visited (after t r) batches L.
Proof.
  intros Ht (Hn & Hp & Ho). split; [|split; [done|exact Ho]].
  unfold after, trace at 1. cbn [snd]. by rewrite ptr_names_app, Ht.
Qed.

Lemma loop_lookups_round visited ips t
    (r : result (gset Z) * W * list event) batches L :
  ptr_names t = ptr_name C <$> set_order C (filter_new ips visited).1 ->
  loop_lookups C (filter_new ips visited).2 r batches L ->
  loop_lookups C visited (after t r) (ips :: batches)
    (set_order C (filter_new ips visited).1 ++ L).
Proof.
  intros Ht (Hn & Hp & Ho). unfold loop_lookups.
  rewrite survivors_cons. cbn [fst snd].
  unfold filter_new in *. cbn [fst snd] in *.
  unfold walk. rewrite fmap_cons. cbn [concat].
  split; [|split].
  - unfold after, trace at 1. cbn [snd].
    by rewrite ptr_names_app, Ht, Hn, fmap_app.
  - by apply prefix_app.
  - intros v Hv. destruct (Ho v Hv) as [-> ->]. done.
Qed.

Lemma loop_lookups_partial visited ips
    (r : result (gset Z) * W * list event) k e :
  ptr_names (trace r)
    = ptr_name C <$> take k (set_order C (filter_new ips visited).1) ->
  outcome r = Raise e ->
  loop_lookups C visited r [ips]
    (take k (set_order C (filter_new ips visited).1)).
Proof.
  intros Ht Ho. split; [done|]. split.
  - rewrite survivors_cons. cbn [fst survivors]. unfold walk.
    rewrite fmap_cons. cbn [concat fmap list_fmap]. rewrite app_nil_r.
    apply prefix_take.
  - intros v. by rewrite Ho.
Qed.
End Loop.

(** ** The lookups of the subdomain loop *)

Section LoopRun.
Context {W : Type} (C : Collab W).

Lemma delay_quiet kw w :
  ptr_names
    (trace ((match kw_delay kw with
             | Some delay =>
                 if truthy_float delay then call_sleep C delay
                 else Mon.ret tt
             | None => Mon.ret tt
             end) w)) = [].
Proof.
  destruct (kw_delay kw) as [delay|]; [|done].
  destruct (truthy_float delay); [|done].
  unfold call_sleep. by destruct (sleep C delay w).
Qed.

Lemma brute_force_lookups kw domain subdomains visited w :
  exists batches L,
    loop_lookups C visited
      (brute_force C kw domain subdomains visited w) batches L
    /\ Forall (Forall valid_ip) batches.
  Proof.
  revert visited w.
  induction subdomains as [|sd subdomains IH]; intros visited w.
  { exists [], []. split; [|constructor]. split; [done|]. split; [done|].
    intros v [= <-]. done. }
  cbn [brute_force]. rewrite bind_run, query_run.
  destruct (resolver_query C (sd +:+ "." +:+ domain) RT_A w)
    as [[record|e] w1]; cbn [fst snd].
  2:{ destruct (is_NXDOMAIN e).
      - destruct (IH visited w1) as (batches & L & HL & Hvb).
        exists batches, L. split; [|done].
        by apply (loop_lookups_after C visited [_]).
      - exists [], []. split; [|constructor]. by eapply loop_lookups_stop. }
  cut (exists batches L,
         loop_lookups C visited
           ((let* address := Mon.lift (get_address (ans_first record)) in
             let* ip := Mon.lift (IPv4Address_of_text address) in
             print ("Found: " +:+ (sd +:+ "." +:+ domain) +:+ " ("
                    +:+ str_ip ip +:+ ")") ;;
             match expand kw ip with
             | None => brute_force C kw domain subdomains visited
             | Some ips =>
                 let* ips := Mon.lift ips in
                 let filter_func := filter_of_search (kw_search kw) in
                 let '(ips, visited) := filter_new ips visited in
                 find_nearby C (set_order C ips) filter_func ;;
                 match kw_delay kw with
                 | Some delay =>
                     if truthy_float delay then call_sleep C delay
                     else Mon.ret tt
                 | None => Mon.ret tt
                 end ;;
                 brute_force C kw domain subdomains visited
             end)%mon w1) batches L
       /\ Forall (Forall valid_ip) batches).
  { intros (batches & L & HL & Hvb). exists batches, L. split; [|done].
    by apply (loop_lookups_after C visited [_]). }
  rewrite bind_lift_run.
  destruct (get_address (ans_first record)) as [address|e];
    [|exists [], []; split; [by eapply loop_lookups_stop|constructor]].
  rewrite bind_lift_run.
  destruct (IPv4Address_of_text address) as [ip|e] eqn:Hip;
    [|exists [], []; split; [by eapply loop_lookups_stop|constructor]].
  apply IPv4Address_of_text_valid in Hip.
  unfold print. rewrite bind_emit_after.
  cut (exists batches L,
         loop_lookups C visited
           ((match expand kw ip with
             | None => brute_force C kw domain subdomains visited
             | Some ips =>
                 let* ips := Mon.lift ips in
                 let filter_func := filter_of_search (kw_search kw) in
                 let '(ips, visited) := filter_new ips visited in
                 find_nearby C (set_order C ips) filter_func ;;
                 match kw_delay kw with
                 | Some delay =>
                     if truthy_float delay then call_sleep C delay
                     else Mon.ret tt
                 | None => Mon.ret tt
                 end ;;
                 brute_force C kw domain subdomains visited
             end)%mon w1) batches L
       /\ Forall (Forall valid_ip) batches).
  { intros (batches & L & HL & Hvb). exists batches, L. split; [|done].
    by apply (loop_lookups_after C visited [_]). }
  destruct (expand kw ip) as [[ips|e]|] eqn:Hexp;
    [|exists [], []; split; [by eapply loop_lookups_stop|constructor]
     |apply IH].
  apply (expand_valid kw ip ips Hip) in Hexp.
  rewrite bind_lift_run. cbv zeta.
  pose proof (loop_lookups_round C visited ips) as Hround.
  pose proof (loop_lookups_partial C visited ips) as Hpartial.
  destruct (filter_new ips visited) as [new visited'].
  cbn [fst snd] in Hround, Hpartial.
  rewrite bind_run.
  destruct (find_nearby_run C (set_order C new)
              (filter_of_search (kw_search kw)) w1)
    as [rs [(Hlen & _ & Ho & Ht)|(rs' & e & -> & Hlen & _ & _ & Ho & Ht)]];
    rewrite (run_eta (find_nearby _ _ _ _)), Ho, Ht.
  - rewrite bind_run. pose proof (delay_quiet kw
      (final (find_nearby C (set_order C new)
                (filter_of_search (kw_search kw)) w1))) as Hquiet.
    destruct ((match kw_delay kw with
               | Some delay =>
                   if truthy_float delay then call_sleep C delay
                   else Mon.ret tt
               | None => Mon.ret tt
               end) _) as [[[[]|e] w3] t3].
    + destruct (IH visited' w3) as (batches & L & HL & Hvb).
      exists (ips :: batches), (set_order C new ++ L).
      split; [|by constructor].
      apply (Hround _ (after t3 (brute_force C kw domain subdomains
                                   visited' w3))).
      * rewrite ptr_names_app, ptr_names_zip, ptr_names_nearby_report,
          app_nil_r, Hlen, firstn_all. done.
      * by apply loop_lookups_after.
    + exists [ips], (take (length (set_order C new)) (set_order C new)).
      split; [|by repeat constructor].
      eapply Hpartial; [|done].
      unfold trace in Hquiet |- *. cbn [snd] in Hquiet |- *.
      rewrite !ptr_names_app, ptr_names_zip, ptr_names_nearby_report,
        Hlen, Hquiet. by rewrite !app_nil_r.
  - exists [ips], (take (length (rs' ++ [Raise e])) (set_order C new)).
    split; [|by repeat constructor].
    eapply Hpartial; [|done].
    unfold trace at 1. cbn [snd]. by rewrite ptr_names_zip.
Qed.
End LoopRun.

(** * The claims *)

(** ** AddressSpace *)

(** C4: for every IPv4 address, [get_class_c_network] returns without an
    exception the /24 anchored at [ip - ip mod 256]; that network contains
    [ip], its anchor ends in a zero octet, and it has exactly 256 member
    addresses, all distinct, which are the addresses it contains. *)
Theorem class_c_spec (ip : Z) :
  valid_ip ip ->
  exists net,
    get_class_c_network ip = Ok net
    /\ network_address net = ip - ip `mod` 256
    /\ network_address net `mod` 256 = 0
    /\ prefixlen net = 24
    /\ net_contains net ip = true
    /\ num_addresses net = 256
    /\ length (net_list net) = 256%nat
    /\ NoDup (net_list net)
    /\ (forall x, valid_ip x -> x ∈ net_list net <-> net_contains net x = true).
Proof.
  intros Hv. exists (mkNet (ip - ip `mod` 2 ^ 8) 24).
  assert (0 <= ip `mod` 2 ^ 8 < 2 ^ 8) as Hb by (apply Z.mod_pos_bound; lia).
  assert (0 <= ip - ip `mod` 2 ^ 8) as Hn.
  { unfold valid_ip in Hv. pose proof (Z.mod_le ip (2 ^ 8)). lia. }
  assert ((ip - ip `mod` 2 ^ 8) `mod` 2 ^ 8 = 0) as Hm.
  { rewrite Zminus_mod_idemp_r, Z.sub_diag, Z.mod_0_l; lia. }
  split; [by apply get_class_c_network_ok|].
  split; [done|]. split; [done|]. split; [done|].
  split; [apply net_contains_24; [done..|lia]|].
  split; [by apply num_addresses_24|].
  unfold net_list. rewrite num_addresses_24 by done. simpl network_address.
  split; [by rewrite length_seqZ|].
  split; [apply NoDup_seqZ|].
  intros x Hx. rewrite elem_of_seqZ, net_contains_24 by done. lia.
Qed.

Lemma class_c_spec_witness :
  valid_ip 167772165 /\
  exists net,
    get_class_c_network 167772165 = Ok net
    /\ network_address net = 167772165 - 167772165 `mod` 256
    /\ network_address net `mod` 256 = 0
    /\ prefixlen net = 24
    /\ net_contains net 167772165 = true
    /\ num_addresses net = 256
    /\ length (net_list net) = 256%nat
    /\ NoDup (net_list net)
    /\ (forall x, valid_ip x -> x ∈ net_list net <-> net_contains net x = true).
Proof.
  assert (valid_ip 167772165) as Hv by (unfold valid_ip, ALL_ONES; lia).
  split; [exact Hv|]. exact (class_c_spec 167772165 Hv).
Defined.

(** C3: at 0.0.0.3 with the default window of 5 the range reaches below
    0.0.0.0, and [traverse_expander] raises [AddressValueError] instead of
    returning the addresses 0.0.0.0 to 0.0.0.8 of the /24; the same at
    255.255.255.255 with a window of 1. *)
Theorem traverse_expander_raises_at_the_ends :
  traverse_expander 3 5 = Raise AddressValueError
  /\ traverse_expander ALL_ONES 1 = Raise AddressValueError.
Proof. split; vm_compute; reflexivity. Qed.

(** ** Zone transfer *)

(** C8: [zone_transfer] makes one transfer call; a zone is returned as it
    is, [ConnectionResetError] and [FormError], and only these two, become
    [None], and every other exception leaves [zone_transfer] as it was
    raised. *)
Theorem zone_transfer_taxonomy {W} (C : Collab W) address domain w :
  trace (zone_transfer C address domain w)
    = [EvXfr address domain (from_xfr C address domain w).1]
  /\ final (zone_transfer C address domain w) = (from_xfr C address domain w).2
  /\ outcome (zone_transfer C address domain w)
     = match (from_xfr C address domain w).1 with
       | Ok z => Ok (Some z)
       | Raise e => if is_reset_or_form e then Ok None else Raise e
       end
  /\ forall e, is_reset_or_form e = true
               <-> e = ConnectionResetError \/ e = FormError.
Proof.
  assert (forall e, is_reset_or_form e = true
                    <-> e = ConnectionResetError \/ e = FormError) as Hspec.
  { intros e. split.
    - destruct e; (discriminate || auto).
    - intros [->| ->]; reflexivity. }
  unfold zone_transfer, Mon.try_except, Mon.bind, call_xfr, Mon.ret.
  unfold trace, final, outcome.
  destruct (from_xfr C address domain w) as [[z|e] w']; cbn [fst snd].
  - split; [done|]. split; [done|]. split; [done|]. exact Hspec.
  - destruct (is_reset_or_form e) eqn:He; cbn [fst snd]; rewrite ?app_nil_r;
      (split; [done|]; split; [done|]; split; [done|]; exact Hspec).
Qed.

(** ** find_nearby *)

(** C6, as stated, fails: when the lookup of 10.0.0.1 times out, the
    exception leaves [find_nearby] and 10.0.0.2 is never looked up. *)
Lemma find_nearby_timeout_aborts :
  let run := find_nearby (Script.collab timeout_world)
               [167772160; 167772161; 167772162] None tt in
  outcome run = Raise (OtherError "Timeout")
  /\ ptr_names (trace run)
     = ["0.0.0.10.in-addr.arpa."; "1.0.0.10.in-addr.arpa."]
  /\ ptr_name (Script.collab timeout_world) 167772162 ∉ ptr_names (trace run).
Proof.
  split; [vm_compute; reflexivity|]. split; [vm_compute; reflexivity|].
  refine (bool_decide_unpack _ _). vm_compute. exact I.
Qed.

(** C6, amended: the lookups are made in the order of the input, one
    for each address, until one raises something else than NXDOMAIN.  An
    NXDOMAIN answer does not stop them: when every lookup is answered with
    records or NXDOMAIN, every address is looked up exactly once,
    [find_nearby] returns, and an address that got NXDOMAIN is not in the
    reported mapping.  Any other exception is the last call of the run and
    leaves [find_nearby]: the addresses after it are not looked up and
    nothing is reported. *)
Theorem find_nearby_isolation {W} (C : Collab W) ips ff w :
  NoDup ips -> Forall valid_ip ips ->
  exists rs : list (result Answer),
    queries (trace (find_nearby C ips ff w))
      = zip_with (fun i r => (ptr_name C i, RT_PTR, r)) ips rs
    /\ ((length rs = length ips
         /\ Forall (fun r => soft r = true) rs
         /\ outcome (find_nearby C ips ff w) = Ok tt
         /\ reports (trace (find_nearby C ips ff w))
            = nearby_report (nearby_mapping ips rs ff)
         /\ forall k i, ips !! k = Some i -> rs !! k = Some (Raise NXDOMAIN) ->
              nearby_mapping ips rs ff !! str_ip i = None)
        \/ (exists rs' e,
              rs = rs' ++ [Raise e]
              /\ (length rs <= length ips)%nat
              /\ Forall (fun r => soft r = true) rs'
              /\ e <> NXDOMAIN
              /\ outcome (find_nearby C ips ff w) = Raise e
              /\ reports (trace (find_nearby C ips ff w)) = [])).
Proof.
  intros Hnd Hv.
  destruct (find_nearby_run C ips ff w) as [rs Hrun]. exists rs.
  destruct Hrun as [(Hlen & Hs & Ho & Ht)|(rs' & e & -> & Hlen & Hs & Hn & Ho & Ht)].
  - rewrite Ht, queries_app, queries_zip, queries_nearby_report, app_nil_r.
    split; [done|]. left. split; [done|]. split; [done|]. split; [done|].
    split.
    + by rewrite reports_app, reports_zip, reports_nearby_report.
    + intros k i Hi Hr.
      destruct (nearby_mapping ips rs ff !! str_ip i) as [text|] eqn:Hm; [|done].
      apply nearby_mapping_lookup in Hm as (k' & i' & a & Hi' & Hr' & Heq & _);
        [|done..].
      assert (i' = i) as ->.
      { rewrite Forall_forall in Hv. symmetry.
        apply str_ip_inj; [apply Hv..|done]; by eapply list_elem_of_lookup_2. }
      assert (k' = k) as -> by (by eapply NoDup_lookup).
      congruence.
  - rewrite Ht, queries_zip. split; [done|]. right.
    exists rs', e. split; [done|]. split; [done|]. split; [done|].
    split; [by intros ->|]. split; [done|]. apply reports_zip.
Qed.

Lemma find_nearby_isolation_witness :
  NoDup three_addresses
  /\ Forall valid_ip three_addresses
  /\ exists rs : list (result Answer),
    queries (trace (find_nearby (Script.collab quiet_world)
                      three_addresses None tt))
      = zip_with (fun i r => (ptr_name (Script.collab quiet_world) i, RT_PTR, r))
          three_addresses rs
    /\ ((length rs = length three_addresses
         /\ Forall (fun r => soft r = true) rs
         /\ outcome (find_nearby (Script.collab quiet_world)
                       three_addresses None tt) = Ok tt
         /\ reports (trace (find_nearby (Script.collab quiet_world)
                              three_addresses None tt))
            = nearby_report
                (nearby_mapping three_addresses rs None)
         /\ forall k i, three_addresses !! k = Some i ->
              rs !! k = Some (Raise NXDOMAIN) ->
              nearby_mapping three_addresses rs None
                !! str_ip i = None)
        \/ (exists rs' e,
              rs = rs' ++ [Raise e]
              /\ (length rs <= length three_addresses)%nat
              /\ Forall (fun r => soft r = true) rs'
              /\ e <> NXDOMAIN
              /\ outcome (find_nearby (Script.collab quiet_world)
                            three_addresses None tt)
                 = Raise e
              /\ reports (trace (find_nearby (Script.collab quiet_world)
                                   three_addresses None tt)) = [])).
Proof.
  assert (NoDup three_addresses) as Hnd.
  { refine (bool_decide_unpack _ _). vm_compute. exact I. }
  assert (Forall valid_ip three_addresses) as Hv.
  { repeat constructor; unfold valid_ip, ALL_ONES; lia. }
  split; [exact Hnd|]. split; [exact Hv|].
  exact (find_nearby_isolation (Script.collab quiet_world)
           three_addresses None tt Hnd Hv).
Defined.

(** C9: in a run of [find_nearby] over distinct addresses, with the
    filter the pipeline builds from the search option, the lookups are
    made in the order of the addresses and [rs] are their answers.
    Either the last lookup made raised something else than NXDOMAIN, and
    nothing is reported; or every address was looked up, every answer is
    records or NXDOMAIN, the run returns and the mapping [m] it reports
    holds exactly the addresses whose lookup gave records and, when
    substrings are configured, whose first record's text contains one of
    them; the text is that record's text.  When [m] is empty nothing is
    printed, and the run returns all the same. *)
Theorem find_nearby_mapping_spec {W} (C : Collab W) ips search w :
  NoDup ips -> Forall valid_ip ips ->
  exists rs : list (result Answer),
    queries (trace (find_nearby C ips (filter_of_search search) w))
      = zip_with (fun i r => (ptr_name C i, RT_PTR, r)) ips rs
    /\ ((exists e,
           outcome (find_nearby C ips (filter_of_search search) w) = Raise e
           /\ e <> NXDOMAIN
           /\ (length rs <= length ips)%nat
           /\ last rs = Some (Raise e)
           /\ reports (trace (find_nearby C ips (filter_of_search search) w))
              = [])
        \/ (exists m : gmap string string,
              outcome (find_nearby C ips (filter_of_search search) w) = Ok tt
              /\ length rs = length ips
              /\ Forall (fun r => soft r = true) rs
              /\ (forall key text,
                    m !! key = Some text <->
                    exists k i a,
                      ips !! k = Some i /\ rs !! k = Some (Ok a)
                      /\ key = str_ip i /\ text = to_text (ans_first a)
                      /\ kept search text)
              /\ reports (trace (find_nearby C ips (filter_of_search search) w))
                 = if decide (m = ∅) then []
                   else [EvPrint "Nearby:"; EvPPrint m])).
Proof.
  intros Hnd Hv.
  destruct (find_nearby_run C ips (filter_of_search search) w) as [rs Hrun].
  exists rs.
  destruct Hrun as [(Hlen & Hs & Ho & Ht)|(rs' & e & -> & Hlen & Hs & Hn & Ho & Ht)].
  - rewrite Ht, queries_app, queries_zip, queries_nearby_report, app_nil_r.
    split; [done|]. right.
    exists (nearby_mapping ips rs (filter_of_search search)).
    split; [done|]. split; [done|]. split; [done|]. split.
    + intros key text. rewrite nearby_mapping_lookup by done.
      split; intros (k & i & a & Hi & Hr & Hk & Ht' & Hf); exists k, i, a;
        (split; [done|]; split; [done|]; split; [done|]; split; [done|]);
        by apply kept_filter_of_search.
    + by rewrite reports_app, reports_zip, reports_nearby_report.
  - rewrite Ht, queries_zip. split; [done|]. left. exists e.
    split; [done|]. split; [by intros ->|]. split; [done|].
    split; [by rewrite last_snoc|]. apply reports_zip.
Qed.

Lemma find_nearby_mapping_spec_witness :
  NoDup three_addresses /\ Forall valid_ip three_addresses
  /\ exists rs : list (result Answer),
    queries (trace (find_nearby (Script.collab quiet_world) three_addresses
                      (filter_of_search (Some ["corp"])) tt))
      = zip_with (fun i r => (ptr_name (Script.collab quiet_world) i, RT_PTR, r))
          three_addresses rs
    /\ ((exists e,
           outcome (find_nearby (Script.collab quiet_world) three_addresses
                      (filter_of_search (Some ["corp"])) tt) = Raise e
           /\ e <> NXDOMAIN
           /\ (length rs <= length three_addresses)%nat
           /\ last rs = Some (Raise e)
           /\ reports (trace (find_nearby (Script.collab quiet_world)
                                three_addresses
                                (filter_of_search (Some ["corp"])) tt))
              = [])
        \/ (exists m : gmap string string,
              outcome (find_nearby (Script.collab quiet_world) three_addresses
                         (filter_of_search (Some ["corp"])) tt) = Ok tt
              /\ length rs = length three_addresses
              /\ Forall (fun r => soft r = true) rs
              /\ (forall key text,
                    m !! key = Some text <->
                    exists k i a,
                      three_addresses !! k = Some i /\ rs !! k = Some (Ok a)
                      /\ key = str_ip i /\ text = to_text (ans_first a)
                      /\ kept (Some ["corp"]) text)
              /\ reports (trace (find_nearby (Script.collab quiet_world)
                                   three_addresses
                                   (filter_of_search (Some ["corp"])) tt))
                 = if decide (m = ∅) then []
                   else [EvPrint "Nearby:"; EvPPrint m])).
Proof.
  assert (NoDup three_addresses) as Hnd.
  { refine (bool_decide_unpack _ _). vm_compute. exact I. }
  assert (Forall valid_ip three_addresses) as Hv.
  { repeat constructor; unfold valid_ip, ALL_ONES; lia. }
  split; [exact Hnd|]. split; [exact Hv|].
  exact (find_nearby_mapping_spec (Script.collab quiet_world) three_addresses
           (Some ["corp"]) tt Hnd Hv).
Defined.


(** ** The pipeline *)

(** C2: a zone transfer that returned a zone is followed by exactly two
    calls, the print of "Zone: success" and the print of the zone's
    contents, and the run returns: no random number is drawn for a
    wildcard probe anywhere in the run, and no query follows the
    transfer.  The transfer is the one of the configured domain. *)
Theorem zone_transfer_short_circuit {W} (C : Collab W) kw w
    pre address domain z post :
  trace (fierce C kw w) = pre ++ EvXfr address domain (Ok z) :: post ->
  outcome (fierce C kw w) = Ok tt
  /\ post = [EvPrint "Zone: success"; EvPPrint (zone_dict z)]
  /\ queries post = []
  /\ Forall (fun ev => is_randint ev = false) (trace (fierce C kw w))
  /\ kw_domain kw = Some domain.
Proof.
  intros Hsplit.
  assert (forall ev, is_early_event ev = true -> is_xfr ev = false) as Hearly.
  { intros ev [H|H]%orb_prop; [by apply setup_not_xfr|by apply lookup_not_xfr]. }
  destruct (fierce_cases C kw w)
    as [Hall|(d & Hd & Htr & Hc & Hs & Ho & Ht)].
  { exfalso. eapply (no_event is_xfr); [|exact Hsplit|done].
    eapply Forall_impl; [exact Hall|exact Hearly]. }
  pose proof (early_events C kw w (final (configure_nameservers C kw w)))
    as Hbefore.
  assert (Forall (fun ev => is_xfr ev = false)
            (trace (configure_nameservers C kw w)
             ++ trace (internal_range_scan C kw
                         (final (configure_nameservers C kw w))))) as Hnox.
  { eapply Forall_impl; [exact Hbefore|exact Hearly]. }
  assert (Forall (fun ev => is_randint ev = false)
            (trace (configure_nameservers C kw w)
             ++ trace (internal_range_scan C kw
                         (final (configure_nameservers C kw w))))) as Hnor.
  { eapply Forall_impl; [exact Hbefore|].
    intros ev [H|H]%orb_prop;
      [by apply setup_not_randint|by apply lookup_not_randint]. }
  rewrite Ho. rewrite Ht in Hsplit |- *.
  set (early := trace (configure_nameservers C kw w)
                ++ trace (internal_range_scan C kw
                            (final (configure_nameservers C kw w)))) in *.
  destruct (domain_scan_shape C kw d
              (final (internal_range_scan C kw
                        (final (configure_nameservers C kw w)))))
    as [(e & Hdt & Hdo)
       |[(ns & e & Hdt & Hdo)
       |[(ns & soa & e & Hm & Hdt & Hdo)
       |[(ns & soa & mname & e & Hm & Hdt & Hdo)
       |[(ns & soa & mname & master & e & Hm & Ha & Hdt & Hdo)
       |(ns & soa & mname & master & addr & Hm & Ha &
         [(z' & Hdt & Hdo)
         |[(e & He & Hdt & Hdo)|(e & w' & He & Hdt & Hdo)]])]]]]];
    rewrite Hdt in Hsplit |- *.
  1-5: exfalso; eapply (no_event is_xfr); [|exact Hsplit|done];
       apply Forall_app; split; [exact Hnox|by repeat constructor].
  - rewrite app_assoc in Hsplit.
    change ([EvXfr addr d (Ok z'); EvPrint "Zone: success";
             EvPPrint (zone_dict z')])
      with ([EvXfr addr d (Ok z')]
            ++ [EvPrint "Zone: success"; EvPPrint (zone_dict z')]) in Hsplit.
    apply (unique_event is_xfr) in Hsplit as (_ & Hev & ->);
      [|apply Forall_app; split; [exact Hnox|by repeat constructor]
       |by repeat constructor|done].
    injection Hev as -> -> ->.
    split; [done|]. split; [done|]. split; [done|]. split; [|done].
    apply Forall_app. split; [exact Hnor|by repeat constructor].
  - exfalso. rewrite app_assoc in Hsplit.
    apply (unique_event is_xfr) in Hsplit as (_ & Hev & _);
      [|apply Forall_app; split; [exact Hnox|by repeat constructor]
       |by repeat constructor|done].
    done.
  - exfalso. rewrite app_assoc in Hsplit.
    change ([EvXfr addr d (Raise e); EvPrint "Zone: failure"]
            ++ trace (wildcard_and_brute_force C kw d w'))
      with (EvXfr addr d (Raise e)
            :: EvPrint "Zone: failure"
            :: trace (wildcard_and_brute_force C kw d w')) in Hsplit.
    apply (unique_event is_xfr) in Hsplit as (_ & Hev & _);
      [|apply Forall_app; split; [exact Hnox|by repeat constructor]
       |constructor; [done|apply after_transfer, late_not_xfr]|done].
    done.
Qed.

Lemma zone_transfer_short_circuit_witness :
  trace transfer_run
    = take 11 (trace transfer_run)
      ++ EvXfr "10.0.0.2" "example.test" (Ok example_zone)
         :: drop 12 (trace transfer_run)
  /\ outcome transfer_run = Ok tt
  /\ drop 12 (trace transfer_run)
     = [EvPrint "Zone: success"; EvPPrint (zone_dict example_zone)]
  /\ queries (drop 12 (trace transfer_run)) = []
  /\ Forall (fun ev => is_randint ev = false) (trace transfer_run)
  /\ kw_domain example_options = Some "example.test".
Proof.
  assert (trace transfer_run
          = take 11 (trace transfer_run)
            ++ EvXfr "10.0.0.2" "example.test" (Ok example_zone)
               :: drop 12 (trace transfer_run)) as Hsplit
    by (vm_compute; reflexivity).
  split; [exact Hsplit|].
  exact (zone_transfer_short_circuit (Script.collab transfer_world)
           example_options tt _ _ _ _ _ Hsplit).
Defined.

(** C5: in a world where example.test has no NS record, the run on
    example.test makes the NS query, gets NXDOMAIN, and ends there with a
    [TypeError]: no line of name servers is printed and the SOA query is
    not made. *)
Theorem ns_nxdomain_raises :
  fierce (Script.collab quiet_world) domain_only tt
  = (Raise TypeError, tt, [EvQuery "example.test" RT_NS (Raise NXDOMAIN)]).
Proof. vm_compute. reflexivity. Qed.

(** C7: when the SOA query of the domain raises, or is answered and the A
    query of the master name raises, that query is the last call of the
    run and the run ends with an exception, [TypeError] when the query
    gave NXDOMAIN: no zone transfer is tried and no random number is
    drawn.  Before it the name servers were configured, the range scan
    returned ([find_nearby] on the configured network, with its report),
    and the NS query was answered and printed. *)
Theorem soa_failure_is_fatal {W} (C : Collab W) kw w
    pre domain failing e post :
  trace (fierce C kw w) = pre ++ failing ++ post ->
  failing = [EvQuery domain RT_SOA (Raise e)]
  \/ (exists soa mname,
        failing = [EvQuery domain RT_SOA (Ok soa);
                   EvQuery mname RT_A (Raise e)]) ->
  outcome (fierce C kw w) = Raise (if is_NXDOMAIN e then TypeError else e)
  /\ post = []
  /\ kw_domain kw = Some domain
  /\ Forall (fun ev => is_xfr ev = false /\ is_randint ev = false)
       (trace (fierce C kw w))
  /\ outcome (configure_nameservers C kw w) = Ok tt
  /\ outcome (internal_range_scan C kw
                (final (configure_nameservers C kw w))) = Ok tt
  /\ (exists ns,
        pre = trace (configure_nameservers C kw w)
              ++ trace (internal_range_scan C kw
                          (final (configure_nameservers C kw w)))
              ++ [EvQuery domain RT_NS (Ok ns); EvPrint (ns_line ns)])
  /\ (forall text,
        kw_range kw = Some text -> truthy_str text = true ->
        exists net,
          IPv4Network_of_text C text = Ok net
          /\ internal_range_scan C kw (final (configure_nameservers C kw w))
             = find_nearby C (net_list net) None
                 (final (configure_nameservers C kw w))).
Proof.
  intros Hsplit Hfailing.
  assert (exists r rest, failing = EvQuery domain RT_SOA r :: rest)
    as (r0 & rest & Hf0) by (destruct Hfailing as [->|(? & ? & ->)]; eauto).
  assert (forall ev, is_early_event ev = true -> is_soa_query ev = false)
    as Hearly.
  { intros ev [H|H]%orb_prop; [by apply setup_not_soa|by apply lookup_not_soa]. }
  rewrite Hf0 in Hsplit. cbn [app] in Hsplit.
  destruct (fierce_cases C kw w)
    as [Hall|(d & Hd & Htr & Hc & Hs & Ho & Ht)].
  { exfalso. eapply (no_event is_soa_query); [|exact Hsplit|done].
    eapply Forall_impl; [exact Hall|exact Hearly]. }
  pose proof (early_events C kw w (final (configure_nameservers C kw w)))
    as Hbefore.
  set (c := configure_nameservers C kw w) in *.
  set (s := internal_range_scan C kw (final c)) in *.
  assert (Forall (fun ev => is_soa_query ev = false) (trace c ++ trace s))
    as Hnos.
  { eapply Forall_impl; [exact Hbefore|exact Hearly]. }
  assert (Forall (fun ev => is_xfr ev = false /\ is_randint ev = false)
            (trace c ++ trace s)) as Hnox.
  { eapply Forall_impl; [exact Hbefore|].
    intros ev [H|H]%orb_prop; split;
      auto using setup_not_xfr, setup_not_randint, lookup_not_xfr,
        lookup_not_randint. }
  assert (forall text,
    kw_range kw = Some text -> truthy_str text = true ->
    exists net, IPv4Network_of_text C text = Ok net
                /\ s = find_nearby C (net_list net) None (final c)) as Hrange.
  { intros text Hk Htext. subst s.
    rewrite (internal_range_scan_run C kw text _ Hk Htext) in Hs |- *.
    destruct (IPv4Network_of_text C text) as [net|e']; [by exists net|done]. }
  rewrite Ho. rewrite Ht in Hsplit |- *.
  destruct (domain_scan_shape C kw d (final s))
    as [(e' & Hdt & Hdo)
       |[(ns & e' & Hdt & Hdo)
       |[(ns & soa & e' & Hm & Hdt & Hdo)
       |[(ns & soa & mname & e' & Hm & Hdt & Hdo)
       |[(ns & soa & mname & master & e' & Hm & Ha & Hdt & Hdo)
       |(ns & soa & mname & master & addr & Hm & Ha &
         [(z' & Hdt & Hdo)
         |[(e' & He & Hdt & Hdo)|(e' & w' & He & Hdt & Hdo)]])]]]]];
    rewrite Hdt in Hsplit |- *; rewrite Hdo.
  - exfalso. eapply (no_event is_soa_query); [|exact Hsplit|done].
    apply Forall_app. split; [exact Hnos|by repeat constructor].
  - change [EvQuery d RT_NS (Ok ns); EvPrint (ns_line ns);
            EvQuery d RT_SOA (Raise e')]
      with ([EvQuery d RT_NS (Ok ns); EvPrint (ns_line ns)]
            ++ [EvQuery d RT_SOA (Raise e')]) in Hsplit.
    rewrite app_assoc in Hsplit.
    apply (unique_event is_soa_query) in Hsplit as (-> & Hev & Hpost);
      [|apply Forall_app; split; [exact Hnos|by repeat constructor]
       |by repeat constructor|done].
    injection Hev as -> ->.
    destruct Hfailing as [->|(soa & mname & ->)]; [|by simplify_eq/=].
    simplify_eq/=.
    split; [done|]. split; [done|]. split; [done|].
    split.
    { apply Forall_app. split; [exact Hnox|by repeat constructor]. }
    split; [done|]. split; [done|]. split; [|exact Hrange].
    exists ns. by rewrite <- app_assoc.
  - exfalso.
    change [EvQuery d RT_NS (Ok ns); EvPrint (ns_line ns);
            EvQuery d RT_SOA (Ok soa)]
      with ([EvQuery d RT_NS (Ok ns); EvPrint (ns_line ns)]
            ++ [EvQuery d RT_SOA (Ok soa)]) in Hsplit.
    rewrite app_assoc in Hsplit.
    apply (unique_event is_soa_query) in Hsplit as (-> & Hev & Hpost);
      [|apply Forall_app; split; [exact Hnos|by repeat constructor]
       |by repeat constructor|done].
    injection Hev as -> ->.
    destruct Hfailing as [->|(soa' & mname' & ->)]; by simplify_eq/=.
  - change [EvQuery d RT_NS (Ok ns); EvPrint (ns_line ns);
            EvQuery d RT_SOA (Ok soa); EvQuery mname RT_A (Raise e')]
      with ([EvQuery d RT_NS (Ok ns); EvPrint (ns_line ns)]
            ++ EvQuery d RT_SOA (Ok soa)
               :: [EvQuery mname RT_A (Raise e')]) in Hsplit.
    rewrite app_assoc in Hsplit.
    apply (unique_event is_soa_query) in Hsplit as (-> & Hev & Hpost);
      [|apply Forall_app; split; [exact Hnos|by repeat constructor]
       |by repeat constructor|done].
    injection Hev as -> ->.
    destruct Hfailing as [->|(soa' & mname' & ->)]; [by simplify_eq|].
    simplify_eq/=.
    split; [done|]. split; [done|]. split; [done|].
    split.
    { apply Forall_app. split; [exact Hnox|by repeat constructor]. }
    split; [done|]. split; [done|]. split; [|exact Hrange].
    exists ns. by rewrite <- app_assoc.
  - exfalso.
    change [EvQuery d RT_NS (Ok ns); EvPrint (ns_line ns);
            EvQuery d RT_SOA (Ok soa); EvQuery mname RT_A (Ok master)]
      with ([EvQuery d RT_NS (Ok ns); EvPrint (ns_line ns)]
            ++ EvQuery d RT_SOA (Ok soa)
               :: [EvQuery mname RT_A (Ok master)]) in Hsplit.
    rewrite app_assoc in Hsplit.
    apply (unique_event is_soa_query) in Hsplit as (-> & Hev & Hpost);
      [|apply Forall_app; split; [exact Hnos|by repeat constructor]
       |by repeat constructor|done].
    injection Hev as -> ->.
    destruct Hfailing as [->|(soa' & mname' & ->)]; by simplify_eq/=.
  - exfalso. unfold scan_head in Hsplit.
    change ([EvQuery d RT_NS (Ok ns); EvPrint (ns_line ns);
             EvQuery d RT_SOA (Ok soa); EvQuery mname RT_A (Ok master);
             EvPrint (soa_line mname addr)]
            ++ [EvXfr addr d (Ok z'); EvPrint "Zone: success";
                EvPPrint (zone_dict z')])
      with ([EvQuery d RT_NS (Ok ns); EvPrint (ns_line ns)]
            ++ EvQuery d RT_SOA (Ok soa)
               :: [EvQuery mname RT_A (Ok master);
                   EvPrint (soa_line mname addr);
                   EvXfr addr d (Ok z'); EvPrint "Zone: success";
                   EvPPrint (zone_dict z')]) in Hsplit.
    rewrite app_assoc in Hsplit.
    apply (unique_event is_soa_query) in Hsplit as (-> & Hev & Hpost);
      [|apply Forall_app; split; [exact Hnos|by repeat constructor]
       |by repeat constructor|done].
    injection Hev as -> ->.
    destruct Hfailing as [->|(soa' & mname' & ->)]; by simplify_eq/=.
  - exfalso. unfold scan_head in Hsplit.
    change ([EvQuery d RT_NS (Ok ns); EvPrint (ns_line ns);
             EvQuery d RT_SOA (Ok soa); EvQuery mname RT_A (Ok master);
             EvPrint (soa_line mname addr)]
            ++ [EvXfr addr d (Raise e')])
      with ([EvQuery d RT_NS (Ok ns); EvPrint (ns_line ns)]
            ++ EvQuery d RT_SOA (Ok soa)
               :: [EvQuery mname RT_A (Ok master);
                   EvPrint (soa_line mname addr);
                   EvXfr addr d (Raise e')]) in Hsplit.
    rewrite app_assoc in Hsplit.
    apply (unique_event is_soa_query) in Hsplit as (-> & Hev & Hpost);
      [|apply Forall_app; split; [exact Hnos|by repeat constructor]
       |by repeat constructor|done].
    injection Hev as -> ->.
    destruct Hfailing as [->|(soa' & mname' & ->)]; by simplify_eq/=.
  - exfalso. unfold scan_head in Hsplit.
    change ([EvQuery d RT_NS (Ok ns); EvPrint (ns_line ns);
             EvQuery d RT_SOA (Ok soa); EvQuery mname RT_A (Ok master);
             EvPrint (soa_line mname addr)]
            ++ [EvXfr addr d (Raise e'); EvPrint "Zone: failure"]
            ++ trace (wildcard_and_brute_force C kw d w'))
      with ([EvQuery d RT_NS (Ok ns); EvPrint (ns_line ns)]
            ++ EvQuery d RT_SOA (Ok soa)
               :: ([EvQuery mname RT_A (Ok master);
                    EvPrint (soa_line mname addr);
                    EvXfr addr d (Raise e'); EvPrint "Zone: failure"]
                   ++ trace (wildcard_and_brute_force C kw d w'))) in Hsplit.
    rewrite app_assoc in Hsplit.
    apply (unique_event is_soa_query) in Hsplit as (-> & Hev & Hpost);
      [|apply Forall_app; split; [exact Hnos|by repeat constructor]
       |apply Forall_app; split;
          [by repeat constructor|apply after_transfer, late_not_soa]|done].
    injection Hev as -> ->.
    destruct Hfailing as [->|(soa' & mname' & ->)]; by simplify_eq/=.
Qed.

Lemma soa_failure_is_fatal_witness :
  trace no_soa_run
    = take 8 (trace no_soa_run)
      ++ [EvQuery "example.test" RT_SOA (Raise NXDOMAIN)] ++ []
  /\ ([EvQuery "example.test" RT_SOA (Raise NXDOMAIN)]
      = [EvQuery "example.test" RT_SOA (Raise NXDOMAIN)]
      \/ (exists soa mname,
            [EvQuery "example.test" RT_SOA (Raise NXDOMAIN)]
            = [EvQuery "example.test" RT_SOA (Ok soa);
               EvQuery mname RT_A (Raise NXDOMAIN)]))
  /\ outcome no_soa_run = Raise TypeError
  /\ Forall (fun ev => is_xfr ev = false /\ is_randint ev = false)
       (trace no_soa_run)
  /\ outcome (internal_range_scan (Script.collab no_soa_world)
                example_options tt) = Ok tt.
Proof.
  assert (trace no_soa_run
          = take 8 (trace no_soa_run)
            ++ [EvQuery "example.test" RT_SOA (Raise NXDOMAIN)] ++ [])
    as Hsplit by (vm_compute; reflexivity).
  assert ([EvQuery "example.test" RT_SOA (Raise NXDOMAIN)]
          = [EvQuery "example.test" RT_SOA (Raise NXDOMAIN)]
          \/ (exists soa mname,
                [EvQuery "example.test" RT_SOA (Raise NXDOMAIN)]
                = [EvQuery "example.test" RT_SOA (Ok soa);
                   EvQuery mname RT_A (Raise NXDOMAIN)]))
    as Hfailing by (left; reflexivity).
  split; [exact Hsplit|]. split; [exact Hfailing|].
  destruct (soa_failure_is_fatal (Script.collab no_soa_world)
              example_options tt _ _ _ _ _ Hsplit Hfailing)
    as (Ho & _ & _ & Hall & _ & Hs & _).
  split; [exact Ho|]. split; [exact Hall|]. exact Hs.
Defined.

(** C10: the range scan is [find_nearby] on the addresses of the
    configured network with no filter, whatever the search option holds:
    its trace is the reverse lookups of these addresses followed, when
    all were answered, by the report of every address that has a record.
    In the subdomain loop every text of a printed mapping passes the
    search option. *)
Theorem search_applies_to_hits_only {W} (C : Collab W) kw w text net :
  kw_range kw = Some text -> truthy_str text = true ->
  IPv4Network_of_text C text = Ok net ->
  internal_range_scan C kw w = find_nearby C (net_list net) None w
  /\ (forall search,
        internal_range_scan C (set_search search kw) w
        = internal_range_scan C kw w)
  /\ (exists rs,
        trace (internal_range_scan C kw w)
        = zip_with (ptr_event C) (net_list net) rs
          ++ match outcome (internal_range_scan C kw w) with
             | Ok _ => nearby_report (answered (net_list net) rs)
             | Raise _ => []
             end)
  /\ (forall domain subdomains visited w',
        Forall (prints_kept (kw_search kw))
          (trace (brute_force C kw domain subdomains visited w'))).
Proof.
  intros Hk Htext Hnet.
  assert (internal_range_scan C kw w = find_nearby C (net_list net) None w)
    as Hrun by (by rewrite (internal_range_scan_run C kw text), Hnet).
  split; [exact Hrun|]. split; [done|]. split.
  - rewrite Hrun.
    destruct (find_nearby_run C (net_list net) None w) as [rs Hrs].
    exists rs.
    destruct Hrs as [(_ & _ & -> & ->)|(rs' & e & _ & _ & _ & _ & -> & ->)];
      [done|by rewrite app_nil_r].
  - intros. apply emits_brute_force_kept.
Qed.

Lemma search_applies_to_hits_only_witness :
  kw_range example_options = Some "10.0.0.0/30"
  /\ truthy_str "10.0.0.0/30" = true
  /\ IPv4Network_of_text (Script.collab refused_world) "10.0.0.0/30"
     = Ok (mkNet 167772160 30)
  /\ reports (trace (internal_range_scan (Script.collab refused_world)
                       example_options tt))
     = [EvPrint "Nearby:";
        EvPPrint {[ "10.0.0.2" := "db.example.test.";
                    "10.0.0.3" := "www.corp.test." ]}]
  /\ Forall (prints_kept (Some ["corp"]))
       (trace (brute_force (Script.collab refused_world) example_options
                 "example.test" ["www"; "mail"] ∅ tt)).
Proof.
  split; [reflexivity|]. split; [reflexivity|]. split; [reflexivity|].
  destruct (search_applies_to_hits_only (Script.collab refused_world)
              example_options tt "10.0.0.0/30" (mkNet 167772160 30)
              eq_refl eq_refl eq_refl) as (_ & _ & _ & Hloop).
  split; [vm_compute; reflexivity|].
  exact (Hloop "example.test" ["www"; "mail"] ∅ tt).
Defined.


(** ** The visited set *)

(** C1: when different addresses have different reverse names, no name
    is looked up twice by the subdomain loop of a run, however the run
    ends.  The names looked up are those of a list [L] of distinct
    addresses: the surviving batches of the candidate batches of the
    hits, walked one after the other, up to the point where an exception
    ended the run; and when the loop returns, the addresses looked up are
    exactly those [visited] holds, each once.  For any candidate batches,
    the surviving batches are pairwise disjoint and disjoint from the
    initial [visited], each is inside the final [visited], [visited] only
    grows, and from an empty [visited] the sizes of the surviving batches
    sum to the size of the union of the candidate batches. *)
Theorem visited_deduplicates {W} (C : Collab W) kw domain subdomains w :
  (forall i j, valid_ip i -> valid_ip j ->
     ptr_name C i = ptr_name C j -> i = j) ->
  NoDup (ptr_names (trace (brute_force C kw domain subdomains ∅ w)))
  /\ (exists batches L,
        ptr_names (trace (brute_force C kw domain subdomains ∅ w))
          = ptr_name C <$> L
        /\ NoDup L
        /\ Forall valid_ip L
        /\ Forall (Forall valid_ip) batches
        /\ L `prefix_of` walk C (survivors batches ∅).1
        /\ (forall v,
              outcome (brute_force C kw domain subdomains ∅ w) = Ok v ->
              v = (survivors batches ∅).2
              /\ L = walk C (survivors batches ∅).1
              /\ L ≡ₚ elements v))
  /\ (forall batches visited,
        NoDup (walk C (survivors batches visited).1)
        /\ (forall j k s t,
              j <> k ->
              (survivors batches visited).1 !! j = Some s ->
              (survivors batches visited).1 !! k = Some t ->
              s ## t)
        /\ (forall s,
              s ∈ (survivors batches visited).1 ->
              s ## visited /\ s ⊆ (survivors batches visited).2)
        /\ visited ⊆ (survivors batches visited).2
        /\ (survivors batches visited).2
           = visited ∪ ⋃ (list_to_set <$> batches)
        /\ sum_list (size <$> (survivors batches ∅).1)
           = size (⋃ (list_to_set (C:=gset Z) <$> batches))).
Proof.
  intros Hinj.
  destruct (brute_force_lookups C kw domain subdomains ∅ w)
    as (batches & L & (Hn & Hp & Ho) & Hvb).
  assert (NoDup L) as HndL.
  { destruct Hp as [k Hk].
    pose proof (NoDup_walk_survivors C batches ∅) as Hnd.
    rewrite Hk in Hnd. by apply NoDup_app in Hnd as [? _]. }
  assert (forall x, x ∈ walk C (survivors batches ∅).1 ->
            x ∈ ⋃ (list_to_set (C:=gset Z) <$> batches)) as Hwalk.
  { intros x (s & Hs & Hx)%elem_of_walk.
    by destruct (survivors_new _ _ _ x Hs Hx). }
  assert (forall x, x ∈ ⋃ (list_to_set (C:=gset Z) <$> batches) ->
            valid_ip x) as Hvu.
  { intros x (X & (ips & -> & Hips)%list_elem_of_fmap & Hx)%elem_of_union_list.
    rewrite Forall_forall in Hvb. specialize (Hvb _ Hips).
    rewrite Forall_forall in Hvb. apply Hvb. by apply elem_of_list_to_set in Hx. }
  assert (Forall valid_ip L) as HvL.
  { apply Forall_forall. intros x Hx. apply Hvu, Hwalk.
    destruct Hp as [k ->]. apply elem_of_app. by left. }
  split; [|split].
  - rewrite Hn. apply NoDup_fmap_2_strong; [|done].
    intros x y Hx Hy. rewrite Forall_forall in HvL.
    apply Hinj; by apply HvL.
  - exists batches, L. split; [done|]. split; [done|]. split; [done|].
    split; [done|]. split; [done|].
    intros v Hv. destruct (Ho v Hv) as [-> ->]. split; [done|]. split; [done|].
    apply NoDup_Permutation; [done|apply NoDup_elements|].
    intros x. rewrite elem_of_elements, survivors_visited. split.
    + intros Hx. apply elem_of_union. right. by apply Hwalk.
    + intros [Hx|Hx]%elem_of_union; [set_solver|].
      apply elem_of_walk. apply survivors_union; [done|set_solver].
  - intros batches' visited.
    split; [apply NoDup_walk_survivors|].
    split; [apply survivors_pairwise|].
    split; [|split; [|split]].
    + intros s Hs. split.
      * intros x Hx Hv. by destruct (survivors_new _ _ _ x Hs Hx).
      * intros x Hx. rewrite survivors_visited.
        destruct (survivors_new _ _ _ x Hs Hx). set_solver.
    + rewrite survivors_visited. set_solver.
    + apply survivors_visited.
    + rewrite survivors_size. by rewrite difference_empty_L.
Qed.

Lemma visited_deduplicates_witness :
  (forall i j, valid_ip i -> valid_ip j ->
     ptr_name (Script.collab refused_world) i
     = ptr_name (Script.collab refused_world) j -> i = j)
  /\ ptr_names (trace (brute_force (Script.collab refused_world)
                         example_options "example.test" ["www"; "mail"] ∅ tt))
     = ["3.0.0.10.in-addr.arpa."; "1.0.0.10.in-addr.arpa.";
        "2.0.0.10.in-addr.arpa."; "4.0.0.10.in-addr.arpa."]
  /\ NoDup (ptr_names (trace (brute_force (Script.collab refused_world)
                                example_options "example.test"
                                ["www"; "mail"] ∅ tt))).
Proof.
  assert (forall i j, valid_ip i -> valid_ip j ->
            ptr_name (Script.collab refused_world) i
            = ptr_name (Script.collab refused_world) j -> i = j) as Hinj.
  { intros i j Hi Hj. apply reverse_name_inj; done. }
  split; [exact Hinj|]. split; [vm_compute; reflexivity|].
  exact (proj1 (visited_deduplicates (Script.collab refused_world)
                  example_options "example.test" ["www"; "mail"] tt Hinj)).
Defined.


(** * Further properties of the code *)

(** ** Expanding a hit *)

(** X1: when the window [ip - n, ip + n] stays inside the address space,
    [traverse_expander] returns without an exception the addresses of the
    window that lie in the /24 of [ip], each once; [ip] itself is one of
    them and there are at most [2 n + 1]. *)
Theorem traverse_expander_window ip n :
  valid_ip ip -> 0 <= n -> n <= ip -> ip + n <= ALL_ONES ->
  exists l,
    traverse_expander ip n = Ok l
    /\ NoDup l
    /\ (forall x, x ∈ l <->
          ip - n <= x <= ip + n
          /\ ip - ip `mod` 256 <= x < ip - ip `mod` 256 + 256)
    /\ ip ∈ l
    /\ Z.of_nat (length l) <= 2 * n + 1.
Proof.
  intros Hv Hn Hlo Hhi.
  destruct (traverse_expander_inside ip n Hv Hn Hlo Hhi) as (l & Hl & Hnd & Hin).
  exists l. split; [done|]. split; [done|]. split; [done|]. split.
  - apply Hin.
    assert (0 <= ip `mod` 256 < 256) by (apply Z.mod_pos_bound; lia). lia.
  - assert (l ⊆+ seqZ (ip - n) (2 * n + 1)) as Hsub.
    { apply NoDup_submseteq; [done|].
      intros x Hx%Hin. apply elem_of_seqZ. lia. }
    apply submseteq_length in Hsub. rewrite length_seqZ in Hsub. lia.
Qed.

Lemma traverse_expander_window_witness :
  valid_ip 167772165 /\ 0 <= 5 /\ 5 <= 167772165
  /\ 167772165 + 5 <= ALL_ONES
  /\ exists l,
       traverse_expander 167772165 5 = Ok l
       /\ NoDup l
       /\ (forall x, x ∈ l <->
             167772165 - 5 <= x <= 167772165 + 5
             /\ 167772165 - 167772165 `mod` 256 <= x
                < 167772165 - 167772165 `mod` 256 + 256)
       /\ 167772165 ∈ l
       /\ Z.of_nat (length l) <= 2 * 5 + 1.
Proof.
  assert (valid_ip 167772165) as Hv by (unfold valid_ip, ALL_ONES; lia).
  assert (0 <= 5) as Hn by lia.
  assert (5 <= 167772165) as Hlo by lia.
  assert (167772165 + 5 <= ALL_ONES) as Hhi by (unfold ALL_ONES; lia).
  split; [exact Hv|]. split; [exact Hn|]. split; [exact Hlo|].
  split; [exact Hhi|].
  exact (traverse_expander_window 167772165 5 Hv Hn Hlo Hhi).
Defined.

(** X2: for an address and a window size that is not negative,
    [traverse_expander] raises exactly when the window reaches below
    0.0.0.0 or above 255.255.255.255, and what it raises is
    [AddressValueError]: the /24 filter is not reached. *)
Theorem traverse_expander_raises_iff ip n :
  valid_ip ip -> 0 <= n ->
  ((exists e, traverse_expander ip n = Raise e)
   <-> ip < n \/ ALL_ONES < ip + n)
  /\ (forall e, traverse_expander ip n = Raise e -> e = AddressValueError).
Proof.
  intros Hv Hn.
  destruct (decide (ip < n \/ ALL_ONES < ip + n)) as [Hout|Hin].
  - rewrite (traverse_expander_outside ip n Hv Hn Hout).
    split; [|by intros e [= <-]]. split; [done|]. intros _. by eexists.
  - destruct (traverse_expander_inside ip n Hv Hn) as (l & Hl & _);
      [lia..|].
    rewrite Hl. split; [|done]. split; [by intros [e ?]|done].
Qed.

Lemma traverse_expander_raises_iff_witness :
  valid_ip 3 /\ 0 <= 5
  /\ ((exists e, traverse_expander 3 5 = Raise e)
      <-> 3 < 5 \/ ALL_ONES < 3 + 5)
  /\ (forall e, traverse_expander 3 5 = Raise e -> e = AddressValueError).
Proof.
  assert (valid_ip 3) as Hv by (unfold valid_ip, ALL_ONES; lia).
  assert (0 <= 5) as Hn by lia.
  split; [exact Hv|]. split; [exact Hn|].
  exact (traverse_expander_raises_iff 3 5 Hv Hn).
Defined.

(** X3: the degenerate windows.  A window of size 0 gives the address
    alone, and a negative size gives no address at all, with no
    exception, wherever the address lies. *)
Theorem traverse_expander_degenerate ip n :
  valid_ip ip -> n <= 0 ->
  traverse_expander ip n = Ok (if decide (n = 0) then [ip] else []).
Proof.
  intros Hv Hle.
  assert (0 <= ip `mod` 2 ^ 8 < 2 ^ 8) as Hb by (apply Z.mod_pos_bound; lia).
  assert (0 <= ip - ip `mod` 2 ^ 8) as Hn0.
  { unfold valid_ip in Hv. pose proof (Z.mod_le ip (2 ^ 8)). lia. }
  assert ((ip - ip `mod` 2 ^ 8) `mod` 2 ^ 8 = 0) as Hm.
  { rewrite Zminus_mod_idemp_r, Z.sub_diag, Z.mod_0_l; lia. }
  unfold traverse_expander. rewrite get_class_c_network_ok by done.
  cbn [Res.bind]. destruct (decide (n = 0)) as [->|Hneg].
  - change (py_range (- 0) (0 + 1)) with [0].
    rewrite mapM_IPv4Address_ok by (constructor; [by rewrite Z.add_0_r|done]).
    cbn [Res.bind map]. rewrite Z.add_0_r.
    rewrite filter_cons_True; [done|].
    apply net_contains_24; [done..|]. lia.
  - unfold py_range.
    replace (seqZ (- n) (n + 1 - - n)) with (@nil Z); [done|].
    unfold seqZ. by destruct (n + 1 - - n) eqn:E; try lia.
Qed.

Lemma traverse_expander_degenerate_witness :
  valid_ip 4294967295 /\ -1 <= 0
  /\ traverse_expander 4294967295 (-1)
     = Ok (if decide (-1 = 0) then [4294967295] else []).
Proof.
  assert (valid_ip 4294967295) as Hv by (unfold valid_ip, ALL_ONES; lia).
  assert (-1 <= 0) as Hle by lia.
  split; [exact Hv|]. split; [exact Hle|].
  exact (traverse_expander_degenerate 4294967295 (-1) Hv Hle).
Defined.

(** X4: for every address [wide_expander] returns without an exception
    the 256 addresses of its /24, each once, from the one that ends in 0
    to the one that ends in 255; whatever [traverse_expander] returns for
    the same address is among them. *)
Theorem wide_expander_spec ip :
  valid_ip ip ->
  exists l,
    wide_expander ip = Ok l
    /\ l = seqZ (ip - ip `mod` 256) 256
    /\ length l = 256%nat
    /\ NoDup l
    /\ ip ∈ l
    /\ Forall valid_ip l
    /\ (forall n l', traverse_expander ip n = Ok l' -> l' ⊆ l).
Proof.
  intros Hv.
  assert (0 <= ip `mod` 2 ^ 8 < 2 ^ 8) as Hb by (apply Z.mod_pos_bound; lia).
  assert (0 <= ip - ip `mod` 2 ^ 8) as Hn0.
  { unfold valid_ip in Hv. pose proof (Z.mod_le ip (2 ^ 8)). lia. }
  assert ((ip - ip `mod` 2 ^ 8) `mod` 2 ^ 8 = 0) as Hm.
  { rewrite Zminus_mod_idemp_r, Z.sub_diag, Z.mod_0_l; lia. }
  assert (ip - ip `mod` 2 ^ 8 + 256 <= ALL_ONES + 1) as Htop.
  { unfold valid_ip, ALL_ONES in *.
    pose proof (Z.div_mod ip (2 ^ 8) ltac:(lia)) as Hdm.
    assert (ip `div` 2 ^ 8 < 2 ^ 24) by (apply Z.div_lt_upper_bound; lia).
    lia. }
  exists (seqZ (ip - ip `mod` 256) 256).
  unfold wide_expander. rewrite get_class_c_network_ok by done.
  cbn [Res.bind]. unfold net_list. rewrite num_addresses_24 by done.
  cbn [network_address]. change (2 ^ 8) with 256 in *.
  split; [done|]. split; [done|]. split; [by rewrite length_seqZ|].
  split; [apply NoDup_seqZ|]. split; [apply elem_of_seqZ; lia|]. split.
  - apply Forall_forall. intros x Hx%elem_of_seqZ. unfold valid_ip. lia.
  - intros n l'. unfold traverse_expander.
    rewrite get_class_c_network_ok by done. cbn [Res.bind].
    destruct (Res.mapM _ _) as [result|e] eqn:Hres; [|done].
    cbn [Res.bind]. intros [= <-] x [Hc Hx]%list_elem_of_filter.
    apply elem_of_seqZ.
    assert (valid_ip x) as Hvx.
    { clear Hc. revert result Hres Hx.
      induction (py_range (- n) (n + 1)) as [|i more IH]; intros result.
      - by intros [= <-] ?%elem_of_nil.
      - cbn [Res.mapM]. unfold IPv4Address at 1. case_bool_decide as Hi;
          [|done].
        cbn [Res.bind].
        destruct (Res.mapM _ more) as [rest|e]; [|done].
        cbn [Res.bind]. intros [= <-] [->|Hx]%elem_of_cons; [exact Hi|].
        by apply (IH rest). }
    apply (net_contains_24 (ip - ip `mod` 2 ^ 8) x Hn0 Hm Hvx) in Hc.
    change (2 ^ 8) with 256 in Hc. lia.
Qed.

Lemma wide_expander_spec_witness :
  valid_ip 167772165
  /\ exists l,
       wide_expander 167772165 = Ok l
       /\ l = seqZ (167772165 - 167772165 `mod` 256) 256
       /\ length l = 256%nat
       /\ NoDup l
       /\ 167772165 ∈ l
       /\ Forall valid_ip l
       /\ (forall n l', traverse_expander 167772165 n = Ok l' -> l' ⊆ l).
Proof.
  assert (valid_ip 167772165) as Hv by (unfold valid_ip, ALL_ONES; lia).
  split; [exact Hv|]. exact (wide_expander_spec 167772165 Hv).
Defined.

(** X5: the /24 networks partition the address space: an address is a
    member of the class C network of another one exactly when both have
    the same class C network. *)
Theorem class_c_partition ip x net :
  valid_ip ip -> valid_ip x -> get_class_c_network ip = Ok net ->
  net_contains net x = true <-> get_class_c_network x = Ok net.
Proof.
  intros Hv Hx. rewrite !get_class_c_network_ok by done. intros [= <-].
  assert (0 <= ip `mod` 2 ^ 8 < 2 ^ 8) as Hb by (apply Z.mod_pos_bound; lia).
  assert (0 <= x `mod` 2 ^ 8 < 2 ^ 8) as Hbx by (apply Z.mod_pos_bound; lia).
  assert (0 <= ip - ip `mod` 2 ^ 8) as Hn0.
  { unfold valid_ip in Hv. pose proof (Z.mod_le ip (2 ^ 8)). lia. }
  assert ((ip - ip `mod` 2 ^ 8) `mod` 2 ^ 8 = 0) as Hm.
  { rewrite Zminus_mod_idemp_r, Z.sub_diag, Z.mod_0_l; lia. }
  rewrite net_contains_24 by done.
  pose proof (Z.div_mod ip (2 ^ 8) ltac:(lia)) as Hdi.
  pose proof (Z.div_mod x (2 ^ 8) ltac:(lia)) as Hdx.
  change (2 ^ 8) with 256 in *. split.
  - intros Hr. f_equal. f_equal. lia.
  - intros [= Heq]. lia.
Qed.

Lemma class_c_partition_witness :
  valid_ip 167772165 /\ valid_ip 167772415
  /\ get_class_c_network 167772165 = Ok (mkNet 167772160 24)
  /\ (net_contains (mkNet 167772160 24) 167772415 = true
      <-> get_class_c_network 167772415 = Ok (mkNet 167772160 24)).
Proof.
  assert (valid_ip 167772165) as Hv by (unfold valid_ip, ALL_ONES; lia).
  assert (valid_ip 167772415) as Hx by (unfold valid_ip, ALL_ONES; lia).
  assert (get_class_c_network 167772165 = Ok (mkNet 167772160 24)) as Hnet
    by (vm_compute; reflexivity).
  split; [exact Hv|]. split; [exact Hx|]. split; [exact Hnet|].
  exact (class_c_partition 167772165 167772415 _ Hv Hx Hnet).
Defined.


(** ** Queries *)

(** X6: [query] makes one call to the resolver and keeps the resolver's
    state; records are returned as they are, NXDOMAIN becomes [None] and
    is the only way to get [None], and every other exception leaves
    [query] as it was raised. *)
Theorem query_taxonomy {W} (C : Collab W) name rt w :
  trace (query C name rt w) = [EvQuery name rt (resolver_query C name rt w).1]
  /\ final (query C name rt w) = (resolver_query C name rt w).2
  /\ outcome (query C name rt w)
     = match (resolver_query C name rt w).1 with
       | Ok a => Ok (Some a)
       | Raise NXDOMAIN => Ok None
       | Raise e => Raise e
       end
  /\ (outcome (query C name rt w) = Ok None
      <-> (resolver_query C name rt w).1 = Raise NXDOMAIN).
Proof.
  rewrite query_run. unfold trace, final, outcome. cbn [fst snd].
  split; [done|]. split; [done|].
  destruct (resolver_query C name rt w).1 as [a|[]]; cbn [is_NXDOMAIN];
    (split; [done|]); split; intros; by simplify_eq.
Qed.

(** ** The stages of a run *)

(** X7: a call that is not part of the configuration of the name servers
    or of the range scan (a forward, NS or SOA query, a zone transfer, the
    random number of the wildcard probe, a pause) is only made when a
    non-empty domain is configured and both the configuration and the
    range scan returned without an exception. *)
Theorem domain_scan_preconditions {W} (C : Collab W) kw w ev :
  ev ∈ trace (fierce C kw w) -> is_early_event ev = false ->
  exists domain,
    kw_domain kw = Some domain
    /\ truthy_str domain = true
    /\ outcome (configure_nameservers C kw w) = Ok tt
    /\ outcome (internal_range_scan C kw
                  (final (configure_nameservers C kw w))) = Ok tt.
Proof.
  intros Hev Hlate.
  destruct (fierce_cases C kw w) as [Hall|(d & Hd & Htr & Hc & Hs & _)].
  - rewrite Forall_forall in Hall. specialize (Hall ev Hev). congruence.
  - by exists d.
Qed.

Lemma domain_scan_preconditions_witness :
  EvXfr "10.0.0.2" "example.test" (Ok example_zone) ∈ trace transfer_run
  /\ is_early_event (EvXfr "10.0.0.2" "example.test" (Ok example_zone))
     = false
  /\ exists domain,
       kw_domain example_options = Some domain
       /\ truthy_str domain = true
       /\ outcome (configure_nameservers (Script.collab transfer_world)
                     example_options tt) = Ok tt
       /\ outcome (internal_range_scan (Script.collab transfer_world)
                     example_options
                     (final (configure_nameservers
                               (Script.collab transfer_world)
                               example_options tt))) = Ok tt.
Proof.
  assert (EvXfr "10.0.0.2" "example.test" (Ok example_zone)
          ∈ trace transfer_run) as Hev.
  { apply list_elem_of_lookup. exists 11%nat. vm_compute. reflexivity. }
  split; [exact Hev|]. split; [reflexivity|].
  exact (domain_scan_preconditions (Script.collab transfer_world)
           example_options tt _ Hev eq_refl).
Defined.

(** X8: with no domain, or an empty one, a run is the configuration of
    the name servers followed by the range scan and nothing else, and it
    ends as the range scan ends; when the configuration itself raises,
    the run is the configuration alone and ends with its exception. *)
Theorem range_only_run {W} (C : Collab W) kw w :
  kw_domain kw = None \/ kw_domain kw = Some EmptyString ->
  match outcome (configure_nameservers C kw w) with
  | Ok _ =>
      outcome (fierce C kw w)
        = outcome (internal_range_scan C kw
                     (final (configure_nameservers C kw w)))
      /\ trace (fierce C kw w)
         = trace (configure_nameservers C kw w)
           ++ trace (internal_range_scan C kw
                       (final (configure_nameservers C kw w)))
  | Raise e =>
      outcome (fierce C kw w) = Raise e
      /\ trace (fierce C kw w) = trace (configure_nameservers C kw w)
  end.
Proof.
  intros Hdom.
  destruct (fierce_shape C kw w)
    as [(e & Hc & Hr)|(Hc & [(e & Hs & Ho & Ht)|(Hs & Hd)])].
  - rewrite Hc, Hr. by rewrite Hc.
  - rewrite Hc. by rewrite Hs, Ho.
  - rewrite Hc, Hs.
    destruct Hdom as [Hdom|Hdom]; rewrite Hdom in Hd; exact Hd.
Qed.

Lemma range_only_run_witness :
  (kw_domain range_only = None \/ kw_domain range_only = Some EmptyString)
  /\ match outcome (configure_nameservers (Script.collab quiet_world)
                      range_only tt) with
     | Ok _ =>
         outcome (fierce (Script.collab quiet_world) range_only tt)
           = outcome (internal_range_scan (Script.collab quiet_world)
                        range_only
                        (final (configure_nameservers
                                  (Script.collab quiet_world) range_only tt)))
         /\ trace (fierce (Script.collab quiet_world) range_only tt)
            = trace (configure_nameservers (Script.collab quiet_world)
                       range_only tt)
              ++ trace (internal_range_scan (Script.collab quiet_world)
                          range_only
                          (final (configure_nameservers
                                    (Script.collab quiet_world)
                                    range_only tt)))
     | Raise e =>
         outcome (fierce (Script.collab quiet_world) range_only tt) = Raise e
         /\ trace (fierce (Script.collab quiet_world) range_only tt)
            = trace (configure_nameservers (Script.collab quiet_world)
                       range_only tt)
     end.
Proof.
  assert (kw_domain range_only = None
          \/ kw_domain range_only = Some EmptyString) as Hdom
    by (left; reflexivity).
  split; [exact Hdom|].
  exact (range_only_run (Script.collab quiet_world) range_only tt Hdom).
Defined.

(** X9: when the NS query of the domain raises, it is the last call of
    the run: the run ends with the exception, a [TypeError] when the
    resolver said NXDOMAIN, and all that came before is the configuration
    of the name servers and the range scan. *)
Theorem ns_failure_is_fatal {W} (C : Collab W) kw w pre name e post :
  trace (fierce C kw w) = pre ++ EvQuery name RT_NS (Raise e) :: post ->
  outcome (fierce C kw w) = Raise (if is_NXDOMAIN e then TypeError else e)
  /\ post = []
  /\ kw_domain kw = Some name
  /\ pre = trace (configure_nameservers C kw w)
           ++ trace (internal_range_scan C kw
                       (final (configure_nameservers C kw w))).
Proof.
  intros Hsplit.
  assert (forall ev, is_early_event ev = true -> is_ns_query ev = false)
    as Hearly.
  { intros ev [H|H]%orb_prop; [by apply setup_not_ns|by apply lookup_not_ns]. }
  destruct (fierce_cases C kw w)
    as [Hall|(d & Hd & Htr & Hc & Hs & Ho & Ht)].
  { exfalso. eapply (no_event is_ns_query); [|exact Hsplit|done].
    eapply Forall_impl; [exact Hall|exact Hearly]. }
  pose proof (early_events C kw w (final (configure_nameservers C kw w)))
    as Hbefore.
  set (c := configure_nameservers C kw w) in *.
  set (s := internal_range_scan C kw (final c)) in *.
  assert (Forall (fun ev => is_ns_query ev = false) (trace c ++ trace s))
    as Hnons.
  { eapply Forall_impl; [exact Hbefore|exact Hearly]. }
  rewrite Ho. rewrite Ht in Hsplit.
  destruct (domain_scan_shape C kw d (final s))
    as [(e' & Hdt & Hdo)
       |[(ns & e' & Hdt & Hdo)
       |[(ns & soa & e' & Hm & Hdt & Hdo)
       |[(ns & soa & mname & e' & Hm & Hdt & Hdo)
       |[(ns & soa & mname & master & e' & Hm & Ha & Hdt & Hdo)
       |(ns & soa & mname & master & addr & Hm & Ha &
         [(z' & Hdt & Hdo)
         |[(e' & He & Hdt & Hdo)|(e' & w' & He & Hdt & Hdo)]])]]]]];
    rewrite Hdt in Hsplit; rewrite Hdo.
  1: { apply (unique_event is_ns_query) in Hsplit as (-> & Hev & ->);
         [|exact Hnons|constructor|done].
       by simplify_eq. }
  all: exfalso; unfold scan_head in Hsplit; cbn [app] in Hsplit;
    apply (unique_event is_ns_query) in Hsplit as (_ & Hev & _);
    [done|exact Hnons| |done];
    repeat (apply Forall_cons; split; [done|]);
    first [apply Forall_nil; done|apply after_transfer, late_not_ns].
Qed.

Lemma ns_failure_is_fatal_witness :
  trace (fierce (Script.collab quiet_world) domain_only tt)
    = [] ++ EvQuery "example.test" RT_NS (Raise NXDOMAIN) :: []
  /\ outcome (fierce (Script.collab quiet_world) domain_only tt)
     = Raise TypeError
  /\ kw_domain domain_only = Some "example.test".
Proof.
  assert (trace (fierce (Script.collab quiet_world) domain_only tt)
          = [] ++ EvQuery "example.test" RT_NS (Raise NXDOMAIN) :: [])
    as Hsplit by (vm_compute; reflexivity).
  split; [exact Hsplit|].
  destruct (ns_failure_is_fatal (Script.collab quiet_world) domain_only tt
              _ _ _ _ Hsplit) as (Ho & _ & Hd & _).
  split; [exact Ho|exact Hd].
Defined.

(** X10: a run tries at most one zone transfer; it is for the configured
    domain, at the address of the first A record of the master name, the
    master name being that of the first SOA record of the domain, both
    queried earlier in the run. *)
Theorem at_most_one_transfer {W} (C : Collab W) kw w :
  (length (filter (fun ev => is_xfr ev = true) (trace (fierce C kw w))) <= 1)%nat
  /\ (forall address domain r,
        EvXfr address domain r ∈ trace (fierce C kw w) ->
        kw_domain kw = Some domain
        /\ exists soa mname master,
             get_mname (ans_first soa) = Ok mname
             /\ get_address (ans_first master) = Ok address
             /\ EvQuery domain RT_SOA (Ok soa) ∈ trace (fierce C kw w)
             /\ EvQuery mname RT_A (Ok master) ∈ trace (fierce C kw w)).
Proof.
  assert (forall t, Forall (fun ev => is_xfr ev = false) t ->
            filter (fun ev => is_xfr ev = true) t = []) as Hnone.
  { induction 1 as [|ev t Hev _ IH]; [done|].
    rewrite filter_cons_False by congruence. done. }
  assert (forall t address domain r,
            Forall (fun ev => is_xfr ev = false) t ->
            EvXfr address domain r ∈ t -> False) as Hnot.
  { intros t address domain r Hall Hin. rewrite Forall_forall in Hall.
    by specialize (Hall _ Hin). }
  assert (forall ev, is_early_event ev = true -> is_xfr ev = false) as Hearly.
  { intros ev [H|H]%orb_prop; [by apply setup_not_xfr|by apply lookup_not_xfr]. }
  destruct (fierce_cases C kw w)
    as [Hall|(d & Hd & Htr & Hc & Hs & Ho & Ht)].
  { assert (Forall (fun ev => is_xfr ev = false) (trace (fierce C kw w)))
      as Hno by (eapply Forall_impl; [exact Hall|exact Hearly]).
    split; [rewrite Hnone by done; cbn; lia|].
    intros address domain r Hin. destruct (Hnot _ _ _ _ Hno Hin). }
  pose proof (early_events C kw w (final (configure_nameservers C kw w)))
    as Hbefore.
  set (c := configure_nameservers C kw w) in *.
  set (s := internal_range_scan C kw (final c)) in *.
  assert (Forall (fun ev => is_xfr ev = false) (trace c ++ trace s)) as Hnox.
  { eapply Forall_impl; [exact Hbefore|exact Hearly]. }
  rewrite Ht.
  destruct (domain_scan_shape C kw d (final s))
    as [(e' & Hdt & Hdo)
       |[(ns & e' & Hdt & Hdo)
       |[(ns & soa & e' & Hm & Hdt & Hdo)
       |[(ns & soa & mname & e' & Hm & Hdt & Hdo)
       |[(ns & soa & mname & master & e' & Hm & Ha & Hdt & Hdo)
       |(ns & soa & mname & master & addr & Hm & Ha & Hlast)]]]]].
  1-5: rewrite Hdt;
    assert (Forall (fun ev => is_xfr ev = false)
              (trace (domain_scan C kw d (final s)))) as Hnod
      by (rewrite Hdt; by repeat constructor);
    rewrite Hdt in Hnod;
    (split; [rewrite filter_app, !Hnone by done; cbn; lia|]);
    intros address domain r [Hin|Hin]%elem_of_app;
    [destruct (Hnot _ _ _ _ Hnox Hin)|destruct (Hnot _ _ _ _ Hnod Hin)].
  assert (exists rx rest,
            trace (domain_scan C kw d (final s))
            = scan_head d ns soa master mname addr
              ++ EvXfr addr d rx :: rest
            /\ Forall (fun ev => is_xfr ev = false) rest)
    as (rx & rest & Hdt & Hrest).
  { destruct Hlast as [(z' & Hdt & _)
                      |[(e' & He & Hdt & _)|(e' & w' & He & Hdt & _)]];
      rewrite Hdt.
    - eexists _, _. split; [reflexivity|by repeat constructor].
    - eexists _, _. split; [reflexivity|by repeat constructor].
    - eexists _, _. split; [reflexivity|].
      constructor; [done|]. apply after_transfer, late_not_xfr. }
  rewrite Hdt. split.
  - rewrite filter_app, (Hnone (trace c ++ trace s)) by done.
    rewrite filter_app, (Hnone (scan_head d ns soa master mname addr))
      by (by repeat constructor).
    rewrite filter_cons_True by done. rewrite (Hnone rest) by done.
    cbn. lia.
  - intros address domain r [Hin|[Hin|Hin]%elem_of_app]%elem_of_app.
    + destruct (Hnot _ _ _ _ Hnox Hin).
    + exfalso. eapply (Hnot (scan_head d ns soa master mname addr));
        [by repeat constructor|exact Hin].
    + apply elem_of_cons in Hin as [Hin|Hin];
        [|destruct (Hnot _ _ _ _ Hrest Hin)].
      injection Hin as -> -> ->. split; [done|].
      exists soa, mname, master. split; [done|]. split; [done|].
      split; apply elem_of_app; right; apply elem_of_app; left;
        unfold scan_head; set_solver.
Qed.

(** ** The wildcard probe and the subdomains *)

(** X11: the wildcard probe only prints.  With subdomains given on the
    command line, when the query of the random name is answered with
    records or with NXDOMAIN, the run goes on with the "Wildcard" line
    and then with the subdomain loop on these subdomains, started with an
    empty [visited] in the state the probe left; no file is read. *)
Theorem wildcard_probe_only_prints {W} (C : Collab W) kw domain w subdomains :
  kw_subdomains kw = Some subdomains -> subdomains <> [] ->
  soft (resolver_query C (pretty (randint C w).1 +:+ "." +:+ domain) RT_A
          (randint C w).2).1 = true ->
  trace (wildcard_and_brute_force C kw domain w)
    = [EvRandint (randint C w).1;
       EvQuery (pretty (randint C w).1 +:+ "." +:+ domain) RT_A
         (resolver_query C (pretty (randint C w).1 +:+ "." +:+ domain) RT_A
            (randint C w).2).1;
       EvPrint
         (match (resolver_query C (pretty (randint C w).1 +:+ "." +:+ domain)
                   RT_A (randint C w).2).1 with
          | Ok _ => "Wildcard: success"
          | Raise _ => "Wildcard: failure"
          end)]
      ++ trace (brute_force C kw domain subdomains ∅
                  (resolver_query C
                     (pretty (randint C w).1 +:+ "." +:+ domain) RT_A
                     (randint C w).2).2)
  /\ outcome (wildcard_and_brute_force C kw domain w)
     = match outcome (brute_force C kw domain subdomains ∅
                        (resolver_query C
                           (pretty (randint C w).1 +:+ "." +:+ domain) RT_A
                           (randint C w).2).2) with
       | Ok _ => Ok tt
       | Raise e => Raise e
       end.
Proof.
  intros Hsubs Hne Hsoft. unfold wildcard_and_brute_force.
  rewrite bind_run. unfold call_randint.
  destruct (randint C w) as [v w1]. cbn [fst snd] in *.
  rewrite bind_run, query_run.
  destruct (resolver_query C (pretty v +:+ "." +:+ domain) RT_A w1)
    as [r w2]. cbn [fst snd] in *.
  assert (exists wildcard,
            match r with
            | Ok a => Ok (Some a)
            | Raise e => if is_NXDOMAIN e then Ok None else Raise e
            end = Ok wildcard
            /\ match r with
               | Ok _ => "Wildcard: success"
               | Raise _ => "Wildcard: failure"
               end
               = "Wildcard: " +:+
                 (if truthy_opt truthy_answer wildcard then "success"
                  else "failure")) as (wildcard & -> & ->).
  { destruct r as [a|e]; [by exists (Some a)|].
    destruct e; try done. by exists None. }
  unfold print. rewrite bind_emit_after. rewrite Hsubs.
  replace (truthy_opt truthy_list (Some subdomains)) with true
    by (by destruct subdomains).
  rewrite bind_ret_run. cbn [from_option id]. rewrite bind_run.
  destruct (brute_force C kw domain subdomains ∅ w2) as [[[v'|e] w3] t3];
    unfold outcome, trace, after, final; cbn [fst snd];
    (split; [|reflexivity]); cbn [app]; by rewrite ?app_nil_r.
Qed.

Lemma wildcard_probe_only_prints_witness :
  kw_subdomains example_options = Some ["www"; "mail"]
  /\ ["www"; "mail"] <> []
  /\ outcome (wildcard_and_brute_force (Script.collab refused_world)
                example_options "example.test" tt)
     = match outcome (brute_force (Script.collab refused_world)
                        example_options "example.test" ["www"; "mail"] ∅ tt)
       with
       | Ok _ => Ok tt
       | Raise e => Raise e
       end.
Proof.
  assert (["www"; "mail"] <> ([] : list string)) as Hne by discriminate.
  split; [reflexivity|]. split; [exact Hne|].
  exact (proj2 (wildcard_probe_only_prints (Script.collab refused_world)
                  example_options "example.test" tt ["www"; "mail"]
                  eq_refl Hne eq_refl)).
Defined.

(** X12: with no [wide] option and a window of size 0 (or none), the
    subdomain loop makes no reverse lookup: its calls are the forward
    queries and the "Found" lines, it never pauses, and [visited] is left
    as it was. *)
Theorem no_window_no_lookup {W} (C : Collab W) kw domain subdomains visited w :
  kw_wide kw = false ->
  kw_traverse kw = None \/ kw_traverse kw = Some 0 ->
  Forall (fun ev => is_hit_event ev = true)
    (trace (brute_force C kw domain subdomains visited w))
  /\ ptr_names (trace (brute_force C kw domain subdomains visited w)) = []
  /\ (forall v,
        outcome (brute_force C kw domain subdomains visited w) = Ok v ->
        v = visited).
Proof.
  intros Hwide Htraverse.
  assert (forall ip, expand kw ip = None) as Hexp.
  { intros ip. unfold expand. rewrite Hwide.
    by destruct Htraverse as [->| ->]. }
  cut (Forall (fun ev => is_hit_event ev = true)
         (trace (brute_force C kw domain subdomains visited w))
       /\ (forall v,
             outcome (brute_force C kw domain subdomains visited w) = Ok v ->
             v = visited)).
  { intros [Hall Ho]. split; [done|]. split; [|done].
    apply ptr_names_quiet. eapply Forall_impl; [exact Hall|].
    by intros [| |? [] ?| | | | |]. }
  revert w. induction subdomains as [|sd subdomains IH]; intros w.
  { split; [constructor|]. by intros v [= <-]. }
  cbn [brute_force]. rewrite bind_run, query_run.
  destruct (resolver_query C (sd +:+ "." +:+ domain) RT_A w)
    as [[record|e] w1]; cbn [fst snd].
  2:{ destruct (is_NXDOMAIN e).
      - destruct (IH w1) as [Hall Ho].
        unfold trace, outcome in *. cbn [fst snd]. split; [|exact Ho].
        by constructor.
      - unfold trace, outcome. cbn [fst snd].
        split; [by repeat constructor|done]. }
  rewrite bind_lift_run.
  destruct (get_address (ans_first record)) as [address|e].
  2:{ unfold trace, outcome. cbn [fst snd].
      split; [by repeat constructor|done]. }
  rewrite bind_lift_run.
  destruct (IPv4Address_of_text address) as [ip|e].
  2:{ unfold trace, outcome. cbn [fst snd].
      split; [by repeat constructor|done]. }
  unfold print. rewrite bind_emit_after, Hexp.
  destruct (IH w1) as [Hall Ho].
  unfold after, trace, outcome in *. cbn [fst snd app]. split; [|exact Ho].
  by repeat constructor.
Qed.

Lemma no_window_no_lookup_witness :
  kw_wide no_window = false
  /\ (kw_traverse no_window = None \/ kw_traverse no_window = Some 0)
  /\ Forall (fun ev => is_hit_event ev = true)
       (trace (brute_force (Script.collab refused_world) no_window
                 "example.test" ["www"; "mail"] ∅ tt))
  /\ ptr_names (trace (brute_force (Script.collab refused_world) no_window
                         "example.test" ["www"; "mail"] ∅ tt)) = []
  /\ (forall v,
        outcome (brute_force (Script.collab refused_world) no_window
                   "example.test" ["www"; "mail"] ∅ tt) = Ok v ->
        v = ∅).
Proof.
  assert (kw_traverse no_window = None \/ kw_traverse no_window = Some 0)
    as Htraverse by (right; reflexivity).
  split; [reflexivity|]. split; [exact Htraverse|].
  exact (no_window_no_lookup (Script.collab refused_world) no_window
           "example.test" ["www"; "mail"] ∅ tt eq_refl Htraverse).
Defined.

(** X13: the subdomain loop pauses only for the configured delay, and
    only when that delay is not zero; without a delay it never pauses. *)
Theorem pauses_are_the_delay {W} (C : Collab W) kw domain subdomains visited w
    secs r :
  EvSleep secs r ∈ trace (brute_force C kw domain subdomains visited w) ->
  kw_delay kw = Some secs /\ truthy_float secs = true.
Proof.
  intros Hin.
  cut (emits (fun ev => forall secs r, ev = EvSleep secs r ->
                kw_delay kw = Some secs /\ truthy_float secs = true)
         (brute_force C kw domain subdomains visited)).
  { intros Hall. specialize (Hall w). rewrite Forall_forall in Hall.
    by apply (Hall _ Hin secs r). }
  clear Hin. revert visited.
  induction subdomains as [|sd subdomains IH]; intros visited;
    cbn [brute_force]; [apply emits_ret|].
  apply emits_bind; [by apply emits_query|].
  intros [record|]; [|apply IH].
  apply emits_bind; [apply emits_lift|]. intros address.
  apply emits_bind; [apply emits_lift|]. intros ip.
  apply emits_bind; [by apply emits_emit|]. intros _.
  destruct (expand kw ip) as [ips|]; [|apply IH].
  apply emits_bind; [apply emits_lift|]. intros ips'.
  destruct (filter_new ips' visited) as [new visited'].
  apply emits_bind.
  { eapply emits_impl; [|apply emits_find_nearby].
    by intros [| |? [] ?| | | | |]. }
  intros _. apply emits_bind; [|intros _; apply IH].
  destruct (kw_delay kw) as [delay|]; [|apply emits_ret].
  destruct (truthy_float delay) eqn:Hd; [|apply emits_ret].
  apply emits_sleep. intros r' secs' r'' [= <- <-]. done.
Qed.

Lemma pauses_are_the_delay_witness :
  EvSleep 1.5%float (Ok tt)
    ∈ trace (brute_force (Script.collab file_world) delayed_options
               "example.test" ["www"; "mail"] ∅ tt)
  /\ kw_delay delayed_options = Some 1.5%float
  /\ truthy_float 1.5%float = true.
Proof.
  assert (EvSleep 1.5%float (Ok tt)
          ∈ trace (brute_force (Script.collab file_world) delayed_options
                     "example.test" ["www"; "mail"] ∅ tt)) as Hin.
  { apply list_elem_of_lookup. exists 7%nat. vm_compute. reflexivity. }
  split; [exact Hin|].
  exact (pauses_are_the_delay (Script.collab file_world) delayed_options
           "example.test" ["www"; "mail"] ∅ tt _ _ Hin).
Defined.

(** ** The name servers *)



(** ** The subdomains *)

Lemma a_names_app t1 t2 : a_names (t1 ++ t2) = a_names t1 ++ a_names t2.
Proof. unfold a_names. by rewrite omap_app. Qed.

Lemma a_names_lookup t :
  Forall (fun ev => is_lookup_event ev = true) t -> a_names t = [].
Proof.
  induction 1 as [|ev t Hev _ IH]; [done|].
  change (ev :: t) with ([ev] ++ t). rewrite a_names_app, IH.
  by destruct ev as [| |? [] ?| | | | |].
Qed.

Lemma a_names_after {W X} t (r : result X * W * list event) :
  a_names (trace (after t r)) = a_names t ++ a_names (trace r).
Proof. apply a_names_app. Qed.

Lemma outcome_after {W X} t (r : result X * W * list event) :
  outcome (after t r) = outcome r.
Proof. reflexivity. Qed.

(** X15: the subdomain loop resolves [subdomain.domain] for the
    subdomains in the order of the list, each once, and makes no other
    forward query; an exception stops it where it is, and when the loop
    returns every subdomain was resolved. *)
Theorem subdomains_in_order {W} (C : Collab W) kw domain subdomains visited w :
  a_names (trace (brute_force C kw domain subdomains visited w))
    `prefix_of` ((fun sd => sd +:+ "." +:+ domain) <$> subdomains)
  /\ (forall v,
        outcome (brute_force C kw domain subdomains visited w) = Ok v ->
        a_names (trace (brute_force C kw domain subdomains visited w))
        = (fun sd => sd +:+ "." +:+ domain) <$> subdomains).
Proof.
  revert visited w.
  induction subdomains as [|sd subdomains IH]; intros visited w.
  { split; [done|]. by intros v _. }
  assert (forall (r : result (gset Z) * W * list event) t,
    a_names t = [sd +:+ "." +:+ domain] ->
    (a_names (trace r)
       `prefix_of` ((fun sd => sd +:+ "." +:+ domain) <$> subdomains)
     /\ (forall v, outcome r = Ok v ->
           a_names (trace r)
           = (fun sd => sd +:+ "." +:+ domain) <$> subdomains)) ->
    a_names (trace (after t r))
      `prefix_of` ((fun sd => sd +:+ "." +:+ domain) <$> sd :: subdomains)
    /\ (forall v, outcome (after t r) = Ok v ->
          a_names (trace (after t r))
          = (fun sd => sd +:+ "." +:+ domain) <$> sd :: subdomains))
    as Hgo.
  { intros r t Ht [Hp Ho]. rewrite a_names_after, outcome_after, Ht, fmap_cons.
    split.
    - by apply (prefix_app [_]).
    - intros v Hv. by rewrite (Ho v Hv). }
  assert (forall (r : result (gset Z) * W * list event) t e,
    a_names t = [sd +:+ "." +:+ domain] ->
    a_names (trace r) = [] -> outcome r = Raise e ->
    a_names (trace (after t r))
      `prefix_of` ((fun sd => sd +:+ "." +:+ domain) <$> sd :: subdomains)
    /\ (forall v, outcome (after t r) = Ok v ->
          a_names (trace (after t r))
          = (fun sd => sd +:+ "." +:+ domain) <$> sd :: subdomains))
    as Hstop.
  { intros r t e Ht Hr Ho.
    rewrite a_names_after, outcome_after, Ht, Hr, fmap_cons, Ho. split.
    - apply (prefix_app [_]), prefix_nil.
    - by intros v. }
  cbn [brute_force]. rewrite bind_run, query_run.
  destruct (resolver_query C (sd +:+ "." +:+ domain) RT_A w)
    as [[record|e] w1]; cbn [fst snd].
  2:{ destruct (is_NXDOMAIN e).
      - by apply (Hgo _ [_]).
      - by apply (Hstop (Raise e, w1, []) [_] e). }
  rewrite bind_lift_run.
  destruct (get_address (ans_first record)) as [address|e];
    [|by apply (Hstop (Raise e, w1, []) [_] e)].
  rewrite bind_lift_run.
  destruct (IPv4Address_of_text address) as [ip|e];
    [|by apply (Hstop (Raise e, w1, []) [_] e)].
  unfold print. rewrite bind_emit_after.
  destruct (expand kw ip) as [[ips|e]|].
  3:{ apply (Hgo (after [_] _) [_]); [done|].
      destruct (IH visited w1) as [Hp Ho]. done. }
  2:{ rewrite bind_lift_run. by apply (Hstop (after [_] (Raise e, w1, [])) [_] e). }
  rewrite bind_lift_run. cbv zeta.
  destruct (filter_new ips visited) as [new visited'].
  rewrite bind_run.
  pose proof (emits_find_nearby C (set_order C new)
                (filter_of_search (kw_search kw)) w1) as Hfn.
  apply a_names_lookup in Hfn.
  destruct (find_nearby C (set_order C new) _ w1) as [[[[]|e] w2] t2].
  2:{ unfold trace in Hfn. cbn [snd] in Hfn.
      apply (Hstop (after [_] (Raise e, w2, t2)) [_] e); [done| |done].
      rewrite a_names_after. unfold trace. cbn [snd]. by rewrite Hfn. }
  unfold trace in Hfn. cbn [snd] in Hfn. unfold final. cbn [fst snd].
  rewrite bind_run.
  assert (a_names (trace ((match kw_delay kw with
                           | Some delay =>
                               if truthy_float delay then call_sleep C delay
                               else Mon.ret tt
                           | None => Mon.ret tt
                           end) w2)) = []) as Hsl.
  { destruct (kw_delay kw) as [delay|]; [|done].
    destruct (truthy_float delay); [|done].
    unfold call_sleep. by destruct (sleep C delay w2). }
  destruct ((match kw_delay kw with
             | Some delay =>
                 if truthy_float delay then call_sleep C delay
                 else Mon.ret tt
             | None => Mon.ret tt
             end) w2) as [[[[]|e] w3] t3];
    unfold trace in Hsl; cbn [snd] in Hsl.
  - destruct (IH visited' w3) as [Hp Ho].
    apply (Hgo (after [_] (after t2 (after t3 _))) [_]); [done|].
    rewrite !a_names_after, !outcome_after, Hfn, Hsl.
    change (a_names [EvPrint ?s]) with (@nil string). done.
  - apply (Hstop (after [_] (after t2 (Raise e, w3, t3))) [_] e);
      [done| |done].
    rewrite !a_names_after, Hfn. unfold trace. cbn [snd]. by rewrite Hsl.
Qed.
